(** * Report analyzer backend: chat turns, history windows and document upload

    A shallow embedding of the backend's store accessor ([crud.py]), RAG
    client ([services/lightrag.py]), chat orchestrator ([api/chat.py]) and
    document ingestion ([api/documents.py]), with the request schemas of
    [schemas.py], the session dependency of [dependencies.py] and the
    exception handlers of [main.py].

    Conventions.
    - A Python [str] is a [string]; a character is a code point below 256.
    - A UUID is an [N], a timestamp a [Z] (microseconds of the server clock).
    - Everything the handlers obtain from outside (random UUIDs, the
      database clock, database and file-system faults, the replies of the
      RAG server) is read from an oracle [Env]; the handlers themselves are
      functions on an explicit [World]. *)

From Stdlib Require Import List String Ascii Bool Arith ZArith NArith Lia.
From Stdlib Require Import Sorting.Sorted Sorting.Permutation.
Import ListNotations.

(* ================================================================== *)
(** ** Python strings and paths *)

Module Py.

Open Scope string_scope.

(** [str.isspace] on code points below 256: TAB..CR, FS..US, space,
    NEL (0x85) and NBSP (0xA0). *)
Definition isspace (c : ascii) : bool :=
  let n := nat_of_ascii c in
  (((9 <=? n) && (n <=? 13)) || ((28 <=? n) && (n <=? 32))
   || (n =? 133) || (n =? 160))%nat.

Fixpoint lstrip (s : string) : string :=
  match s with
  | EmptyString => EmptyString
  | String c s' => if isspace c then lstrip s' else s
  end.

Fixpoint rstrip (s : string) : string :=
  match s with
  | EmptyString => EmptyString
  | String c s' =>
      match rstrip s' with
      | EmptyString => if isspace c then EmptyString else String c EmptyString
      | r => String c r
      end
  end.

(** [s.strip()] *)
Definition strip (s : string) : string := rstrip (lstrip s).

(** [s[:n]] for a non-negative [n] *)
Fixpoint slice_to (n : nat) (s : string) : string :=
  match n, s with
  | S n', String c s' => String c (slice_to n' s')
  | _, _ => EmptyString
  end.

(** [s[n:]] for a non-negative [n] *)
Fixpoint slice_from (n : nat) (s : string) : string :=
  match n, s with
  | S n', String _ s' => slice_from n' s'
  | _, _ => s
  end.

(** [len(s)] *)
Definition len (s : string) : nat := String.length s.

(** truth value of a [str]: non-empty *)
Definition truthy (s : string) : bool :=
  match s with EmptyString => false | _ => true end.

(** truth value of an [Optional[str]]: neither [None] nor empty *)
Definition truthy_opt (o : option string) : bool :=
  match o with Some s => truthy s | None => false end.

(** [c.lower()] on code points below 256: A..Z and the Latin-1 capitals
    0xC0..0xDE other than the multiplication sign 0xD7. *)
Definition lower_char (c : ascii) : ascii :=
  let n := nat_of_ascii c in
  if (((65 <=? n) && (n <=? 90))
      || ((192 <=? n) && (n <=? 222) && negb (n =? 215)))%nat
  then ascii_of_nat (n + 32) else c.

Fixpoint lower (s : string) : string :=
  match s with
  | EmptyString => EmptyString
  | String c s' => String (lower_char c) (lower s')
  end.

(** [s.rstrip(c)] for a single character [c] *)
Fixpoint rstrip_char (c : ascii) (s : string) : string :=
  match s with
  | EmptyString => EmptyString
  | String a s' =>
      match rstrip_char c s' with
      | EmptyString => if Ascii.eqb a c then EmptyString else String a EmptyString
      | r => String a r
      end
  end.

(** [s.split(sep)] for a single character [sep] *)
Fixpoint split (sep : ascii) (s : string) : list string :=
  match s with
  | EmptyString => [EmptyString]
  | String c s' =>
      if Ascii.eqb c sep then EmptyString :: split sep s'
      else match split sep s' with
           | p :: ps => String c p :: ps
           | [] => [String c EmptyString]
           end
  end.

(** [s.rfind(c)]: index of the last occurrence, [None] for -1 *)
Fixpoint rfind (c : ascii) (s : string) : option nat :=
  match s with
  | EmptyString => None
  | String a s' =>
      match rfind c s' with
      | Some i => Some (S i)
      | None => if Ascii.eqb a c then Some 0 else None
      end
  end.

(** [pathlib.PurePosixPath(p).name]: the last component, where empty
    components and ["."] components are dropped while parsing. *)
Definition path_name (p : string) : string :=
  last (filter (fun part => truthy part && negb (part =? "."))
               (split "/" p)) "".

(** Position of the dot that starts the suffix: the last dot of the name,
    when it is neither the first nor the last character (pathlib up to
    Python 3.13). *)
Definition suffix_index (name : string) : option nat :=
  match rfind "." name with
  | Some i => if ((0 <? i) && (i <? len name - 1))%nat then Some i else None
  | None => None
  end.

(** [Path(p).suffix] *)
Definition path_suffix (p : string) : string :=
  let name := path_name p in
  match suffix_index name with
  | Some i => slice_from i name
  | None => ""
  end.

(** [Path(p).stem] *)
Definition path_stem (p : string) : string :=
  let name := path_name p in
  match suffix_index name with
  | Some i => slice_to i name
  | None => name
  end.

(** [Path(d) / name], for a [name] without a slash *)
Definition path_join (d name : string) : string := d ++ "/" ++ name.

End Py.

(* ================================================================== *)
(** ** models.py: the two tables *)

Definition UUID := N.
Definition Time := Z.

Inductive MessageSender := USER | AI.

Definition MessageSender_eqb (a b : MessageSender) : bool :=
  match a, b with
  | USER, USER | AI, AI => true
  | _, _ => false
  end.

(** A source reference: an opaque key-value record. *)
Definition Source := list (string * string).

Record Conversation := {
  conv_id : UUID;
  title : option string;
  created_at : Time;
  user_id : option string
}.

Record Message := {
  msg_id : UUID;
  conversation_id : UUID;
  sender : MessageSender;
  content : string;
  sources : option (list Source);
  timestamp : Time
}.

(** The database: both tables, rows in insertion order. *)
Record Database := {
  conversations : list Conversation;
  messages : list Message
}.

(** *** ORDER BY

    The rows of a query are ordered by a stable insertion sort on the
    key; [desc] reverses the comparison. SQL leaves the order of rows
    with equal keys open: the properties below speak of timestamps, not
    of the place a tie is given. *)
Section OrderBy.
Variable A : Type.
Variable le : A -> A -> bool.

Fixpoint insert_row (x : A) (l : list A) : list A :=
  match l with
  | [] => [x]
  | y :: r => if le x y then x :: l else y :: insert_row x r
  end.

Fixpoint order_rows (l : list A) : list A :=
  match l with
  | [] => []
  | x :: r => insert_row x (order_rows r)
  end.
End OrderBy.
Arguments insert_row {A} le x l.
Arguments order_rows {A} le l.

Definition timestamp_asc (a b : Message) : bool :=
  (timestamp a <=? timestamp b)%Z.
Definition timestamp_desc (a b : Message) : bool :=
  (timestamp b <=? timestamp a)%Z.

(** [order_by(Message.timestamp)] and [order_by(desc(Message.timestamp))] *)
Definition order_by_timestamp := order_rows timestamp_asc.
Definition order_by_desc_timestamp := order_rows timestamp_desc.

(** [where(Message.conversation_id == conversation_id)] *)
Definition in_conversation (cid : UUID) (m : Message) : bool :=
  (conversation_id m =? cid)%N.

(* ================================================================== *)
(** ** Exceptions *)

Inductive Exception :=
| HTTPException (status_code : nat)  (* fastapi.HTTPException *)
| ValidationError                    (* pydantic: a schema rejects a value *)
| IntegrityError                     (* sqlalchemy: key constraint violated *)
| MultipleResultsFound               (* sqlalchemy: scalar_one_or_none *)
| OperationalError                   (* sqlalchemy: the database is at fault *)
| HTTPError                          (* httpx: transport or status error *)
| JSONDecodeError                    (* response.json() *)
| OSError.                           (* file system *)

Inductive Outcome (A : Type) :=
| Ok (a : A)
| Raise (e : Exception).
Arguments Ok {A} a.
Arguments Raise {A} e.

(** The exceptions of the second [except] clause of a handler. *)
Definition not_http (e : Exception) : Prop :=
  forall code, e <> HTTPException code.

Definition HTTP_400_BAD_REQUEST := 400.
Definition HTTP_404_NOT_FOUND := 404.
Definition HTTP_422_UNPROCESSABLE_ENTITY := 422.
Definition HTTP_500_INTERNAL_SERVER_ERROR := 500.
Definition HTTP_503_SERVICE_UNAVAILABLE := 503.

(** dependencies.py *)
Definition bad_request_exception := HTTPException HTTP_400_BAD_REQUEST.
Definition internal_server_error_exception :=
  HTTPException HTTP_500_INTERNAL_SERVER_ERROR.

(* ================================================================== *)
(** ** crud.py: the read-only queries *)

Module Crud.

Open Scope string_scope.

(** One entry of the history handed to the RAG server:
    [{"role": ..., "content": ...}]. *)
Record HistoryEntry := {
  role : string;
  entry_content : string
}.

(** [scalar_one_or_none()] *)
Definition scalar_one_or_none {A} (rows : list A) : Outcome (option A) :=
  match rows with
  | [] => Ok None
  | [x] => Ok (Some x)
  | _ => Raise MultipleResultsFound
  end.

(** [select(Conversation).where(Conversation.id == conversation_id)] *)
Definition select_conversation (db : Database) (cid : UUID)
  : list Conversation :=
  filter (fun c => (conv_id c =? cid)%N) (conversations db).

Definition get_conversation (db : Database) (cid : UUID)
  : Outcome (option Conversation) :=
  scalar_one_or_none (select_conversation db cid).

(** [scalar() is not None]: the query has a first row. *)
Definition conversation_exists (db : Database) (cid : UUID) : bool :=
  existsb (fun c => (conv_id c =? cid)%N) (conversations db).

Definition get_conversation_message_count (db : Database) (cid : UUID)
  : nat :=
  List.length (filter (in_conversation cid) (messages db)).

(** The rows fetched by [get_conversation_history_for_lightrag], after
    [messages.reverse()]: newest [max_messages] rows, oldest first.
    [max_messages] is a count: the database refuses a negative LIMIT. *)
Definition recent_messages (db : Database) (cid : UUID)
    (max_messages : nat) : list Message :=
  rev (firstn max_messages
         (order_by_desc_timestamp
            (filter (in_conversation cid) (messages db)))).

Definition history_entry (message : Message) : HistoryEntry :=
  {| role := match sender message with
             | USER => "user"
             | AI => "assistant"
             end;
     entry_content := content message |}.

Definition get_conversation_history_for_lightrag (db : Database)
    (cid : UUID) (max_messages : nat) : list HistoryEntry :=
  map history_entry (recent_messages db cid max_messages).

(** The row [generate_conversation_title] reads: the first row of the
    conversation's user messages ordered by timestamp. *)
Definition first_user_message (db : Database) (cid : UUID)
  : option Message :=
  hd_error
    (order_by_timestamp
       (filter (fun m => in_conversation cid m
                         && MessageSender_eqb (sender m) USER)
               (messages db))).

Definition title_of_content (c : string) : string :=
  let t := Py.strip (Py.slice_to 50 c) in
  if (50 <? Py.len c)%nat then t ++ "..." else t.

Definition generate_conversation_title (db : Database) (cid : UUID)
  : option string :=
  match first_user_message db cid with
  | Some first_message => Some (title_of_content (content first_message))
  | None => None
  end.

End Crud.

(* ================================================================== *)
(** ** The world and the oracle *)

(** *** Outbound HTTP calls *)

Inductive Method := GET | POST.

Inductive JValue :=
| JString (s : string)
| JInt (z : Z)
| JNull
| JHistory (h : list Crud.HistoryEntry).

Definition Dict := list (string * JValue).

Inductive Body :=
| NoBody
| JsonBody (payload : Dict)
| FilesBody (filename : string) (file_content : list Byte.byte)
            (media_type : string).

(** One request made through [httpx.AsyncClient(timeout=...)]. *)
Record HttpCall := {
  method : Method;
  url : string;
  call_timeout : Z;                      (* seconds *)
  headers : list (string * string);
  params : list (string * string);
  body : Body
}.

Inductive HttpReply :=
| ConnectError
| TimeoutException
| StatusError (code : nat)               (* raise_for_status() *)
| NotJson                                (* response.json() fails *)
| Json (obj : Dict).

(** *** The local file system: path to bytes *)

Definition FileSystem := list (string * list Byte.byte).

Definition fs_lookup (p : string) (fs : FileSystem)
  : option (list Byte.byte) :=
  match find (fun e => String.eqb (fst e) p) fs with
  | Some e => Some (snd e)
  | None => None
  end.

Definition fs_exists (p : string) (fs : FileSystem) : bool :=
  match fs_lookup p fs with Some _ => true | None => false end.

Definition fs_unlink (p : string) (fs : FileSystem) : FileSystem :=
  filter (fun e => negb (String.eqb (fst e) p)) fs.

(** [open(p, "wb")] followed by the copy: the file is replaced. *)
Definition fs_write (p : string) (data : list Byte.byte) (fs : FileSystem)
  : FileSystem :=
  (p, data) :: fs_unlink p fs.

(** *** config.py *)

Record Settings := {
  lightrag_server_url : string;
  lightrag_api_key : option string;
  documents_dir : string;
  max_file_size : Z
}.

Definition default_settings : Settings :=
  {| lightrag_server_url := "http://localhost:8020";
     lightrag_api_key := None;
     documents_dir := "./static/documents";
     max_file_size := 50 * 1024 * 1024 |}.

(** *** The oracle

    The database calls of one request, by the crud function and, for the
    two inserts of a chat turn, the sender. *)
Inductive DbCall :=
| CreateConversation
| GetConversation
| CreateMessage (s : MessageSender)
| GetHistory
| GenerateTitle
| UpdateTitle.

Record Env := {
  settings : Settings;
  uuid4 : DbCall -> UUID;          (* [default=uuid.uuid4] of the new row *)
  now : DbCall -> Time;            (* [server_default=func.now()] *)
  db_fault : DbCall -> bool;       (* the database raises on this call *)
  rag_server : HttpCall -> HttpReply;
  upload_uuid8 : string;           (* [str(uuid4())[:8]] *)
  read_fault : bool;               (* [file.read()] raises *)
  save_fault : bool;               (* [save_uploaded_file] raises *)
  copied_before_fault : option nat (* where a failing save stops: before
                                      the file is opened, or after it
                                      was opened and so many bytes were
                                      copied *)
}.

Record World := {
  db : Database;
  fs : FileSystem;
  outbox : list HttpCall           (* the calls made so far, oldest first *)
}.

(** The world once the call [c] has gone out. *)
Definition sent (w : World) (c : HttpCall) : World :=
  {| db := db w; fs := fs w; outbox := outbox w ++ [c] |}.

(** *** Computations: state that survives an exception *)

Definition M (A : Type) := World -> World * Outcome A.

Definition ret {A} (a : A) : M A := fun w => (w, Ok a).
Definition raise {A} (e : Exception) : M A := fun w => (w, Raise e).

Definition bind {A B} (m : M A) (k : A -> M B) : M B :=
  fun w => match m w with
           | (w', Ok a) => k a w'
           | (w', Raise e) => (w', Raise e)
           end.

(** [try: m  except Exception as e: h e] *)
Definition try_except {A} (m : M A) (h : Exception -> M A) : M A :=
  fun w => match m w with
           | (w', Ok a) => (w', Ok a)
           | (w', Raise e) => h e w'
           end.

Definition lift {A} (o : Outcome A) : M A := fun w => (w, o).

Declare Scope py_scope.
Delimit Scope py_scope with py.
Notation "x <- m ;; k" := (bind m (fun x => k))
  (at level 100, m at next level, right associativity) : py_scope.
Notation "m ;;; k" := (bind m (fun _ => k))
  (at level 100, right associativity) : py_scope.

(* ================================================================== *)
(** ** schemas.py *)

Module Schemas.

Open Scope py_scope.

Record ConversationCreate := {
  cc_title : option string;
  cc_user_id : option string
}.

Definition max_length_ok (n : nat) (o : option string) : bool :=
  match o with Some s => Py.len s <=? n | None => true end.

(** [ConversationCreate(title=..., user_id=...)] *)
Definition new_ConversationCreate (t u : option string)
  : Outcome ConversationCreate :=
  if max_length_ok 255 t && max_length_ok 255 u
  then Ok {| cc_title := t; cc_user_id := u |}
  else Raise ValidationError.

Record MessageCreate := {
  mc_conversation_id : UUID;
  mc_sender : MessageSender;
  mc_content : string;
  mc_sources : option (list Source)
}.

(** [MessageCreate(...)]: [content] has [min_length=1]. *)
Definition new_MessageCreate (cid : UUID) (s : MessageSender) (c : string)
    (src : option (list Source)) : Outcome MessageCreate :=
  if 1 <=? Py.len c
  then Ok {| mc_conversation_id := cid; mc_sender := s;
             mc_content := c; mc_sources := src |}
  else Raise ValidationError.

Record ChatRequest := {
  req_conversation_id : option UUID;
  message : string
}.

(** [ChatRequest.validate_message] *)
Definition validate_message (v : string) : Outcome string :=
  if negb (Py.truthy (Py.strip v)) then Raise ValidationError
  else Ok (Py.strip v).

(** Parsing the body of [POST /api/chat/]: the field constraints
    [min_length=1, max_length=10000], then the validator. *)
Definition new_ChatRequest (cid : option UUID) (msg : string)
  : Outcome ChatRequest :=
  if (1 <=? Py.len msg) && (Z.of_nat (Py.len msg) <=? 10000)%Z then
    match validate_message msg with
    | Ok v => Ok {| req_conversation_id := cid; message := v |}
    | Raise e => Raise e
    end
  else Raise ValidationError.

Record ChatResponse := {
  resp_conversation_id : UUID;
  ai_message : string;
  resp_sources : option (list Source);
  user_message_id : UUID;
  ai_message_id : UUID
}.

Record DocumentUploadResponse := {
  upload_status : string;
  upload_message : string;
  upload_filename : option string;
  file_size : option nat
}.

Record LightRAGQueryResponse := { response : string }.

Record LightRAGUploadResponse := {
  rag_status : string;
  rag_message : string
}.

End Schemas.

(* ================================================================== *)
(** ** crud.py: the calls against the session *)

Module Store.

Import Schemas.
Open Scope py_scope.

Definition set_title (t : string) (c : Conversation) : Conversation :=
  {| conv_id := conv_id c; title := Some t;
     created_at := created_at c; user_id := user_id c |}.

Section WithEnv.
Variable env : Env.

(** One call against the session: it raises when the database is at
    fault, and otherwise runs the statement and commits. *)
Definition db_call {A} (c : DbCall)
    (stmt : Database -> Outcome (Database * A)) : M A :=
  fun w =>
    if db_fault env c then (w, Raise OperationalError)
    else match stmt (db w) with
         | Ok (d, a) =>
             ({| db := d; fs := fs w; outbox := outbox w |}, Ok a)
         | Raise e => (w, Raise e)
         end.

Definition create_conversation (conversation : ConversationCreate)
  : M Conversation :=
  db_call CreateConversation (fun d =>
    let db_conversation :=
      {| conv_id := uuid4 env CreateConversation;
         title := cc_title conversation;
         created_at := now env CreateConversation;
         user_id := cc_user_id conversation |} in
    if Crud.conversation_exists d (conv_id db_conversation)
    then Raise IntegrityError
    else Ok ({| conversations := conversations d ++ [db_conversation];
                messages := messages d |}, db_conversation)).

Definition get_conversation (cid : UUID) : M (option Conversation) :=
  db_call GetConversation (fun d =>
    match Crud.get_conversation d cid with
    | Ok r => Ok (d, r)
    | Raise e => Raise e
    end).

Definition update_conversation_title (cid : UUID) (t : string)
  : M (option Conversation) :=
  db_call UpdateTitle (fun d =>
    match Crud.get_conversation d cid with
    | Ok (Some db_conversation) =>
        Ok ({| conversations :=
                 map (fun c => if (conv_id c =? cid)%N
                               then set_title t c else c)
                     (conversations d);
               messages := messages d |},
            Some (set_title t db_conversation))
    | Ok None => Ok (d, None)
    | Raise e => Raise e
    end).

(** The row inserted by [create_message]. *)
Definition new_message (message : MessageCreate) : Message :=
  {| msg_id := uuid4 env (CreateMessage (mc_sender message));
     conversation_id := mc_conversation_id message;
     sender := mc_sender message;
     content := mc_content message;
     sources := mc_sources message;
     timestamp := now env (CreateMessage (mc_sender message)) |}.

(** The insert respects the primary key of [messages] and its foreign
    key into [conversations]. *)
Definition create_message (message : MessageCreate) : M Message :=
  db_call (CreateMessage (mc_sender message)) (fun d =>
    let db_message := new_message message in
    if existsb (fun m => (msg_id m =? msg_id db_message)%N) (messages d)
       || negb (Crud.conversation_exists d (conversation_id db_message))
    then Raise IntegrityError
    else Ok ({| conversations := conversations d;
                messages := messages d ++ [db_message] |}, db_message)).

Definition create_user_message (cid : UUID) (c : string) : M Message :=
  message_data <- lift (new_MessageCreate cid USER c None) ;;
  create_message message_data.

Definition create_ai_message (cid : UUID) (c : string)
    (src : option (list Source)) : M Message :=
  message_data <- lift (new_MessageCreate cid AI c src) ;;
  create_message message_data.

Definition get_conversation_history_for_lightrag (cid : UUID)
    (max_messages : nat) : M (list Crud.HistoryEntry) :=
  db_call GetHistory (fun d =>
    Ok (d, Crud.get_conversation_history_for_lightrag d cid max_messages)).

Definition generate_conversation_title (cid : UUID) : M (option string) :=
  db_call GenerateTitle (fun d =>
    Ok (d, Crud.generate_conversation_title d cid)).

End WithEnv.

End Store.

(* ================================================================== *)
(** ** services/lightrag.py: the RAG client *)

Module LightRAG.

Import Schemas.
Open Scope string_scope.
Open Scope py_scope.

Definition dq : string := String (ascii_of_nat 34) EmptyString.
Definition nl : string := String (ascii_of_nat 10) EmptyString.

(** The fixed [user_prompt] of every query. *)
Definition USER_PROMPT : string :=
  nl ++ "At the end of the response, always include a section titled exactly "
     ++ dq ++ "References" ++ dq
     ++ ", regardless of the language of the main response. Do not translate or change this heading. It must always appear as "
     ++ dq ++ "References" ++ dq ++ " in English." ++ nl ++ nl
     ++ "Format each reference in **Markdown link format**, using the following structure:" ++ nl
     ++ "[KG/DC/KG+DC] [file_name](http://localhost:8000/api/documents/file_name)" ++ nl ++ nl
     ++ "Example:" ++ nl
     ++ "[DC] [Rapor (1)_3816aba6.pdf](http://localhost:8000/api/documents/Rapor%20%281%29_3816aba6.pdf)"
     ++ nl ++ nl.

Record LightRAGService := {
  base_url : string;
  api_key : option string;
  timeout : Z
}.

(** [LightRAGService.__init__] *)
Definition init (s : Settings) : LightRAGService :=
  {| base_url := Py.rstrip_char "/" (lightrag_server_url s);
     api_key := lightrag_api_key s;
     timeout := 300 |}.

(** [d.get(k, default)] *)
Definition dict_get (k : string) (default : JValue) (d : Dict) : JValue :=
  match find (fun e => String.eqb (fst e) k) d with
  | Some e => snd e
  | None => default
  end.

(** [d[k] = v] *)
Fixpoint dict_set (k : string) (v : JValue) (d : Dict) : Dict :=
  match d with
  | [] => [(k, v)]
  | e :: r => if String.eqb (fst e) k then (k, v) :: r
              else e :: dict_set k v r
  end.

Section WithEnv.
Variable env : Env.
Variable self : LightRAGService.

Definition authorization : list (string * string) :=
  match api_key self with
  | Some k => if Py.truthy k then [("Authorization", "Bearer " ++ k)]
              else []
  | None => []
  end.

Definition _get_headers : list (string * string) :=
  [("Content-Type", "application/json"); ("Accept", "application/json")]
  ++ authorization.

Definition _get_upload_headers : list (string * string) :=
  [("Accept", "application/json")] ++ authorization.

Definition api_key_params : list (string * string) :=
  match api_key self with
  | Some k => if Py.truthy k then [("api_key_header_value", k)] else []
  | None => []
  end.

(** The request goes out, and the reply passes [raise_for_status()]
    and [response.json()]. *)
Definition send (c : HttpCall) : M Dict :=
  fun w =>
    let w' := sent w c in
    match rag_server env c with
    | Json obj => (w', Ok obj)
    | NotJson => (w', Raise JSONDecodeError)
    | ConnectError | TimeoutException | StatusError _ =>
        (w', Raise HTTPError)
    end.

(** A [str] field of a response schema. *)
Definition str_field (v : JValue) : Outcome string :=
  match v with
  | JString s => Ok s
  | _ => Raise ValidationError
  end.

(** Both [except] clauses of every operation log and re-raise. *)
Definition log_and_reraise {A} (m : M A) : M A :=
  try_except m (fun e => raise e).

Definition query_payload (q mode : string)
    (conversation_history : option (list Crud.HistoryEntry))
    (kwargs : list (string * option JValue)) : Dict :=
  let payload := [("query", JString q); ("mode", JString mode);
                  ("user_prompt", JString USER_PROMPT)] in
  let payload :=
    match conversation_history with
    | Some (e :: h) =>
        dict_set "conversation_history" (JHistory (e :: h)) payload
    | _ => payload
    end in
  fold_left (fun p kv => match snd kv with
                         | Some v => dict_set (fst kv) v p
                         | None => p
                         end) kwargs payload.

Definition query_call (q mode : string)
    (conversation_history : option (list Crud.HistoryEntry))
    (kwargs : list (string * option JValue)) : HttpCall :=
  {| method := POST;
     url := base_url self ++ "/query";
     call_timeout := timeout self;
     headers := _get_headers;
     params := api_key_params;
     body := JsonBody (query_payload q mode conversation_history kwargs) |}.

Definition query (q mode : string)
    (conversation_history : option (list Crud.HistoryEntry))
    (kwargs : list (string * option JValue)) : M LightRAGQueryResponse :=
  log_and_reraise (
    result <- send (query_call q mode conversation_history kwargs) ;;
    r <- lift (str_field (dict_get "response" (JString "") result)) ;;
    ret {| response := r |}).

Definition upload_call (file_content : list Byte.byte)
    (filename : string) : HttpCall :=
  {| method := POST;
     url := base_url self ++ "/documents/upload";
     call_timeout := timeout self;
     headers := _get_upload_headers;
     params := api_key_params;
     body := FilesBody filename file_content "application/octet-stream" |}.

Definition upload_document (file_content : list Byte.byte)
    (filename : string) : M LightRAGUploadResponse :=
  log_and_reraise (
    result <- send (upload_call file_content filename) ;;
    s <- lift (str_field (dict_get "status" (JString "success") result)) ;;
    m <- lift (str_field
                 (dict_get "message" (JString "Upload completed") result)) ;;
    ret {| rag_status := s; rag_message := m |}).

Definition insert_text_call (text : string) (file_source : option string)
  : HttpCall :=
  let payload := [("text", JString text)] in
  let payload :=
    match file_source with
    | Some src => if Py.truthy src
                  then dict_set "file_source" (JString src) payload
                  else payload
    | None => payload
    end in
  {| method := POST;
     url := base_url self ++ "/documents/text";
     call_timeout := timeout self;
     headers := _get_headers;
     params := api_key_params;
     body := JsonBody payload |}.

Definition insert_text (text : string) (file_source : option string)
  : M LightRAGUploadResponse :=
  log_and_reraise (
    result <- send (insert_text_call text file_source) ;;
    s <- lift (str_field (dict_get "status" (JString "success") result)) ;;
    m <- lift (str_field
                 (dict_get "message" (JString "Text inserted successfully")
                           result)) ;;
    ret {| rag_status := s; rag_message := m |}).

Definition scan_documents : M Dict :=
  log_and_reraise (
    send {| method := POST;
            url := base_url self ++ "/documents/scan";
            call_timeout := timeout self;
            headers := _get_headers;
            params := api_key_params;
            body := NoBody |}).

Definition get_pipeline_status : M Dict :=
  log_and_reraise (
    send {| method := GET;
            url := base_url self ++ "/documents/pipeline_status";
            call_timeout := 30;
            headers := _get_headers;
            params := api_key_params;
            body := NoBody |}).

Definition health_check : M Dict :=
  log_and_reraise (
    send {| method := GET;
            url := base_url self ++ "/health";
            call_timeout := 10;
            headers := _get_headers;
            params := api_key_params;
            body := NoBody |}).

End WithEnv.

(** The replies on which [query] raises: a failed exchange, or a
    [response] field that is not a string. *)
Definition query_rejects (r : HttpReply) : bool :=
  match r with
  | Json obj =>
      match dict_get "response" (JString "") obj with
      | JString _ => false
      | _ => true
      end
  | _ => true
  end.

(** The replies on which [upload_document] raises. *)
Definition upload_rejects (r : HttpReply) : bool :=
  match r with
  | Json obj =>
      match dict_get "status" (JString "success") obj,
            dict_get "message" (JString "Upload completed") obj with
      | JString _, JString _ => false
      | _, _ => true
      end
  | _ => true
  end.

(** The history carried by a call: its [conversation_history] entry. *)
Definition history_of_call (c : HttpCall) : list Crud.HistoryEntry :=
  match body c with
  | JsonBody p =>
      match dict_get "conversation_history" JNull p with
      | JHistory h => h
      | _ => []
      end
  | _ => []
  end.

(** The global [lightrag_service]. *)
Definition lightrag_service (env : Env) : LightRAGService :=
  init (settings env).

End LightRAG.

(* ================================================================== *)
(** ** main.py: from exceptions to responses *)

Record Response (A : Type) := {
  status : nat;
  payload : option A
}.
Arguments status {A} r.
Arguments payload {A} r.

(** The handlers registered for [HTTPException] and [Exception]. *)
Definition respond {A} (m : M A) (w : World) : World * Response A :=
  match m w with
  | (w', Ok a) => (w', {| status := 200; payload := Some a |})
  | (w', Raise (HTTPException c)) => (w', {| status := c; payload := None |})
  | (w', Raise _) =>
      (w', {| status := HTTP_500_INTERNAL_SERVER_ERROR; payload := None |})
  end.

(** The handler registered for [RequestValidationError]. *)
Definition validation_exception_handler {A} : Response A :=
  {| status := HTTP_422_UNPROCESSABLE_ENTITY; payload := None |}.

(** The two outer clauses of the handlers of [api/]:
    [except HTTPException: raise] and
    [except Exception: raise internal_server_error_exception(...)]. *)
Definition reraise_http_else_500 {A} (e : Exception) : M A :=
  match e with
  | HTTPException _ => raise e
  | _ => raise internal_server_error_exception
  end.

(* ================================================================== *)
(** ** dependencies.py *)

Module Dependencies.

(** [get_db]: [db = next(get_database())] and [yield db] stand in one
    [try]. The request runs at the [yield]: an exception it raises is
    thrown into the generator there, where [except Exception] replaces
    it by [HTTPException(503)]. What the request has committed stays. *)
Definition get_db {A} (request : M A) : M A :=
  try_except request
    (fun _ => raise (HTTPException HTTP_503_SERVICE_UNAVAILABLE)).

End Dependencies.

(* ================================================================== *)
(** ** api/chat.py *)

Module Chat.

Import Schemas.
Open Scope string_scope.
Open Scope py_scope.

Definition query_kwargs : list (string * option JValue) :=
  [("response_type", Some (JString "Multiple Paragraphs"));
   ("top_k", Some (JInt 20));
   ("max_token_for_text_unit", Some (JInt 4000));
   ("max_token_for_global_context", Some (JInt 4000));
   ("max_token_for_local_context", Some (JInt 4000))].

(** [conversation_history[:-1] if conversation_history else None] *)
Definition without_last (h : list Crud.HistoryEntry)
  : option (list Crud.HistoryEntry) :=
  match h with
  | [] => None
  | _ => Some (removelast h)
  end.

(** The title a turn finds: that of the conversation named by the
    request, none for a conversation yet to be created. *)
Definition title_on_entry (cid : option UUID) (w : World) : option string :=
  match cid with
  | Some conversation_id =>
      match Crud.get_conversation (db w) conversation_id with
      | Ok (Some conversation) => title conversation
      | _ => None
      end
  | None => None
  end.

Section WithEnv.
Variable env : Env.

(** Step 1: the conversation and its identifier. *)
Definition resolve_conversation (request : ChatRequest)
  : M (UUID * Conversation) :=
  match req_conversation_id request with
  | None =>
      conversation_data <-
        lift (new_ConversationCreate None (Some "default_user")) ;;
      conversation <- Store.create_conversation env conversation_data ;;
      ret (conv_id conversation, conversation)
  | Some conversation_id =>
      found <- Store.get_conversation env conversation_id ;;
      match found with
      | None => raise (HTTPException HTTP_404_NOT_FOUND)
      | Some conversation => ret (conversation_id, conversation)
      end
  end.

(** The call of step 4, for the history fetched in step 3. *)
Definition chat_call (request : ChatRequest)
    (conversation_history : list Crud.HistoryEntry) : HttpCall :=
  LightRAG.query_call (LightRAG.lightrag_service env) (message request)
    "hybrid" (without_last conversation_history) query_kwargs.

(** Step 4: the query, any failure of which becomes a 503. *)
Definition ask_lightrag (request : ChatRequest)
    (conversation_history : list Crud.HistoryEntry) : M string :=
  try_except (
    lightrag_response <-
      LightRAG.query env (LightRAG.lightrag_service env)
        (message request) "hybrid"
        (without_last conversation_history) query_kwargs ;;
    ret (response lightrag_response))
  (fun _ => raise (HTTPException HTTP_503_SERVICE_UNAVAILABLE)).

(** Step 7: the title, when the conversation has none.
    [conversation.title] is the value the row has had since step 1:
    nothing before this step writes it. *)
Definition auto_title (conversation : Conversation)
    (conversation_id : UUID) : M unit :=
  if negb (Py.truthy_opt (title conversation)) then
    generated_title <-
      Store.generate_conversation_title env conversation_id ;;
    match generated_title with
    | Some t =>
        if Py.truthy t then
          _ <- Store.update_conversation_title env conversation_id t ;;
          ret tt
        else ret tt
    | None => ret tt
    end
  else ret tt.

(** What steps 1 to 6 leave for the rest of the handler. *)
Record Exchange := {
  conversation_id_of : UUID;
  conversation_of : Conversation;
  user_message_of : Message;
  ai_response_text_of : string;
  ai_message_of : Message
}.

(** Steps 1 to 6: both messages of the turn. Step 5 leaves [sources]
    at [None]. *)
Definition exchange (request : ChatRequest) : M Exchange :=
  resolved <- resolve_conversation request ;;
  let conversation_id := fst resolved in
  let conversation := snd resolved in
  user_message <-
    Store.create_user_message env conversation_id (message request) ;;
  conversation_history <-
    Store.get_conversation_history_for_lightrag env conversation_id 10 ;;
  ai_response_text <- ask_lightrag request conversation_history ;;
  ai_message <-
    Store.create_ai_message env conversation_id ai_response_text None ;;
  ret {| conversation_id_of := conversation_id;
         conversation_of := conversation;
         user_message_of := user_message;
         ai_response_text_of := ai_response_text;
         ai_message_of := ai_message |}.

(** Step 8: the response. *)
Definition chat_response (x : Exchange) : ChatResponse :=
  {| resp_conversation_id := conversation_id_of x;
     ai_message := ai_response_text_of x;
     resp_sources := None;
     user_message_id := msg_id (user_message_of x);
     ai_message_id := msg_id (ai_message_of x) |}.

Definition chat (request : ChatRequest) : M ChatResponse :=
  try_except (
    x <- exchange request ;;
    auto_title (conversation_of x) (conversation_id_of x) ;;;
    ret (chat_response x))
  reraise_http_else_500.

(** The conversation of a turn: the one named by the request, or the
    one step 1 is about to create. *)
Definition conversation_id_for (request : ChatRequest) : UUID :=
  match req_conversation_id request with
  | Some conversation_id => conversation_id
  | None => uuid4 env CreateConversation
  end.

(** The row step 2 inserts. *)
Definition user_row (request : ChatRequest) : Message :=
  {| msg_id := uuid4 env (CreateMessage USER);
     conversation_id := conversation_id_for request;
     sender := USER;
     content := message request;
     sources := None;
     timestamp := now env (CreateMessage USER) |}.

(** The row step 6 inserts for the response text [text]. *)
Definition ai_row (request : ChatRequest) (text : string) : Message :=
  {| msg_id := uuid4 env (CreateMessage AI);
     conversation_id := conversation_id_for request;
     sender := AI;
     content := text;
     sources := None;
     timestamp := now env (CreateMessage AI) |}.

(** [POST /api/chat/], with [db: Session = Depends(get_db)]: the body
    is parsed into a [ChatRequest] before the handler runs, both inside
    the dependency. *)
Definition post_chat (cid : option UUID) (msg : string) (w : World)
  : World * Response ChatResponse :=
  respond
    (Dependencies.get_db
       (request <- lift (new_ChatRequest cid msg) ;; chat request)) w.

End WithEnv.

End Chat.

(* ================================================================== *)
(** ** api/documents.py *)

Module Documents.

Import Schemas.
Open Scope string_scope.
Open Scope py_scope.

Definition ALLOWED_EXTENSIONS : list string :=
  [".pdf"; ".txt"; ".doc"; ".docx"; ".md"; ".rtf";
   ".csv"; ".xlsx"; ".xls"; ".ppt"; ".pptx"].

Definition ALLOWED_MIME_TYPES : list string :=
  ["application/pdf";
   "text/plain";
   "text/markdown";
   "text/csv";
   "application/msword";
   "application/vnd.openxmlformats-officedocument.wordprocessingml.document";
   "application/vnd.ms-excel";
   "application/vnd.openxmlformats-officedocument.spreadsheetml.sheet";
   "application/vnd.ms-powerpoint";
   "application/vnd.openxmlformats-officedocument.presentationml.presentation"].

(** [x in s] *)
Definition mem (x : string) (s : list string) : bool :=
  existsb (String.eqb x) s.

Record UploadFile := {
  filename : option string;
  content_type : option string;
  size : option Z;
  file : list Byte.byte
}.

Definition size_too_large (s : Settings) (f : UploadFile) : bool :=
  match size f with
  | Some n => (negb (n =? 0) && (max_file_size s <? n))%Z
  | None => false
  end.

Definition extension_rejected (f : UploadFile) : bool :=
  match filename f with
  | Some name =>
      Py.truthy name
      && negb (mem (Py.lower (Py.path_suffix name)) ALLOWED_EXTENSIONS)
  | None => false
  end.

Definition mime_rejected (f : UploadFile) : bool :=
  match content_type f with
  | Some t => Py.truthy t && negb (mem t ALLOWED_MIME_TYPES)
  | None => false
  end.

Definition validate_file (s : Settings) (f : UploadFile) : Outcome unit :=
  if size_too_large s f then Raise bad_request_exception
  else if extension_rejected f then Raise bad_request_exception
  else if mime_rejected f then Raise bad_request_exception
  else Ok tt.

(** [file.filename or "unknown_file"] *)
Definition original_filename (f : UploadFile) : string :=
  match filename f with
  | Some name => if Py.truthy name then name else "unknown_file"
  | None => "unknown_file"
  end.

Section WithEnv.
Variable env : Env.

Definition unique_filename (f : UploadFile) : string :=
  let original_name_without_ext := Py.path_stem (original_filename f) in
  let file_ext := Py.path_suffix (original_filename f) in
  let unique_id := upload_uuid8 env in
  original_name_without_ext ++ "_" ++ unique_id ++ file_ext.

Definition local_save_path (f : UploadFile) : string :=
  Py.path_join (documents_dir (settings env)) (unique_filename f).

(** [await file.read()] *)
Definition read (f : UploadFile) : M (list Byte.byte) :=
  if read_fault env then raise OSError else ret (file f).

(** [open(save_path, "wb")] creates or empties the file and
    [shutil.copyfileobj] fills it. An exception of [mkdir] or [open]
    leaves the files as they are; one raised while copying leaves the
    bytes copied so far under [save_path]: the [except] clause logs and
    re-raises, it removes nothing. *)
Definition save_uploaded_file (f : UploadFile) (save_path : string)
  : M unit :=
  fun w =>
    if save_fault env then
      match copied_before_fault env with
      | None => (w, Raise OSError)
      | Some n =>
          ({| db := db w;
              fs := fs_write save_path (firstn n (file f)) (fs w);
              outbox := outbox w |}, Raise OSError)
      end
    else ({| db := db w; fs := fs_write save_path (file f) (fs w);
             outbox := outbox w |}, Ok tt).

(** [if local_save_path.exists(): local_save_path.unlink()] *)
Definition unlink_if_exists (p : string) : M unit :=
  fun w =>
    if fs_exists p (fs w)
    then ({| db := db w; fs := fs_unlink p (fs w); outbox := outbox w |},
          Ok tt)
    else (w, Ok tt).

Definition upload_document (f : UploadFile) : M DocumentUploadResponse :=
  try_except (
    lift (validate_file (settings env) f) ;;;
    file_content <- read f ;;
    let file_size := List.length file_content in
    save_uploaded_file f (local_save_path f) ;;;
    try_except (
      lightrag_response <-
        LightRAG.upload_document env (LightRAG.lightrag_service env)
          file_content (unique_filename f) ;;
      ret {| upload_status := "success";
             upload_message :=
               "File '" ++ unique_filename f
               ++ "' uploaded successfully and sent to RAG system";
             upload_filename := Some (unique_filename f);
             file_size := Some file_size |})
    (fun _ =>
       unlink_if_exists (local_save_path f) ;;;
       raise (HTTPException HTTP_503_SERVICE_UNAVAILABLE)))
  reraise_http_else_500.

(** [POST /api/documents/upload], with
    [db: Session = Depends(get_db)]. *)
Definition post_upload (f : UploadFile) (w : World)
  : World * Response DocumentUploadResponse :=
  respond (Dependencies.get_db (upload_document f)) w.

End WithEnv.

End Documents.

(* ================================================================== *)
(** ** Concrete runs *)

Module Scenario.

Import Schemas.
Open Scope string_scope.

(** The RAG server answers every call. *)
Definition env_ok : Env :=
  {| settings := default_settings;
     uuid4 := fun c => match c with
                       | CreateConversation => 100%N
                       | CreateMessage USER => 201%N
                       | CreateMessage AI => 202%N
                       | _ => 0%N
                       end;
     now := fun c => match c with
                     | CreateConversation => 1000%Z
                     | CreateMessage USER => 1001%Z
                     | CreateMessage AI => 1002%Z
                     | _ => 0%Z
                     end;
     db_fault := fun _ => false;
     rag_server := fun _ => Json [("response", JString "hi there");
                                  ("status", JString "success")];
     upload_uuid8 := "3816aba6";
     read_fault := false;
     save_fault := false;
     copied_before_fault := None |}.

(** The RAG server cannot be reached. *)
Definition env_rag_down : Env :=
  {| settings := settings env_ok;
     uuid4 := uuid4 env_ok;
     now := now env_ok;
     db_fault := db_fault env_ok;
     rag_server := fun _ => ConnectError;
     upload_uuid8 := upload_uuid8 env_ok;
     read_fault := false;
     save_fault := false;
     copied_before_fault := None |}.

(** The database fails while the title is being generated. *)
Definition env_title_fault : Env :=
  {| settings := settings env_ok;
     uuid4 := uuid4 env_ok;
     now := now env_ok;
     db_fault := fun c => match c with GenerateTitle => true | _ => false end;
     rag_server := rag_server env_ok;
     upload_uuid8 := upload_uuid8 env_ok;
     read_fault := false;
     save_fault := false;
     copied_before_fault := None |}.

Definition first_question : Message :=
  {| msg_id := 11%N; conversation_id := 1%N; sender := USER;
     content := "What does the report say?"; sources := None;
     timestamp := 10%Z |}.

Definition first_answer : Message :=
  {| msg_id := 12%N; conversation_id := 1%N; sender := AI;
     content := "It says a lot."; sources := None; timestamp := 11%Z |}.

Definition conversation_titled (t : option string) : Conversation :=
  {| conv_id := 1%N; title := t; created_at := 9%Z;
     user_id := Some "default_user" |}.

Definition world_of (t : option string) (ms : list Message) : World :=
  {| db := {| conversations := [conversation_titled t]; messages := ms |};
     fs := [];
     outbox := [] |}.

Definition w_empty : World :=
  {| db := {| conversations := []; messages := [] |};
     fs := [];
     outbox := [] |}.

(** One earlier turn, no title yet. *)
Definition w_one_turn : World := world_of None [first_question; first_answer].

(** A conversation created with the empty title, before its first turn. *)
Definition w_blank_title : World := world_of (Some "") [].

Definition request_new : ChatRequest :=
  {| req_conversation_id := None; message := "Hello" |}.

Definition request_old : ChatRequest :=
  {| req_conversation_id := Some 1%N; message := "Hello" |}.

(** The first turn of a new conversation, once both messages are
    stored. *)
Definition hello_conversation : Conversation :=
  {| conv_id := 100%N; title := None; created_at := 1000%Z;
     user_id := Some "default_user" |}.

Definition hello_question : Message :=
  {| msg_id := 201%N; conversation_id := 100%N; sender := USER;
     content := "Hello"; sources := None; timestamp := 1001%Z |}.

Definition hello_answer : Message :=
  {| msg_id := 202%N; conversation_id := 100%N; sender := AI;
     content := "hi there"; sources := None; timestamp := 1002%Z |}.

Definition hello_exchange : Chat.Exchange :=
  {| Chat.conversation_id_of := 100%N;
     Chat.conversation_of := hello_conversation;
     Chat.user_message_of := hello_question;
     Chat.ai_response_text_of := "hi there";
     Chat.ai_message_of := hello_answer |}.

Definition w_hello_stored : World :=
  {| db := {| conversations := [hello_conversation];
              messages := [hello_question; hello_answer] |};
     fs := [];
     outbox := [Chat.chat_call env_ok request_new []] |}.

Definition report_pdf : Documents.UploadFile :=
  {| Documents.filename := Some "Rapor (1).pdf";
     Documents.content_type := Some "application/pdf";
     Documents.size := Some 3%Z;
     Documents.file := [Byte.x25; Byte.x50; Byte.x44] |}.

Definition script_exe : Documents.UploadFile :=
  {| Documents.filename := Some "setup.exe";
     Documents.content_type := None;
     Documents.size := Some 3%Z;
     Documents.file := [Byte.x4d; Byte.x5a; Byte.x00] |}.

Definition nameless : Documents.UploadFile :=
  {| Documents.filename := None;
     Documents.content_type := None;
     Documents.size := None;
     Documents.file := [Byte.x25; Byte.x50; Byte.x44] |}.

End Scenario.

(* ================================================================== *)
(** ** crud.py: the other functions *)

Module Rows.

Import Schemas.
Open Scope py_scope.

(** One call against the session; [fault] tells whether the database
    raises on it. [Store.db_call] is this call with the fault read from
    the oracle. *)
Definition execute {A} (fault : bool)
    (stmt : Database -> Outcome (Database * A)) : M A :=
  fun w =>
    if fault then (w, Raise OperationalError)
    else match stmt (db w) with
         | Ok (d, a) => ({| db := d; fs := fs w; outbox := outbox w |}, Ok a)
         | Raise e => (w, Raise e)
         end.

(** A statement that only reads. *)
Definition reading {A} (q : Database -> A)
  : Database -> Outcome (Database * A) :=
  fun d => Ok (d, q d).

(** A statement that reads and may raise. *)
Definition reading_or_raise {A} (q : Database -> Outcome A)
  : Database -> Outcome (Database * A) :=
  fun d => match q d with
           | Ok a => Ok (d, a)
           | Raise e => Raise e
           end.

Definition created_desc (a b : Conversation) : bool :=
  (created_at b <=? created_at a)%Z.

(** [Conversation.user_id == user_id]: a row without user never
    matches. *)
Definition has_user (u : string) (c : Conversation) : bool :=
  match user_id c with
  | Some v => String.eqb v u
  | None => false
  end.

(** The [where] clause both listings add [if user_id:]. *)
Definition user_filter (u : option string) (c : Conversation) : bool :=
  match u with
  | Some v => if Py.truthy v then has_user v c else true
  | None => true
  end.

(** [.offset(skip).limit(limit)] *)
Definition page {A} (skip limit : nat) (rows : list A) : list A :=
  firstn limit (skipn skip rows).

Definition get_conversations (d : Database) (u : option string)
    (skip limit : nat) : list Conversation :=
  page skip limit
    (order_rows created_desc (filter (user_filter u) (conversations d))).

(** [func.max(Message.timestamp)]: NULL over no rows. *)
Fixpoint max_timestamp (ms : list Message) : option Time :=
  match ms with
  | [] => None
  | m :: r => match max_timestamp r with
              | Some t => Some (Z.max (timestamp m) t)
              | None => Some (timestamp m)
              end
  end.

Record ConversationSummary := {
  summary_id : UUID;
  summary_title : option string;
  summary_created_at : Time;
  last_message_at : option Time;
  message_count : nat
}.

(** The outer join grouped by [Conversation.id]: the primary key makes
    every group one conversation row with its messages. *)
Definition summary_of (d : Database) (c : Conversation)
  : ConversationSummary :=
  let rows := filter (in_conversation (conv_id c)) (messages d) in
  {| summary_id := conv_id c;
     summary_title := title c;
     summary_created_at := created_at c;
     last_message_at := max_timestamp rows;
     message_count := List.length rows |}.

Definition get_conversations_with_summary (d : Database)
    (u : option string) (skip limit : nat) : list ConversationSummary :=
  map (summary_of d) (get_conversations d u skip limit).

Definition update_conversation_title (cid : UUID) (t : string)
    (d : Database) : Outcome (Database * option Conversation) :=
  match Crud.get_conversation d cid with
  | Ok (Some db_conversation) =>
      Ok ({| conversations :=
               map (fun c => if (conv_id c =? cid)%N
                             then Store.set_title t c else c)
                   (conversations d);
             messages := messages d |},
          Some (Store.set_title t db_conversation))
  | Ok None => Ok (d, None)
  | Raise e => Raise e
  end.

(** [db.delete(db_conversation)]: the row goes, and with it the rows of
    [messages] that refer to it ([cascade="all, delete-orphan"],
    [ondelete="CASCADE"]). *)
Definition delete_conversation (cid : UUID) (d : Database)
  : Outcome (Database * bool) :=
  match Crud.get_conversation d cid with
  | Ok (Some _) =>
      Ok ({| conversations :=
               filter (fun c => negb (conv_id c =? cid)%N) (conversations d);
             messages :=
               filter (fun m => negb (in_conversation cid m)) (messages d) |},
          true)
  | Ok None => Ok (d, false)
  | Raise e => Raise e
  end.

Definition get_message (d : Database) (mid : UUID)
  : Outcome (option Message) :=
  Crud.scalar_one_or_none
    (filter (fun m => (msg_id m =? mid)%N) (messages d)).

Definition get_messages_by_conversation (d : Database) (cid : UUID)
    (skip limit : nat) : list Message :=
  page skip limit
    (order_by_timestamp (filter (in_conversation cid) (messages d))).

Definition delete_message (mid : UUID) (d : Database)
  : Outcome (Database * bool) :=
  match get_message d mid with
  | Ok (Some _) =>
      Ok ({| conversations := conversations d;
             messages :=
               filter (fun m => negb (msg_id m =? mid)%N) (messages d) |},
          true)
  | Ok None => Ok (d, false)
  | Raise e => Raise e
  end.

(** The keys of the two tables: identifiers are unique, and every
    message refers to a conversation. *)
Definition keys_ok (d : Database) : Prop :=
  NoDup (map conv_id (conversations d)) /\
  NoDup (map msg_id (messages d)) /\
  forall m, In m (messages d) ->
            Crud.conversation_exists d (conversation_id m) = true.

(** What the chat endpoint stores for a user: trimmed, non-empty text. *)
Definition user_contents_trimmed (d : Database) : Prop :=
  forall m, In m (messages d) -> sender m = USER ->
            Py.strip (content m) = content m /\ content m <> EmptyString.

(** [m] keeps the property [Q] of the database, however it ends. *)
Definition keeps (Q : Database -> Prop) {A} (m : M A) : Prop :=
  forall w w' r, m w = (w', r) -> Q (db w) -> Q (db w').

(** [s.endswith(c)] *)
Fixpoint ends_with (c : ascii) (s : string) : bool :=
  match s with
  | EmptyString => false
  | String a EmptyString => Ascii.eqb a c
  | String _ r => ends_with c r
  end.

(** [c * k] *)
Fixpoint repeat_char (c : ascii) (k : nat) : string :=
  match k with
  | 0 => EmptyString
  | S k' => String c (repeat_char c k')
  end.

(** [c in s] *)
Fixpoint has_char (c : ascii) (s : string) : bool :=
  match s with
  | EmptyString => false
  | String a r => Ascii.eqb a c || has_char c r
  end.

End Rows.

(* ================================================================== *)
(** ** api/conversations.py *)

Module Conversations.

Import Schemas.
Open Scope string_scope.
Open Scope py_scope.

Record ConversationResponse := {
  id : UUID;
  response_title : option string;
  response_created_at : Time;
  response_user_id : option string;
  response_message_count : option nat
}.

Record SuccessResponse := {
  success : bool;
  success_message : string
}.

Definition conversation_response (c : Conversation) (n : nat)
  : ConversationResponse :=
  {| id := conv_id c;
     response_title := title c;
     response_created_at := created_at c;
     response_user_id := user_id c;
     response_message_count := Some n |}.

(** [except Exception: raise internal_server_error_exception(...)], the
    only clause of the two handlers without a 404. *)
Definition any_to_500 {A} (e : Exception) : M A :=
  raise internal_server_error_exception.

Section WithEnv.
Variable env : Env.
(** [fault k]: the database raises on call [k] of the request (calls
    that the oracle of the chat turn does not name). *)
Variable fault : nat -> bool.
(** [str(conversation_id)] *)
Variable str_of_uuid : UUID -> string.

Definition create_new_conversation (conversation : ConversationCreate)
  : M ConversationResponse :=
  try_except (
    db_conversation <- Store.create_conversation env conversation ;;
    message_count <-
      Rows.execute (fault 1)
        (Rows.reading (fun d =>
           Crud.get_conversation_message_count d (conv_id db_conversation))) ;;
    ret (conversation_response db_conversation message_count))
  any_to_500.

(** [POST /api/conversations/new]: the body is a [ConversationCreate].
    This and the handlers below take [db: Session = Depends(get_db)]. *)
Definition post_new (t u : option string) (w : World)
  : World * Response ConversationResponse :=
  respond
    (Dependencies.get_db
       (conversation <- lift (new_ConversationCreate t u) ;;
        create_new_conversation conversation)) w.

Definition get_conversations (u : option string) (skip limit : nat)
  : M (list Rows.ConversationSummary) :=
  try_except (
    Rows.execute (fault 0)
      (Rows.reading (fun d =>
         Rows.get_conversations_with_summary d u skip limit)))
  any_to_500.

(** [GET /api/conversations/]: [skip >= 0], [1 <= limit <= 1000]. *)
Definition get_list (u : option string) (skip limit : Z) (w : World)
  : World * Response (list Rows.ConversationSummary) :=
  respond
    (Dependencies.get_db
       (if ((0 <=? skip) && (1 <=? limit) && (limit <=? 1000))%Z
        then get_conversations u (Z.to_nat skip) (Z.to_nat limit)
        else raise ValidationError)) w.

Definition get_conversation (conversation_id : UUID)
  : M ConversationResponse :=
  try_except (
    found <- Rows.execute (fault 0)
               (Rows.reading_or_raise (fun d =>
                  Crud.get_conversation d conversation_id)) ;;
    match found with
    | None => raise (HTTPException HTTP_404_NOT_FOUND)
    | Some conversation =>
        message_count <-
          Rows.execute (fault 1)
            (Rows.reading (fun d =>
               Crud.get_conversation_message_count d conversation_id)) ;;
        ret (conversation_response conversation message_count)
    end)
  reraise_http_else_500.

Definition get_conversation_messages (conversation_id : UUID)
    (skip limit : nat) : M (list Message) :=
  try_except (
    found <- Rows.execute (fault 0)
               (Rows.reading (fun d =>
                  Crud.conversation_exists d conversation_id)) ;;
    if negb found then raise (HTTPException HTTP_404_NOT_FOUND)
    else
      Rows.execute (fault 1)
        (Rows.reading (fun d =>
           Rows.get_messages_by_conversation d conversation_id skip limit)))
  reraise_http_else_500.

(** [GET /api/conversations/{id}/messages]: [skip >= 0],
    [1 <= limit <= 10000]. *)
Definition get_messages (conversation_id : UUID) (skip limit : Z)
    (w : World) : World * Response (list Message) :=
  respond
    (Dependencies.get_db
       (if ((0 <=? skip) && (1 <=? limit) && (limit <=? 10000))%Z
        then get_conversation_messages conversation_id
               (Z.to_nat skip) (Z.to_nat limit)
        else raise ValidationError)) w.

Definition update_conversation_title (conversation_id : UUID)
    (t : string) : M ConversationResponse :=
  try_except (
    updated <- Rows.execute (fault 0)
                 (Rows.update_conversation_title conversation_id t) ;;
    match updated with
    | None => raise (HTTPException HTTP_404_NOT_FOUND)
    | Some updated_conversation =>
        message_count <-
          Rows.execute (fault 1)
            (Rows.reading (fun d =>
               Crud.get_conversation_message_count d conversation_id)) ;;
        ret (conversation_response updated_conversation message_count)
    end)
  reraise_http_else_500.

(** [PATCH /api/conversations/{id}/title]: the title has
    [min_length=1, max_length=255]. *)
Definition patch_title (conversation_id : UUID) (t : string) (w : World)
  : World * Response ConversationResponse :=
  respond
    (Dependencies.get_db
       (if ((1 <=? Py.len t) && (Py.len t <=? 255))%nat
        then update_conversation_title conversation_id t
        else raise ValidationError)) w.

Definition delete_conversation (conversation_id : UUID)
  : M SuccessResponse :=
  try_except (
    deleted <- Rows.execute (fault 0)
                 (Rows.delete_conversation conversation_id) ;;
    if negb deleted then raise (HTTPException HTTP_404_NOT_FOUND)
    else ret {| success := true;
                success_message :=
                  "Conversation " ++ str_of_uuid conversation_id
                  ++ " deleted successfully" |})
  reraise_http_else_500.

End WithEnv.

End Conversations.

(* ================================================================== *)
(** ** api/documents.py and main.py: the other handlers *)

Module Serving.

Import Schemas.
Open Scope string_scope.
Open Scope py_scope.

Record FileResponse := {
  path : string;
  media_type : string;
  download_name : string;
  content_bytes : list Byte.byte
}.

Record HealthCheckResponse := {
  health_status : string;
  services : list (string * string);
  version : string
}.

Section WithEnv.
Variable env : Env.
(** [mimetypes.guess_type]: the type the library's table gives a path,
    if any. *)
Variable guess_type : string -> option string.

(** [GET /api/documents/{filename}] *)
Definition serve_document (filename : string) : M FileResponse :=
  try_except (
    let file_path := Py.path_join (documents_dir (settings env)) filename in
    fun w =>
      match fs_lookup file_path (fs w) with
      | None => (w, Raise (HTTPException HTTP_404_NOT_FOUND))
      | Some data =>
          let media_type :=
            match guess_type file_path with
            | Some t => if Py.truthy t then t else "application/octet-stream"
            | None => "application/octet-stream"
            end in
          (w, Ok {| path := file_path; media_type := media_type;
                    download_name := filename; content_bytes := data |})
      end)
  reraise_http_else_500.

(** The one clause of the two status handlers:
    [except Exception: raise HTTPException(503, ...)]. *)
Definition any_to_503 {A} (e : Exception) : M A :=
  raise (HTTPException HTTP_503_SERVICE_UNAVAILABLE).

(** [POST /api/documents/scan] *)
Definition trigger_document_scan : M Dict :=
  try_except
    (LightRAG.scan_documents env (LightRAG.lightrag_service env))
    any_to_503.

(** [GET /api/documents/pipeline/status] *)
Definition get_pipeline_status : M Dict :=
  try_except
    (LightRAG.get_pipeline_status env (LightRAG.lightrag_service env))
    any_to_503.

(** [GET /health]; [select_1_fault] tells whether [SELECT 1] raises. *)
Definition health_check (select_1_fault : bool) : M HealthCheckResponse :=
  try_except (
    db_status <-
      try_except
        (if select_1_fault then raise OperationalError else ret "healthy")
        (fun _ => ret "unhealthy") ;;
    lightrag_status <-
      try_except
        (_ <- LightRAG.health_check env (LightRAG.lightrag_service env) ;;
         ret "healthy")
        (fun _ => ret "unhealthy") ;;
    let overall_status :=
      if String.eqb db_status "healthy" then "healthy" else "degraded" in
    let overall_status :=
      if String.eqb lightrag_status "unhealthy" then "degraded"
      else overall_status in
    ret {| health_status := overall_status;
           services := [("database", db_status);
                        ("lightrag", lightrag_status)];
           version := "1.0.0" |})
  (fun _ =>
     ret {| health_status := "unhealthy";
            services := [("database", "unknown"); ("lightrag", "unknown")];
            version := "1.0.0" |}).

End WithEnv.

End Serving.

(* ================================================================== *)
(** ** Reading the outbox *)

Module Wire.

Open Scope string_scope.

(** The calls made between the world [w] and the later world [w']. *)
Definition calls_since (w w' : World) : list HttpCall :=
  skipn (List.length (outbox w)) (outbox w').

(** The credential as a call carries it: with a non-empty key, once as
    a bearer header and once as a query parameter; without, not at
    all. *)
Definition carries_key (key : option string) (c : HttpCall) : Prop :=
  if Py.truthy_opt key then
    exists k, key = Some k /\
      In ("Authorization", "Bearer " ++ k) (headers c) /\
      params c = [("api_key_header_value", k)]
  else
    params c = [] /\ ~ In "Authorization" (map fst (headers c)).

(** One step of [for key, value in kwargs.items()]. *)
Definition add_keyword (p : Dict) (kv : string * option JValue) : Dict :=
  match snd kv with
  | Some v => LightRAG.dict_set (fst kv) v p
  | None => p
  end.

(** The requests of the three operations without arguments. *)
Definition scan_call (self : LightRAG.LightRAGService) : HttpCall :=
  {| method := POST;
     url := LightRAG.base_url self ++ "/documents/scan";
     call_timeout := LightRAG.timeout self;
     headers := LightRAG._get_headers self;
     params := LightRAG.api_key_params self;
     body := NoBody |}.

Definition pipeline_status_call (self : LightRAG.LightRAGService)
  : HttpCall :=
  {| method := GET;
     url := LightRAG.base_url self ++ "/documents/pipeline_status";
     call_timeout := 30;
     headers := LightRAG._get_headers self;
     params := LightRAG.api_key_params self;
     body := NoBody |}.

Definition health_call (self : LightRAG.LightRAGService) : HttpCall :=
  {| method := GET;
     url := LightRAG.base_url self ++ "/health";
     call_timeout := 10;
     headers := LightRAG._get_headers self;
     params := LightRAG.api_key_params self;
     body := NoBody |}.

(** The keys [query] sets itself. *)
Definition base_keys : list string :=
  ["query"; "mode"; "user_prompt"; "conversation_history"].

End Wire.

(* ================================================================== *)
(** ** More concrete runs *)

Module Cases.

Import Schemas.
Open Scope string_scope.

Definition never (k : nat) : bool := false.

(** No reply text: the server answers with an object without
    [response]. *)
Definition env_no_text : Env :=
  {| settings := settings Scenario.env_ok;
     uuid4 := uuid4 Scenario.env_ok;
     now := now Scenario.env_ok;
     db_fault := db_fault Scenario.env_ok;
     rag_server := fun _ => Json [("status", JString "success")];
     upload_uuid8 := upload_uuid8 Scenario.env_ok;
     read_fault := false;
     save_fault := false;
     copied_before_fault := None |}.

(** The local save fails once two bytes are copied. *)
Definition env_disk_full : Env :=
  {| settings := settings Scenario.env_ok;
     uuid4 := uuid4 Scenario.env_ok;
     now := now Scenario.env_ok;
     db_fault := db_fault Scenario.env_ok;
     rag_server := rag_server Scenario.env_ok;
     upload_uuid8 := upload_uuid8 Scenario.env_ok;
     read_fault := false;
     save_fault := true;
     copied_before_fault := Some 2 |}.

(** An API key is configured. *)
Definition env_with_key : Env :=
  {| settings :=
       {| lightrag_server_url := "http://rag:8020/";
          lightrag_api_key := Some "s3cret";
          documents_dir := "./static/documents";
          max_file_size := 1024 |};
     uuid4 := uuid4 Scenario.env_ok;
     now := now Scenario.env_ok;
     db_fault := db_fault Scenario.env_ok;
     rag_server := rag_server Scenario.env_ok;
     upload_uuid8 := upload_uuid8 Scenario.env_ok;
     read_fault := false;
     save_fault := false;
     copied_before_fault := None |}.

(** A later request: new identifiers, a later clock, the server back. *)
Definition env_retry : Env :=
  {| settings := settings Scenario.env_ok;
     uuid4 := fun c => match c with
                       | CreateMessage USER => 301%N
                       | CreateMessage AI => 302%N
                       | _ => 300%N
                       end;
     now := fun c => match c with
                     | CreateMessage USER => 2001%Z
                     | CreateMessage AI => 2002%Z
                     | _ => 2000%Z
                     end;
     db_fault := db_fault Scenario.env_ok;
     rag_server := rag_server Scenario.env_ok;
     upload_uuid8 := upload_uuid8 Scenario.env_ok;
     read_fault := false;
     save_fault := false;
     copied_before_fault := None |}.


Definition request_again : ChatRequest :=
  {| req_conversation_id := Some 1%N; message := "Hello again" |}.

Definition request_unknown : ChatRequest :=
  {| req_conversation_id := Some 7%N; message := "Hello" |}.

(** [mimetypes.guess_type] on the two extensions of the runs. *)
Definition guess_by_extension (p : string) : option string :=
  if String.eqb (Py.lower (Py.path_suffix p)) ".pdf"
  then Some "application/pdf"
  else if String.eqb (Py.lower (Py.path_suffix p)) ".txt"
  then Some "text/plain"
  else None.

End Cases.

(* ================================================================== *)
(** * Properties *)

(** ** Checks on concrete inputs *)

Example strip_both_ends : Py.strip "  Hello  " = "Hello"%string.
Proof. reflexivity. Qed.

Example suffix_keeps_case :
  Py.path_suffix "a/b/Rapor (1).PDF" = ".PDF"%string.
Proof. reflexivity. Qed.

Example suffix_of_dotfile : Py.path_suffix ".bashrc" = ""%string.
Proof. reflexivity. Qed.

Example suffix_of_trailing_dot : Py.path_suffix "foo." = ""%string.
Proof. reflexivity. Qed.

Example stem_of_two_suffixes : Py.path_stem "a.tar.gz" = "a.tar"%string.
Proof. reflexivity. Qed.

Example title_of_eighty_characters :
  Crud.title_of_content
    "0123456789012345678901234567890123456789012345678901234567890123456789abcdefghij"
  = "01234567890123456789012345678901234567890123456789..."%string.
Proof. reflexivity. Qed.

Example title_of_short_content :
  Crud.title_of_content "Hello" = "Hello"%string.
Proof. reflexivity. Qed.

(** A new chat with message "Hello": a fresh conversation, titled, with
    two messages. *)
Example first_turn_end_to_end :
  Chat.post_chat Scenario.env_ok None "Hello" Scenario.w_empty
  = ({| db := {| conversations :=
                   [Store.set_title "Hello" Scenario.hello_conversation];
                 messages := [Scenario.hello_question;
                              Scenario.hello_answer] |};
        fs := [];
        outbox := [Chat.chat_call Scenario.env_ok Scenario.request_new []] |},
     {| status := 200;
        payload := Some (Chat.chat_response Scenario.hello_exchange) |}).
Proof. reflexivity. Qed.

Example accepted_upload_is_stored :
  fs (fst (Documents.post_upload Scenario.env_ok Scenario.report_pdf
             Scenario.w_empty))
  = [("./static/documents/Rapor (1)_3816aba6.pdf"%string,
      Documents.file Scenario.report_pdf)].
Proof. reflexivity. Qed.

(** ** Lists and ORDER BY *)

Section SortedLists.
Context {A : Type}.

Lemma StronglySorted_app (R : A -> A -> Prop) (l1 l2 : list A) :
  StronglySorted R l1 -> StronglySorted R l2 ->
  (forall a b, In a l1 -> In b l2 -> R a b) ->
  StronglySorted R (l1 ++ l2).
Proof.
  induction l1 as [|x l1 IH]; simpl; intros S1 S2 H; [exact S2|].
  inversion S1 as [|? ? S1' F1]; subst.
  constructor.
  - apply IH; auto.
  - apply Forall_app; split; [exact F1|].
    apply Forall_forall; intros b Hb; apply H; auto.
Qed.

Lemma StronglySorted_app_inv (R : A -> A -> Prop) (l1 l2 : list A) :
  StronglySorted R (l1 ++ l2) ->
  StronglySorted R l1 /\ StronglySorted R l2 /\
  (forall a b, In a l1 -> In b l2 -> R a b).
Proof.
  induction l1 as [|x l1 IH]; simpl; intros S.
  - repeat split; [constructor | exact S | intros a b []].
  - inversion S as [|? ? S' F]; subst.
    destruct (IH S') as (S1 & S2 & H).
    apply Forall_app in F; destruct F as [F1 F2].
    repeat split; [constructor; assumption | exact S2 |].
    intros a b [->|Ha] Hb.
    + rewrite Forall_forall in F2; auto.
    + auto.
Qed.

Lemma StronglySorted_weaken (R R' : A -> A -> Prop) (l : list A) :
  (forall a b, R a b -> R' a b) ->
  StronglySorted R l -> StronglySorted R' l.
Proof.
  intros H; induction 1 as [|x l S IH F]; constructor; [exact IH|].
  rewrite Forall_forall in *; auto.
Qed.

Lemma StronglySorted_rev (R : A -> A -> Prop) (l : list A) :
  StronglySorted R l -> StronglySorted (fun a b => R b a) (rev l).
Proof.
  induction 1 as [|x l S IH F]; simpl; [constructor|].
  apply StronglySorted_app; [exact IH | repeat constructor |].
  intros a b Ha [<-|[]].
  apply in_rev in Ha. rewrite Forall_forall in F; auto.
Qed.
End SortedLists.

Section OrderByFacts.
Context {A : Type}.
Variable le : A -> A -> bool.

Lemma insert_row_perm (x : A) (l : list A) :
  Permutation (insert_row le x l) (x :: l).
Proof.
  induction l as [|y r IH]; simpl; [reflexivity|].
  destruct (le x y); [reflexivity|].
  rewrite IH. apply perm_swap.
Qed.

Lemma order_rows_perm (l : list A) : Permutation (order_rows le l) l.
Proof.
  induction l as [|x r IH]; simpl; [reflexivity|].
  rewrite insert_row_perm. constructor. exact IH.
Qed.

(** A row newer than every other row comes out first, whatever the
    order of the rest. *)
Lemma order_rows_snoc (x : A) (l : list A) :
  (forall a, In a l -> le a x = false) ->
  order_rows le (l ++ [x]) = x :: order_rows le l.
Proof.
  induction l as [|a l IH]; simpl; intros H; [reflexivity|].
  rewrite IH by auto. simpl. rewrite (H a) by auto. reflexivity.
Qed.

Hypothesis le_total : forall a b, le a b = false -> le b a = true.
Hypothesis le_trans :
  forall a b c, le a b = true -> le b c = true -> le a c = true.

Lemma insert_row_sorted (x : A) (l : list A) :
  StronglySorted (fun a b => le a b = true) l ->
  StronglySorted (fun a b => le a b = true) (insert_row le x l).
Proof.
  induction 1 as [|y r S IH F]; simpl; [repeat constructor|].
  destruct (le x y) eqn:E.
  - constructor; [constructor; assumption|].
    constructor; [exact E|].
    rewrite Forall_forall in *; intros b Hb; eauto.
  - constructor; [exact IH|].
    eapply Permutation_Forall; [symmetry; apply insert_row_perm|].
    constructor; [apply le_total; exact E | exact F].
Qed.

Lemma order_rows_sorted (l : list A) :
  StronglySorted (fun a b => le a b = true) (order_rows le l).
Proof.
  induction l as [|x r IH]; simpl; [constructor|].
  apply insert_row_sorted; exact IH.
Qed.
End OrderByFacts.

Lemma order_by_desc_timestamp_sorted (l : list Message) :
  StronglySorted (fun a b => (timestamp b <= timestamp a)%Z)
                 (order_by_desc_timestamp l).
Proof.
  eapply StronglySorted_weaken; [| apply order_rows_sorted ].
  - intros a b H. apply Z.leb_le. exact H.
  - unfold timestamp_desc; intros a b H.
    apply Z.leb_le. apply Z.leb_gt in H. lia.
  - unfold timestamp_desc; intros a b c H1 H2.
    apply Z.leb_le in H1, H2. apply Z.leb_le. lia.
Qed.

Lemma order_by_timestamp_sorted (l : list Message) :
  StronglySorted (fun a b => (timestamp a <= timestamp b)%Z)
                 (order_by_timestamp l).
Proof.
  eapply StronglySorted_weaken; [| apply order_rows_sorted ].
  - intros a b H. apply Z.leb_le. exact H.
  - unfold timestamp_asc; intros a b H.
    apply Z.leb_le. apply Z.leb_gt in H. lia.
  - unfold timestamp_asc; intros a b c H1 H2.
    apply Z.leb_le in H1, H2. apply Z.leb_le. lia.
Qed.

(** ** The history window *)

Lemma Forall2_map_r {A B : Type} (P : A -> B -> Prop) (f : A -> B)
    (l : list A) :
  (forall a, P a (f a)) -> Forall2 P l (map f l).
Proof. intros H; induction l; simpl; constructor; auto. Qed.

Lemma recent_messages_split (d : Database) (cid : UUID) (N : nat) :
  let rows := order_by_desc_timestamp
                (filter (in_conversation cid) (messages d)) in
  Crud.recent_messages d cid N = rev (firstn N rows) /\
  Permutation (skipn N rows ++ Crud.recent_messages d cid N)
              (filter (in_conversation cid) (messages d)).
Proof.
  intros rows; split; [reflexivity|].
  unfold Crud.recent_messages; fold rows.
  rewrite <- Permutation_rev, Permutation_app_comm, firstn_skipn.
  apply order_rows_perm.
Qed.

(** C1. For a conversation with k messages and a maximum N,
    [get_conversation_history_for_lightrag] returns min(k, N) entries;
    they are the entries of N most recent messages of that conversation
    (every message left out is at most as recent as every message kept),
    none is of another conversation, they come oldest first, and each
    carries its message's content under the role "user" for a user
    message and "assistant" for an AI message. *)
Theorem history_window (d : Database) (cid : UUID) (N : nat) :
  let k := Crud.get_conversation_message_count d cid in
  let w := Crud.recent_messages d cid N in
  let h := Crud.get_conversation_history_for_lightrag d cid N in
  List.length h = Nat.min k N /\
  Forall2 (fun m e =>
             Crud.entry_content e = content m /\
             (sender m = USER -> Crud.role e = "user"%string) /\
             (sender m = AI -> Crud.role e = "assistant"%string)) w h /\
  (forall m, In m w -> In m (messages d) /\ conversation_id m = cid) /\
  StronglySorted (fun a b => (timestamp a <= timestamp b)%Z) w /\
  exists older,
    Permutation (older ++ w) (filter (in_conversation cid) (messages d)) /\
    forall a b, In a older -> In b w -> (timestamp a <= timestamp b)%Z.
Proof.
  intros k w h.
  destruct (recent_messages_split d cid N) as [Ew Hperm].
  set (rows := order_by_desc_timestamp
                 (filter (in_conversation cid) (messages d))) in *.
  assert (Hsorted : StronglySorted
                      (fun a b => (timestamp b <= timestamp a)%Z)
                      (firstn N rows ++ skipn N rows)).
  { rewrite firstn_skipn. apply order_by_desc_timestamp_sorted. }
  apply StronglySorted_app_inv in Hsorted.
  destruct Hsorted as (Sfirst & _ & Hcut).
  repeat split.
  - unfold h, Crud.get_conversation_history_for_lightrag.
    fold w. rewrite length_map. unfold w. rewrite Ew.
    rewrite length_rev, length_firstn.
    unfold rows, k, Crud.get_conversation_message_count.
    rewrite (Permutation_length (order_rows_perm timestamp_desc _)).
    apply Nat.min_comm.
  - unfold h, Crud.get_conversation_history_for_lightrag. fold w.
    apply Forall2_map_r. intros m.
    unfold Crud.history_entry; simpl.
    repeat split; intros ->; reflexivity.
  - apply (Permutation_in m) in Hperm.
    + apply filter_In in Hperm. apply Hperm.
    + apply in_or_app; right; exact H.
  - apply (Permutation_in m) in Hperm.
    + apply filter_In in Hperm. destruct Hperm as [_ Hc].
      apply N.eqb_eq. exact Hc.
    + apply in_or_app; right; exact H.
  - unfold w. rewrite Ew.
    apply (StronglySorted_rev _ _ Sfirst).
  - exists (skipn N rows). split; [exact Hperm|].
    intros a b Ha Hb. unfold w in Hb. rewrite Ew in Hb.
    apply in_rev in Hb. apply (Hcut b a Hb Ha).
Qed.

(** ** The steps of a chat turn *)

Import Schemas.

Lemma world_eta (w : World) :
  {| db := db w; fs := fs w; outbox := outbox w |} = w.
Proof. destruct w; reflexivity. Qed.

Lemma database_eta (d : Database) :
  {| conversations := conversations d; messages := messages d |} = d.
Proof. destruct d; reflexivity. Qed.

Lemma db_call_inv (env : Env) {A : Type} (c : DbCall)
    (stmt : Database -> Outcome (Database * A)) (w w' : World)
    (r : Outcome A) :
  Store.db_call env c stmt w = (w', r) ->
  fs w' = fs w /\ outbox w' = outbox w /\
  match r with
  | Ok a => db_fault env c = false /\ stmt (db w) = Ok (db w', a)
  | Raise _ => w' = w
  end.
Proof.
  unfold Store.db_call. destruct (db_fault env c).
  - intros [= <- <-]. auto.
  - destruct (stmt (db w)) as [[d a]|e]; intros [= <- <-]; simpl; auto.
Qed.

Lemma existsb_false_filter {A : Type} (p : A -> bool) (l : list A) :
  existsb p l = false -> filter p l = [].
Proof.
  induction l as [|x l IH]; simpl; [reflexivity|].
  intros H. apply orb_false_iff in H. destruct H as [-> H]. auto.
Qed.

Lemma scalar_one_or_none_some {A : Type} (rows : list A) (x : A) :
  Crud.scalar_one_or_none rows = Ok (Some x) -> rows = [x].
Proof.
  destruct rows as [|a [|b rows]]; simpl; intros [=]; subst; reflexivity.
Qed.

Lemma get_conversation_some_id (d : Database) (cid : UUID)
    (c : Conversation) :
  Crud.get_conversation d cid = Ok (Some c) -> conv_id c = cid.
Proof.
  intros H. apply scalar_one_or_none_some in H.
  assert (Hin : In c (Crud.select_conversation d cid))
    by (rewrite H; left; reflexivity).
  apply filter_In in Hin. apply N.eqb_eq. apply Hin.
Qed.

(** Step 1 leaves the messages alone and yields the one row of the
    conversation. *)
Lemma resolve_conversation_inv (env : Env) (request : ChatRequest)
    (w w1 : World) (r : Outcome (UUID * Conversation)) :
  Chat.resolve_conversation env request w = (w1, r) ->
  messages (db w1) = messages (db w) /\
  fs w1 = fs w /\ outbox w1 = outbox w /\
  match r with
  | Ok (cid, conv) =>
      cid = Chat.conversation_id_for env request /\
      Crud.get_conversation (db w1) cid = Ok (Some conv) /\
      match req_conversation_id request with
      | Some _ => w1 = w
      | None => title conv = None /\
                conversations (db w1) = conversations (db w) ++ [conv]
      end
  | Raise _ => w1 = w
  end.
Proof.
  unfold Chat.resolve_conversation, Chat.conversation_id_for.
  destruct (req_conversation_id request) as [cid|].
  - unfold bind, Store.get_conversation.
    destruct (Store.db_call env GetConversation _ w) as [w' [found|e]] eqn:E;
      apply db_call_inv in E; destruct E as (Hfs & Hout & E).
    + destruct E as [_ E].
      destruct (Crud.get_conversation (db w) cid) as [o|e] eqn:G;
        [|discriminate].
      injection E as Hdb <-.
      assert (w' = w) as ->.
      { destruct w, w'; simpl in *; congruence. }
      destruct o as [conv|]; intros [= <- <-]; auto 10.
    + subst w'. intros [= <- <-]. auto.
  - unfold bind, lift, new_ConversationCreate; simpl.
    unfold Store.create_conversation.
    destruct (Store.db_call env CreateConversation _ w)
      as [w' [conv|e]] eqn:E;
      apply db_call_inv in E; destruct E as (Hfs & Hout & E).
    + destruct E as [_ E]. simpl in E.
      destruct (Crud.conversation_exists (db w) (uuid4 env CreateConversation))
        eqn:X; [discriminate|].
      injection E as Hdb <-.
      unfold ret. intros [= <- <-]. simpl.
      rewrite <- Hdb; simpl. repeat split; auto.
      unfold Crud.get_conversation, Crud.select_conversation; simpl.
      rewrite filter_app.
      rewrite (existsb_false_filter _ _ X). simpl.
      rewrite N.eqb_refl. reflexivity.
    + subst w'. intros [= <- <-]. auto.
Qed.

(** Steps 2 and 6 append one row and touch nothing else. *)
Lemma create_message_inv (env : Env) (cid : UUID) (s : MessageSender)
    (c : string) (src : option (list Source)) (w w' : World)
    (r : Outcome Message) :
  bind (lift (new_MessageCreate cid s c src)) (Store.create_message env) w
    = (w', r) ->
  conversations (db w') = conversations (db w) /\
  fs w' = fs w /\ outbox w' = outbox w /\
  match r with
  | Ok m =>
      m = {| msg_id := uuid4 env (CreateMessage s); conversation_id := cid;
             sender := s; content := c; sources := src;
             timestamp := now env (CreateMessage s) |} /\
      messages (db w') = messages (db w) ++ [m]
  | Raise _ => w' = w
  end.
Proof.
  unfold bind, lift, new_MessageCreate.
  destruct (1 <=? Py.len c).
  - unfold Store.create_message.
    destruct (Store.db_call env _ _ w) as [w2 [m|e]] eqn:E;
      apply db_call_inv in E; destruct E as (Hfs & Hout & E).
    + destruct E as [_ E]. simpl in E.
      match type of E with (if ?b then _ else _) = _ =>
        destruct b; [discriminate|] end.
      injection E as Hdb <-.
      intros [= <- <-]. rewrite <- Hdb; simpl. auto.
    + subst w2. intros [= <- <-]. auto.
  - intros [= <- <-]. auto.
Qed.

(** Step 3 reads. *)
Lemma get_history_inv (env : Env) (cid : UUID) (n : nat) (w w' : World)
    (r : Outcome (list Crud.HistoryEntry)) :
  Store.get_conversation_history_for_lightrag env cid n w = (w', r) ->
  w' = w /\
  match r with
  | Ok h => h = Crud.get_conversation_history_for_lightrag (db w) cid n
  | Raise _ => True
  end.
Proof.
  unfold Store.get_conversation_history_for_lightrag. intros E.
  apply db_call_inv in E. destruct E as (Hfs & Hout & E).
  destruct r as [h|e]; [|auto].
  destruct E as [_ E]. injection E as Hdb ->.
  split; [|reflexivity].
  destruct w, w'; simpl in *; congruence.
Qed.

(** [query] makes its one call, and raises exactly on the replies
    [query_rejects] names. *)
Lemma query_run (env : Env) (self : LightRAG.LightRAGService)
    (q mode : string) (h : option (list Crud.HistoryEntry))
    (kwargs : list (string * option JValue)) (w : World) :
  let c := LightRAG.query_call self q mode h kwargs in
  exists r,
    LightRAG.query env self q mode h kwargs w = (sent w c, r) /\
    if LightRAG.query_rejects (rag_server env c)
    then exists e, r = Raise e
    else exists s, r = Ok {| response := s |}.
Proof.
  intros c.
  unfold LightRAG.query, LightRAG.log_and_reraise, try_except, bind,
    LightRAG.send, LightRAG.query_rejects, lift, ret, raise, sent.
  fold c.
  destruct (rag_server env c) as [| | code | | obj]; simpl;
    try (eexists; split; [reflexivity | eexists; reflexivity]).
  destruct (LightRAG.dict_get "response" (JString "") obj); simpl;
    eexists; (split; [reflexivity | eexists; reflexivity]).
Qed.

(** [upload_document] likewise. *)
Lemma upload_run (env : Env) (self : LightRAG.LightRAGService)
    (data : list Byte.byte) (name : string) (w : World) :
  let c := LightRAG.upload_call self data name in
  exists r,
    LightRAG.upload_document env self data name w = (sent w c, r) /\
    if LightRAG.upload_rejects (rag_server env c)
    then exists e, r = Raise e
    else exists u, r = Ok u.
Proof.
  intros c.
  unfold LightRAG.upload_document, LightRAG.log_and_reraise, try_except,
    bind, LightRAG.send, LightRAG.upload_rejects, lift, ret, raise, sent.
  fold c.
  destruct (rag_server env c) as [| | code | | obj]; simpl;
    try (eexists; split; [reflexivity | eexists; reflexivity]).
  destruct (LightRAG.dict_get "status" (JString "success") obj); simpl;
    try (eexists; split; [reflexivity | eexists; reflexivity]).
  destruct (LightRAG.dict_get "message" (JString "Upload completed") obj);
    simpl; eexists; (split; [reflexivity | eexists; reflexivity]).
Qed.

Lemma ask_lightrag_inv (env : Env) (request : ChatRequest)
    (h : list Crud.HistoryEntry) (w w' : World) (r : Outcome string) :
  Chat.ask_lightrag env request h w = (w', r) ->
  w' = sent w (Chat.chat_call env request h) /\
  if LightRAG.query_rejects (rag_server env (Chat.chat_call env request h))
  then r = Raise (HTTPException HTTP_503_SERVICE_UNAVAILABLE)
  else exists s, r = Ok s.
Proof.
  unfold Chat.ask_lightrag, try_except, bind.
  destruct (query_run env (LightRAG.lightrag_service env) (message request)
              "hybrid" (Chat.without_last h) Chat.query_kwargs w)
    as (r0 & -> & Hr).
  fold (Chat.chat_call env request h) in *.
  destruct (LightRAG.query_rejects (rag_server env (Chat.chat_call env request h))).
  - destruct Hr as [e ->]. unfold raise. intros [= <- <-]. auto.
  - destruct Hr as [s ->]. unfold ret. intros [= <- <-]. eauto.
Qed.

(** The history that goes out is the fetched one without its last
    entry. *)
Lemma history_of_chat_call (env : Env) (request : ChatRequest)
    (h : list Crud.HistoryEntry) :
  LightRAG.history_of_call (Chat.chat_call env request h) = removelast h.
Proof.
  destruct h as [|x [|y t]]; reflexivity.
Qed.

Lemma db_call_raise_not_http (env : Env) {A : Type} (c : DbCall)
    (stmt : Database -> Outcome (Database * A)) (w w' : World)
    (e : Exception) :
  (forall e0, stmt (db w) = Raise e0 -> not_http e0) ->
  Store.db_call env c stmt w = (w', Raise e) -> not_http e.
Proof.
  unfold Store.db_call. intros H.
  destruct (db_fault env c).
  - intros [= _ <-] code; discriminate.
  - destruct (stmt (db w)) as [[d a]|e0] eqn:E; [discriminate|].
    intros [= _ <-]. apply H. reflexivity.
Qed.

Lemma create_message_raise_not_http (env : Env) (cid : UUID)
    (s : MessageSender) (c : string) (src : option (list Source))
    (w w' : World) (e : Exception) :
  bind (lift (new_MessageCreate cid s c src)) (Store.create_message env) w
    = (w', Raise e) ->
  not_http e.
Proof.
  unfold bind, lift, new_MessageCreate.
  destruct (1 <=? Py.len c).
  - unfold Store.create_message. apply db_call_raise_not_http.
    intros e0. simpl.
    match goal with |- (if ?b then _ else _) = _ -> _ => destruct b end;
      [|discriminate].
    intros [= <-] code; discriminate.
  - intros [= _ <-] code; discriminate.
Qed.

Lemma bind_inv {A B : Type} (m : M A) (k : A -> M B) (w w' : World)
    (r : Outcome B) :
  bind m k w = (w', r) ->
  (exists w1 a, m w = (w1, Ok a) /\ k a w1 = (w', r)) \/
  (exists e, m w = (w', Raise e) /\ r = Raise e).
Proof.
  unfold bind. destruct (m w) as [w1 [a|e]].
  - intros H. left. eauto.
  - intros [= <- <-]. right. eauto.
Qed.

(** Steps 1 to 6, by the step at which they stop. *)
Lemma exchange_cases (env : Env) (request : ChatRequest) (w w' : World)
    (r : Outcome Chat.Exchange) :
  Chat.exchange env request w = (w', r) ->
  let cid := Chat.conversation_id_for env request in
  let u := Chat.user_row env request in
  fs w' = fs w /\
  ((messages (db w') = messages (db w) /\ outbox w' = outbox w /\
    exists e, r = Raise e)
   \/
   exists w1 conv,
     Chat.resolve_conversation env request w = (w1, Ok (cid, conv)) /\
     conversations (db w') = conversations (db w1) /\
     let d2 := {| conversations := conversations (db w1);
                  messages := messages (db w) ++ [u] |} in
     let c := Chat.chat_call env request
                (Crud.get_conversation_history_for_lightrag d2 cid 10) in
     ((messages (db w') = messages (db w) ++ [u] /\
       outbox w' = outbox w /\ exists e, r = Raise e /\ not_http e)
      \/
      (outbox w' = outbox w ++ [c] /\
       ((LightRAG.query_rejects (rag_server env c) = true /\
         messages (db w') = messages (db w) ++ [u] /\
         r = Raise (HTTPException HTTP_503_SERVICE_UNAVAILABLE))
        \/
        (LightRAG.query_rejects (rag_server env c) = false /\
         exists s,
           (messages (db w') = messages (db w) ++ [u] /\
            exists e, r = Raise e /\ not_http e)
           \/
           (messages (db w') =
              messages (db w) ++ [u; Chat.ai_row env request s] /\
            r = Ok {| Chat.conversation_id_of := cid;
                      Chat.conversation_of := conv;
                      Chat.user_message_of := u;
                      Chat.ai_response_text_of := s;
                      Chat.ai_message_of := Chat.ai_row env request s |})))))).
Proof.
  intros H cid u. unfold Chat.exchange in H.
  (* step 1 *)
  apply bind_inv in H.
  destruct H as [(w1 & [cid' conv] & E1 & H) | (e & E1 & ->)].
  2:{ apply resolve_conversation_inv in E1.
      destruct E1 as (Hm & Hf & Ho & ->). split; [reflexivity|].
      left. eauto. }
  pose proof (resolve_conversation_inv _ _ _ _ _ E1) as (Hm1 & Hf1 & Ho1 & -> & _).
  fold cid in E1, H. cbn [fst snd] in H.
  (* step 2 *)
  apply bind_inv in H.
  destruct H as [(w2 & um & E2 & H) | (e & E2 & ->)].
  2:{ apply create_message_inv in E2.
      destruct E2 as (Hc & Hf & Ho & ->). split; [congruence|].
      left. repeat split; try congruence. eauto. }
  apply create_message_inv in E2.
  destruct E2 as (Hc2 & Hf2 & Ho2 & Hum & Hm2).
  fold cid in Hum. change (um = u) in Hum. subst um.
  rewrite Hm1 in Hm2.
  assert (Hd2 : db w2 = {| conversations := conversations (db w1);
                           messages := messages (db w) ++ [u] |}).
  { rewrite <- Hc2, <- Hm2. symmetry. apply database_eta. }
  (* step 3 *)
  apply bind_inv in H.
  destruct H as [(w3 & h & E3 & H) | (e & E3 & ->)].
  2:{ pose proof E3 as E3'. apply get_history_inv in E3.
      destruct E3 as (-> & _). split; [congruence|].
      right. exists w1, conv. repeat split; try congruence.
      left. repeat split; try congruence.
      exists e. split; [reflexivity|].
      unfold Store.get_conversation_history_for_lightrag in E3'.
      eapply db_call_raise_not_http; [|exact E3']. discriminate. }
  apply get_history_inv in E3. destruct E3 as (-> & ->).
  rewrite Hd2 in H.
  (* step 4 *)
  apply bind_inv in H.
  destruct H as [(w4 & s & E4 & H) | (e & E4 & ->)];
    apply ask_lightrag_inv in E4; destruct E4 as (-> & E4);
    match type of E4 with
      (if LightRAG.query_rejects (rag_server env ?c0) then _ else _) =>
        destruct (LightRAG.query_rejects (rag_server env c0)) eqn:Q
    end;
    try discriminate; try (destruct E4; discriminate).
  2:{ injection E4 as ->. split; [simpl; congruence|].
      right. exists w1, conv. repeat split; try (simpl; congruence).
      right. split; [simpl; congruence|].
      left. repeat split; simpl; congruence. }
  clear E4.
  (* step 6 *)
  apply bind_inv in H.
  destruct H as [(w5 & am & E5 & H) | (e & E5 & ->)].
  2:{ pose proof (create_message_raise_not_http _ _ _ _ _ _ _ _ E5) as Hn.
      apply create_message_inv in E5.
      destruct E5 as (Hc & Hf & Ho & ->). split; [simpl; congruence|].
      right. exists w1, conv. repeat split; try (simpl; congruence).
      right. split; [simpl; congruence|].
      right. split; [exact Q|]. exists s.
      left. split; [simpl; congruence|]. eauto. }
  apply create_message_inv in E5.
  destruct E5 as (Hc5 & Hf5 & Ho5 & Ham & Hm5).
  change (am = Chat.ai_row env request s) in Ham. subst am.
  unfold ret in H. injection H as <- <-.
  split; [simpl in *; congruence|].
  right. exists w1, conv. repeat split; try (simpl in *; congruence).
  right. split; [simpl in *; congruence|].
  right. split; [exact Q|]. exists s.
  right. split; [|reflexivity].
  rewrite Hm5. simpl. rewrite Hm2, <- app_assoc. reflexivity.
Qed.

Lemma filter_map_same {A : Type} (p : A -> bool) (f : A -> A)
    (l : list A) :
  (forall a, p (f a) = p a) -> filter p (map f l) = map f (filter p l).
Proof.
  intros H. induction l as [|a l IH]; simpl; [reflexivity|].
  rewrite H. destruct (p a); simpl; rewrite IH; reflexivity.
Qed.

(** Step 7 writes at most the title of the conversation. *)
Lemma auto_title_inv (env : Env) (conv : Conversation) (cid : UUID)
    (w w' : World) (r : Outcome unit) :
  Crud.get_conversation (db w) cid = Ok (Some conv) ->
  Chat.auto_title env conv cid w = (w', r) ->
  messages (db w') = messages (db w) /\
  fs w' = fs w /\ outbox w' = outbox w /\
  match r with
  | Raise e => w' = w /\ not_http e /\ Py.truthy_opt (title conv) = false
  | Ok _ =>
      exists conv',
        Crud.get_conversation (db w') cid = Ok (Some conv') /\
        title conv' =
          if Py.truthy_opt (title conv) then title conv
          else match Crud.generate_conversation_title (db w) cid with
               | Some t => if Py.truthy t then Some t else title conv
               | None => title conv
               end
  end.
Proof.
  intros G. unfold Chat.auto_title.
  destruct (Py.truthy_opt (title conv)) eqn:T; simpl.
  { unfold ret. intros [= <- <-]. repeat split. eauto. }
  intros H. apply bind_inv in H.
  destruct H as [(w1 & g & E1 & H) | (e & E1 & ->)].
  2:{ pose proof E1 as E1'.
      apply db_call_inv in E1. destruct E1 as (Hf & Ho & ->).
      repeat split.
      eapply db_call_raise_not_http; [|exact E1']. discriminate. }
  apply db_call_inv in E1. destruct E1 as (Hf1 & Ho1 & _ & E1).
  injection E1 as Hd1 <-.
  assert (w1 = w) as -> by (destruct w, w1; simpl in *; congruence).
  destruct (Crud.generate_conversation_title (db w) cid) as [t|].
  2:{ unfold ret in H. injection H as <- <-. repeat split. eauto. }
  destruct (Py.truthy t).
  2:{ unfold ret in H. injection H as <- <-. repeat split. eauto. }
  apply bind_inv in H.
  destruct H as [(w2 & o & E2 & H) | (e & E2 & ->)].
  2:{ pose proof E2 as E2'.
      apply db_call_inv in E2. destruct E2 as (Hf & Ho & ->).
      repeat split.
      eapply db_call_raise_not_http; [|exact E2'].
      intros e0. cbv beta. rewrite G. discriminate. }
  apply db_call_inv in E2. destruct E2 as (Hf2 & Ho2 & _ & E2).
  rewrite G in E2. injection E2 as Hd2 <-.
  unfold ret in H. injection H as <- <-.
  rewrite <- Hd2. simpl. repeat split; try assumption.
  exists (Store.set_title t conv). split; [|reflexivity].
  unfold Crud.get_conversation, Crud.select_conversation in *. simpl.
  rewrite filter_map_same.
  - apply scalar_one_or_none_some in G as G'. 
    unfold Crud.select_conversation in G'. rewrite G'. simpl.
    rewrite (get_conversation_some_id _ _ _ G : conv_id conv = cid).
    rewrite N.eqb_refl. reflexivity.
  - intros a. destruct (conv_id a =? cid)%N eqn:X; simpl; rewrite X;
      reflexivity.
Qed.

(** The handler: steps 1 to 6, then the title, then the response; an
    exception other than [HTTPException] becomes a 500. *)
Lemma chat_cases (env : Env) (request : ChatRequest) (w w' : World)
    (r : Outcome ChatResponse) :
  Chat.chat env request w = (w', r) ->
  exists w5 r5,
    Chat.exchange env request w = (w5, r5) /\
    match r5 with
    | Raise e =>
        w' = w5 /\
        r = Raise (match e with
                   | HTTPException _ => e
                   | _ => internal_server_error_exception
                   end)
    | Ok x =>
        exists rt,
          Chat.auto_title env (Chat.conversation_of x)
            (Chat.conversation_id_of x) w5 = (w', rt) /\
          r = match rt with
              | Ok _ => Ok (Chat.chat_response x)
              | Raise e => Raise (match e with
                                  | HTTPException _ => e
                                  | _ => internal_server_error_exception
                                  end)
              end
    end.
Proof.
  unfold Chat.chat, try_except, bind.
  destruct (Chat.exchange env request w) as [w5 [x|e]].
  - destruct (Chat.auto_title env _ _ w5) as [w6 [[]|e]] eqn:T.
    + unfold ret. intros [= <- <-].
      exists w5, (Ok x). split; [reflexivity|]. exists (Ok tt). auto.
    + intros H. exists w5, (Ok x). split; [reflexivity|].
      exists (Raise e). destruct e; injection H as <- <-; auto.
  - intros H. exists w5, (Raise e). split; [reflexivity|].
    destruct e; injection H as <- <-; auto.
Qed.

(** ** The current message and the history *)


(** Once a row newer than all rows of its conversation is appended, the
    window of n+1 is the old window of n followed by that row. *)
Lemma recent_messages_snoc (d d2 : Database) (cid : UUID) (u : Message)
    (n : nat) :
  messages d2 = messages d ++ [u] ->
  conversation_id u = cid ->
  (forall m, In m (messages d) -> conversation_id m = cid ->
             (timestamp m < timestamp u)%Z) ->
  Crud.recent_messages d2 cid (S n) = Crud.recent_messages d cid n ++ [u].
Proof.
  intros Hm Hu Hnew. unfold Crud.recent_messages.
  rewrite Hm, filter_app. simpl.
  unfold in_conversation at 2. rewrite Hu, N.eqb_refl.
  unfold order_by_desc_timestamp. rewrite order_rows_snoc.
  - reflexivity.
  - intros a Ha. apply filter_In in Ha. destruct Ha as [Hin Hc].
    apply N.eqb_eq in Hc. unfold timestamp_desc.
    apply Z.leb_gt. auto.
Qed.

Lemma removelast_map {A B : Type} (f : A -> B) (l : list A) :
  removelast (map f l) = map f (removelast l).
Proof.
  induction l as [|a [|b l] IH]; simpl in *; try reflexivity.
  rewrite IH. reflexivity.
Qed.

Lemma skipn_length_app {A : Type} (l l' : list A) :
  skipn (List.length l) (l ++ l') = l'.
Proof. induction l; simpl; auto. Qed.

Lemma get_conversation_ext (d d' : Database) (cid : UUID) :
  conversations d' = conversations d ->
  Crud.get_conversation d' cid = Crud.get_conversation d cid.
Proof.
  unfold Crud.get_conversation, Crud.select_conversation.
  intros ->. reflexivity.
Qed.

(** What one turn does to the messages and to the outbox. *)
Lemma chat_effects (env : Env) (request : ChatRequest) (w w' : World)
    (r : Outcome ChatResponse) :
  Chat.chat env request w = (w', r) ->
  exists w5 r5,
    Chat.exchange env request w = (w5, r5) /\
    messages (db w') = messages (db w5) /\
    outbox w' = outbox w5 /\ fs w' = fs w5.
Proof.
  intros H. apply chat_cases in H. destruct H as (w5 & r5 & E & H).
  exists w5, r5. split; [exact E|].
  destruct r5 as [x|e]; [|destruct H as [-> _]; auto].
  destruct H as (rt & T & _).
  pose proof (exchange_cases _ _ _ _ _ E) as (_ & C).
  destruct C as [(_ & _ & e & He) | (w1 & conv & R & Hc & C)];
    [discriminate|].
  assert (G : Crud.get_conversation (db w5)
                (Chat.conversation_id_for env request) = Ok (Some conv)).
  { apply resolve_conversation_inv in R.
    destruct R as (_ & _ & _ & _ & G & _).
    rewrite (get_conversation_ext _ _ _ Hc). exact G. }
  assert (Hx : Chat.conversation_id_of x
               = Chat.conversation_id_for env request
               /\ Chat.conversation_of x = conv).
  { cbv zeta in C.
    destruct C as [(_ & _ & e & He & _) | (_ & [(_ & _ & He) | (_ & s & C)])];
      try discriminate.
    destruct C as [(_ & e & He & _) | (_ & He)]; [discriminate|].
    injection He as ->. auto. }
  destruct Hx as [Hx1 Hx2]. rewrite Hx1, Hx2 in T.
  apply (auto_title_inv _ _ _ _ _ _ G) in T.
  destruct T as (Hm & Hf & Ho & _). auto.
Qed.




(** ** A failing RAG call *)

Lemma message_count_snoc (d d' : Database) (u : Message) (cid : UUID) :
  messages d' = messages d ++ [u] ->
  Crud.get_conversation_message_count d' cid =
    if (conversation_id u =? cid)%N
    then S (Crud.get_conversation_message_count d cid)
    else Crud.get_conversation_message_count d cid.
Proof.
  unfold Crud.get_conversation_message_count. intros ->.
  rewrite filter_app, length_app. simpl. unfold in_conversation at 2.
  destruct (conversation_id u =? cid)%N; simpl; lia.
Qed.

Lemma app_one_neq {A : Type} (l : list A) (a : A) : l <> l ++ [a].
Proof.
  intros H. apply (f_equal (@List.length A)) in H.
  rewrite length_app in H. simpl in H. lia.
Qed.

(** C3 does not hold as stated: a reply that is a JSON object without
    [response] is a malformed payload, yet the client does not raise on
    it. It returns the empty text, the AI message is refused by its
    schema, and the turn ends with 500, not 503. *)
Lemma reply_without_text_is_not_unavailable :
  snd (Chat.chat Cases.env_no_text Scenario.request_old Scenario.w_one_turn)
  = Raise (HTTPException HTTP_500_INTERNAL_SERVER_ERROR) /\
  outbox (fst (Chat.chat Cases.env_no_text Scenario.request_old
                 Scenario.w_one_turn))
  = [Chat.chat_call Cases.env_no_text Scenario.request_old
       (map Crud.history_entry
          [Scenario.first_question; Scenario.first_answer;
           Chat.user_row Cases.env_no_text Scenario.request_old])] /\
  rag_server Cases.env_no_text
    (Chat.chat_call Cases.env_no_text Scenario.request_old
       (map Crud.history_entry
          [Scenario.first_question; Scenario.first_answer;
           Chat.user_row Cases.env_no_text Scenario.request_old]))
  = Json [("status"%string, JString "success")] /\
  HTTP_500_INTERNAL_SERVER_ERROR <> HTTP_503_SERVICE_UNAVAILABLE.
Proof.
  split; [|split; [|split]].
  - vm_compute. reflexivity.
  - vm_compute. reflexivity.
  - reflexivity.
  - discriminate.
Qed.

(** C3, amended. When the query call of a chat turn goes out and the
    client raises on it (no connection, a timeout, a non-success
    status, a reply that is not JSON, or a [response] that is not a
    string), the handler raises 503 Service Unavailable, no AI message
    is stored and the user's message stays: the only new row is the
    user's, and the message count of the conversation grows by
    exactly 1. *)
Theorem chat_rag_failure (env : Env) (request : ChatRequest)
    (w w' : World) (r : Outcome ChatResponse) (c : HttpCall) :
  Chat.chat env request w = (w', r) ->
  outbox w' = outbox w ++ [c] ->
  LightRAG.query_rejects (rag_server env c) = true ->
  r = Raise (HTTPException HTTP_503_SERVICE_UNAVAILABLE) /\
  messages (db w') = messages (db w) ++ [Chat.user_row env request] /\
  sender (Chat.user_row env request) = USER /\
  Crud.get_conversation_message_count (db w')
    (Chat.conversation_id_for env request)
  = S (Crud.get_conversation_message_count (db w)
         (Chat.conversation_id_for env request)) /\
  forall other, other <> Chat.conversation_id_for env request ->
    Crud.get_conversation_message_count (db w') other
    = Crud.get_conversation_message_count (db w) other.
Proof.
  intros H Hout Hrej.
  pose proof (chat_cases _ _ _ _ _ H) as (w5 & r5 & E & K).
  pose proof (chat_effects _ _ _ _ _ H) as (w5' & r5' & E' & Hm & Ho & _).
  rewrite E in E'. injection E' as <- <-.
  pose proof (exchange_cases _ _ _ _ _ E) as (_ & C). cbv zeta in C.
  rewrite Ho in Hout.
  assert (Hfail : r5 = Raise (HTTPException HTTP_503_SERVICE_UNAVAILABLE)
                  /\ messages (db w5)
                     = messages (db w) ++ [Chat.user_row env request]).
  { destruct C as [(_ & Ho5 & _) | (w1 & conv & _ & _ & C)].
    { rewrite Ho5 in Hout. destruct (app_one_neq _ _ Hout). }
    destruct C as [(_ & Ho5 & _) | (Ho5 & C)].
    { rewrite Ho5 in Hout. destruct (app_one_neq _ _ Hout). }
    rewrite Ho5 in Hout. apply app_inv_head in Hout.
    injection Hout as Hc. rewrite Hc in C.
    destruct C as [(_ & Hm5 & ->) | (Q & _)]; [auto | congruence]. }
  destruct Hfail as [-> Hm5]. destruct K as [-> ->].
  repeat split; try assumption.
  - rewrite (message_count_snoc _ _ _ _ Hm5). simpl.
    rewrite N.eqb_refl. reflexivity.
  - intros other Hother.
    rewrite (message_count_snoc _ _ _ _ Hm5). simpl.
    destruct (N.eqb_spec (Chat.conversation_id_for env request) other);
      [congruence | reflexivity].
Qed.

Lemma chat_rag_failure_witness :
  snd (Chat.chat Scenario.env_rag_down Scenario.request_new Scenario.w_empty)
  = Raise (HTTPException HTTP_503_SERVICE_UNAVAILABLE) /\
  messages (db (fst (Chat.chat Scenario.env_rag_down Scenario.request_new
                       Scenario.w_empty)))
  = [Chat.user_row Scenario.env_rag_down Scenario.request_new].
Proof.
  refine ((fun H => conj (proj1 H) (proj1 (proj2 H)))
    (@chat_rag_failure Scenario.env_rag_down Scenario.request_new
       Scenario.w_empty
       (fst (Chat.chat Scenario.env_rag_down Scenario.request_new
               Scenario.w_empty))
       (snd (Chat.chat Scenario.env_rag_down Scenario.request_new
               Scenario.w_empty))
       (Chat.chat_call Scenario.env_rag_down Scenario.request_new [])
       _ _ _)).
  - reflexivity.
  - reflexivity.
  - reflexivity.
Defined.

(** ** An empty message *)

(** The request behind [POST /api/chat/], step by step: a body that
    fails its schema and a handler that raises are both answered
    through [get_db]. *)
Lemma post_chat_steps (env : Env) (cid : option UUID) (raw : string)
    (w : World) :
  Chat.post_chat env cid raw w
  = match new_ChatRequest cid raw with
    | Ok request =>
        match Chat.chat env request w with
        | (w', Ok a) => (w', {| status := 200; payload := Some a |})
        | (w', Raise _) =>
            (w', {| status := HTTP_503_SERVICE_UNAVAILABLE;
                    payload := None |})
        end
    | Raise _ =>
        (w, {| status := HTTP_503_SERVICE_UNAVAILABLE; payload := None |})
    end.
Proof.
  unfold Chat.post_chat, respond, Dependencies.get_db, try_except, bind,
    lift, raise.
  destruct (new_ChatRequest cid raw) as [request|e]; [|reflexivity].
  destruct (Chat.chat env request w) as [w' [a|e]]; reflexivity.
Qed.



(** ** The title step *)

(** What steps 1 to 6 have stored when they succeed. *)
Lemma exchange_ok (env : Env) (request : ChatRequest) (w w5 : World)
    (x : Chat.Exchange) :
  Chat.exchange env request w = (w5, Ok x) ->
  Crud.get_conversation (db w5) (Chat.conversation_id_of x)
    = Ok (Some (Chat.conversation_of x)) /\
  Chat.conversation_id_of x = Chat.conversation_id_for env request /\
  Chat.user_message_of x = Chat.user_row env request /\
  Chat.ai_message_of x
    = Chat.ai_row env request (Chat.ai_response_text_of x) /\
  messages (db w5)
    = messages (db w) ++ [Chat.user_message_of x; Chat.ai_message_of x] /\
  exists w1,
    Chat.resolve_conversation env request w
      = (w1, Ok (Chat.conversation_id_of x, Chat.conversation_of x)) /\
    conversations (db w5) = conversations (db w1).
Proof.
  intros E. pose proof (exchange_cases _ _ _ _ _ E) as (_ & C).
  cbv zeta in C.
  destruct C as [(_ & _ & e & He) | (w1 & conv & R & Hc & C)];
    [discriminate|].
  destruct C as [(_ & _ & e & He & _) | (_ & [(_ & _ & He) | (_ & s & C)])];
    try discriminate.
  destruct C as [(_ & e & He & _) | (Hm & He)]; [discriminate|].
  injection He as ->. simpl.
  pose proof (resolve_conversation_inv _ _ _ _ _ R) as (_ & _ & _ & _ & G & _).
  rewrite (get_conversation_ext _ _ _ Hc).
  repeat split; try assumption. exists w1. auto.
Qed.

(** C6 does not hold as stated: a database fault while the title is
    generated, after both messages of the turn are stored, turns the
    whole turn into a 500. *)
Lemma title_failure_fails_the_turn :
  Chat.exchange Scenario.env_title_fault Scenario.request_new
    Scenario.w_empty
  = (Scenario.w_hello_stored, Ok Scenario.hello_exchange) /\
  Chat.auto_title Scenario.env_title_fault
    (Chat.conversation_of Scenario.hello_exchange)
    (Chat.conversation_id_of Scenario.hello_exchange)
    Scenario.w_hello_stored
  = (Scenario.w_hello_stored, Raise OperationalError) /\
  Chat.chat Scenario.env_title_fault Scenario.request_new Scenario.w_empty
  = (Scenario.w_hello_stored,
     Raise (HTTPException HTTP_500_INTERNAL_SERVER_ERROR)).
Proof. repeat split; reflexivity. Qed.

(** C6, amended. For a chat turn that reaches the title step (both
    messages stored): when the step raises nothing the handler returns
    the response with the conversation id, the AI text and both message
    ids; when the step raises, the exception reaches the handler's
    general clause and the turn fails with 500. Either way both messages
    of the turn stay stored. *)
Theorem title_step_outcome (env : Env) (request : ChatRequest)
    (w w5 w6 : World) (x : Chat.Exchange) (rt : Outcome unit) :
  Chat.exchange env request w = (w5, Ok x) ->
  Chat.auto_title env (Chat.conversation_of x) (Chat.conversation_id_of x)
    w5 = (w6, rt) ->
  match rt with
  | Ok _ =>
      Chat.chat env request w
      = (w6, Ok {| resp_conversation_id := Chat.conversation_id_of x;
                   ai_message := Chat.ai_response_text_of x;
                   resp_sources := None;
                   user_message_id := msg_id (Chat.user_message_of x);
                   ai_message_id := msg_id (Chat.ai_message_of x) |})
  | Raise _ =>
      Chat.chat env request w
      = (w5, Raise (HTTPException HTTP_500_INTERNAL_SERVER_ERROR)) /\
      w6 = w5
  end /\
  messages (db w6)
  = messages (db w) ++ [Chat.user_message_of x; Chat.ai_message_of x].
Proof.
  intros E T.
  pose proof (exchange_ok _ _ _ _ _ E) as (G & _ & _ & _ & Hm & _).
  pose proof (auto_title_inv _ _ _ _ _ _ G T) as (Hm6 & _ & _ & K).
  split; [|congruence].
  unfold Chat.chat, try_except, bind. rewrite E, T.
  destruct rt as [[]|e]; [reflexivity|].
  destruct K as (-> & Hn & _). split; [|reflexivity].
  destruct e; try reflexivity. destruct (Hn status_code). reflexivity.
Qed.

Lemma title_step_outcome_witness :
  Chat.chat Scenario.env_title_fault Scenario.request_new Scenario.w_empty
  = (Scenario.w_hello_stored,
     Raise (HTTPException HTTP_500_INTERNAL_SERVER_ERROR)).
Proof.
  refine (proj1 (proj1
    (title_step_outcome Scenario.env_title_fault Scenario.request_new
       Scenario.w_empty Scenario.w_hello_stored Scenario.w_hello_stored
       Scenario.hello_exchange (Raise OperationalError) _ _))).
  - reflexivity.
  - reflexivity.
Defined.

(** ** The generated title *)

Lemma lstrip_head (s : string) (a : ascii) (r : string) :
  Py.lstrip s = String a r -> Py.isspace a = false.
Proof.
  induction s as [|c s IH]; simpl; [discriminate|].
  destruct (Py.isspace c) eqn:E; [exact IH|].
  intros [= <- _]. exact E.
Qed.

Lemma rstrip_head (s : string) (a : ascii) (r : string) :
  Py.rstrip s = String a r -> exists r', s = String a r'.
Proof.
  destruct s as [|c s]; simpl; [discriminate|].
  destruct (Py.rstrip s); [destruct (Py.isspace c)|];
    intros [= <- _]; eauto.
Qed.

Lemma strip_head (s : string) (a : ascii) (r : string) :
  Py.strip s = String a r -> Py.isspace a = false.
Proof.
  unfold Py.strip. intros H. apply rstrip_head in H. destruct H as [r' H].
  apply lstrip_head in H. exact H.
Qed.

Lemma strip_nonspace_head (a : ascii) (s : string) :
  Py.isspace a = false -> exists r, Py.strip (String a s) = String a r.
Proof.
  intros H. unfold Py.strip. simpl. rewrite H. simpl.
  destruct (Py.rstrip s); [rewrite H|]; eauto.
Qed.

(** A content that starts with a visible character yields a non-empty
    title. *)
Lemma title_of_content_truthy (a : ascii) (c : string) :
  Py.isspace a = false ->
  Py.truthy (Crud.title_of_content (String a c)) = true.
Proof.
  intros H. unfold Crud.title_of_content.
  change (Py.slice_to 50 (String a c)) with (String a (Py.slice_to 49 c)).
  destruct (strip_nonspace_head a (Py.slice_to 49 c) H) as [r ->].
  destruct (50 <? Py.len (String a c)); reflexivity.
Qed.

Lemma trimmed_title_truthy (c : string) :
  Py.strip c = c -> c <> EmptyString ->
  Py.truthy (Crud.title_of_content c) = true.
Proof.
  intros H Hne. destruct c as [|a c]; [congruence|].
  apply title_of_content_truthy. apply (strip_head _ _ _ H).
Qed.

(** The row the title is read from is an earliest user message of the
    conversation. *)
Lemma first_user_message_spec (d : Database) (cid : UUID) (m : Message) :
  Crud.first_user_message d cid = Some m ->
  In m (messages d) /\ sender m = USER /\ conversation_id m = cid /\
  forall m', In m' (messages d) -> sender m' = USER ->
             conversation_id m' = cid ->
             (timestamp m <= timestamp m')%Z.
Proof.
  unfold Crud.first_user_message.
  set (p := fun m0 => in_conversation cid m0
                      && MessageSender_eqb (sender m0) USER).
  intros H.
  pose proof (order_by_timestamp_sorted (filter p (messages d))) as S.
  pose proof (order_rows_perm timestamp_asc (filter p (messages d))) as P.
  fold order_by_timestamp in P.
  destruct (order_by_timestamp (filter p (messages d))) as [|m0 rest];
    [discriminate|].
  injection H as ->.
  assert (Hin : In m (filter p (messages d))).
  { apply (Permutation_in _ P). left. reflexivity. }
  apply filter_In in Hin. destruct Hin as [Hin Hp].
  unfold p in Hp. apply andb_true_iff in Hp. destruct Hp as [Hc Hs].
  apply N.eqb_eq in Hc.
  repeat split; try assumption.
  - destruct (sender m); [reflexivity | discriminate].
  - intros m' Hin' Hs' Hc'.
    assert (Hf : In m' (m :: rest)).
    { apply (Permutation_in _ (Permutation_sym P)).
      apply filter_In. split; [exact Hin'|].
      unfold p, in_conversation. rewrite Hs', Hc', N.eqb_refl. reflexivity. }
    destruct Hf as [<-|Hf]; [lia|].
    inversion S as [|? ? _ F]; subst.
    rewrite Forall_forall in F. auto.
Qed.

Lemma first_user_message_exists (d : Database) (cid : UUID) (u : Message) :
  In u (messages d) -> sender u = USER -> conversation_id u = cid ->
  exists m, Crud.first_user_message d cid = Some m.
Proof.
  intros Hin Hs Hc. unfold Crud.first_user_message.
  set (p := fun m0 => in_conversation cid m0
                      && MessageSender_eqb (sender m0) USER).
  pose proof (order_rows_perm timestamp_asc (filter p (messages d))) as P.
  fold order_by_timestamp in P.
  destruct (order_by_timestamp (filter p (messages d))) as [|m0 rest];
    [|simpl; eauto].
  apply Permutation_nil in P.
  assert (Hf : In u (filter p (messages d))).
  { apply filter_In. split; [exact Hin|].
    unfold p, in_conversation. rewrite Hs, Hc, N.eqb_refl. reflexivity. }
  rewrite P in Hf. destruct Hf.
Qed.

Lemma first_user_message_ext (d d' : Database) (cid : UUID) :
  messages d' = messages d ->
  Crud.first_user_message d' cid = Crud.first_user_message d cid.
Proof. unfold Crud.first_user_message. intros ->. reflexivity. Qed.

Lemma new_ChatRequest_ok (cid : option UUID) (raw : string)
    (request : ChatRequest) :
  new_ChatRequest cid raw = Ok request ->
  req_conversation_id request = cid /\
  message request = Py.strip raw /\
  Py.strip raw <> EmptyString.
Proof.
  unfold new_ChatRequest, validate_message.
  destruct ((1 <=? Py.len raw) && (Z.of_nat (Py.len raw) <=? 10000)%Z);
    [|discriminate].
  destruct (Py.strip raw) eqn:E; simpl; [discriminate|].
  intros [= <-]. simpl. repeat split. discriminate.
Qed.

(** C5 does not hold as stated: a conversation created with the empty
    title has its title set, and its first chat turn overwrites it. *)
Lemma blank_title_is_overwritten :
  Crud.get_conversation (db Scenario.w_blank_title) 1%N
  = Ok (Some (Scenario.conversation_titled (Some EmptyString))) /\
  exists w' resp,
    Chat.chat Scenario.env_ok Scenario.request_old Scenario.w_blank_title
    = (w', Ok resp) /\
    Crud.get_conversation (db w') 1%N
    = Ok (Some (Scenario.conversation_titled (Some "Hello"%string))).
Proof.
  split; [reflexivity|].
  exists (fst (Chat.chat Scenario.env_ok Scenario.request_old
                 Scenario.w_blank_title)).
  exists (Chat.chat_response
            {| Chat.conversation_id_of := 1%N;
               Chat.conversation_of :=
                 Scenario.conversation_titled (Some EmptyString);
               Chat.user_message_of :=
                 Chat.user_row Scenario.env_ok Scenario.request_old;
               Chat.ai_response_text_of := "hi there"%string;
               Chat.ai_message_of :=
                 Chat.ai_row Scenario.env_ok Scenario.request_old
                   "hi there"%string |}).
  split; reflexivity.
Qed.

(** C5, amended. After a successful chat turn the conversation of the
    response exists, and
    - when its title was set to a non-empty string, the title is
      unchanged;
    - when its title was absent or empty, and the stored user messages
      of the conversation are trimmed and non-empty as the chat
      endpoint stores them, the title is the first 50 characters,
      trimmed, of the content of an earliest user message of the
      conversation, followed by "..." if and only if that content is
      longer than 50 characters. *)
Theorem chat_auto_title (env : Env) (cid : option UUID) (raw : string)
    (w w' : World) (resp : ChatResponse) :
  Chat.post_chat env cid raw w
  = (w', {| status := 200; payload := Some resp |}) ->
  exists conv',
    Crud.get_conversation (db w') (resp_conversation_id resp)
    = Ok (Some conv') /\
    (forall t, Chat.title_on_entry cid w = Some t -> Py.truthy t = true ->
               title conv' = Some t) /\
    (Py.truthy_opt (Chat.title_on_entry cid w) = false ->
     (forall m, In m (messages (db w)) -> sender m = USER ->
                conversation_id m = resp_conversation_id resp ->
                Py.strip (content m) = content m /\
                content m <> EmptyString) ->
     exists m,
       In m (messages (db w')) /\ sender m = USER /\
       conversation_id m = resp_conversation_id resp /\
       (forall m', In m' (messages (db w')) -> sender m' = USER ->
                   conversation_id m' = resp_conversation_id resp ->
                   (timestamp m <= timestamp m')%Z) /\
       title conv' =
         Some (if 50 <? Py.len (content m)
               then (Py.strip (Py.slice_to 50 (content m)) ++ "...")%string
               else Py.strip (Py.slice_to 50 (content m)))).
Proof.
  rewrite post_chat_steps.
  destruct (new_ChatRequest cid raw) as [request|] eqn:V; [|discriminate].
  apply new_ChatRequest_ok in V. destruct V as (Vc & Vm & Vne).
  destruct (Chat.chat env request w) as [w'' [a|e]] eqn:E;
    [|discriminate].
  intros [= -> ->].
  apply chat_cases in E. destruct E as (w5 & r5 & E & K).
  destruct r5 as [x|e]; [|destruct K; discriminate].
  destruct K as (rt & T & K).
  destruct rt as [[]|e]; [|discriminate]. injection K as ->.
  pose proof (exchange_ok _ _ _ _ _ E)
    as (G & Hid & Hu & Ha & Hm5 & w1 & R & Hc).
  pose proof (auto_title_inv _ _ _ _ _ _ G T) as (Hm & _ & _ & conv' & G' & Ht).
  (* the title the turn found *)
  assert (Hentry : Chat.title_on_entry cid w = title (Chat.conversation_of x)).
  { apply resolve_conversation_inv in R.
    destruct R as (_ & _ & _ & Hcid & G1 & R).
    rewrite Vc in R. unfold Chat.title_on_entry.
    destruct cid as [c|].
    - subst w1. rewrite Hid in G1. unfold Chat.conversation_id_for in G1.
      rewrite Vc in G1. rewrite G1. reflexivity.
    - destruct R as [-> _]. reflexivity. }
  exists conv'. simpl. split; [exact G'|]. rewrite Hentry. split.
  - intros t Ht1 Ht2. rewrite Ht, Ht1. simpl. rewrite Ht2. reflexivity.
  - intros Hfalse Htrim. rewrite Hfalse in Ht.
    assert (Hux : In (Chat.user_message_of x) (messages (db w5))).
    { rewrite Hm5. apply in_or_app. right. left. reflexivity. }
    destruct (first_user_message_exists (db w5) (Chat.conversation_id_of x)
                (Chat.user_message_of x) Hux)
      as [m Hfirst]; [rewrite Hu; reflexivity | rewrite Hu, Hid; reflexivity |].
    pose proof (first_user_message_spec _ _ _ Hfirst)
      as (Hin & Hs & Hcm & Hmin).
    unfold Crud.generate_conversation_title in Ht. rewrite Hfirst in Ht.
    assert (Htruthy : Py.truthy (Crud.title_of_content (content m)) = true).
    { rewrite Hm5 in Hin. apply in_app_or in Hin.
      destruct Hin as [Hin | [<- | [<- | []]]].
      - destruct (Htrim m Hin Hs Hcm) as [H1 H2].
        apply trimmed_title_truthy; assumption.
      - rewrite Hu. simpl. rewrite Vm.
        destruct (Py.strip raw) as [|c0 s0] eqn:Es; [congruence|].
        apply title_of_content_truthy. apply (strip_head _ _ _ Es).
      - rewrite Ha in Hs. discriminate. }
    rewrite Htruthy in Ht.
    exists m. rewrite Hm. repeat split; try assumption.
Qed.

Lemma chat_auto_title_witness :
  exists conv',
    Crud.get_conversation
      (db (fst (Chat.post_chat Scenario.env_ok None "Hello"%string
                  Scenario.w_empty))) 100%N
    = Ok (Some conv').
Proof.
  destruct (chat_auto_title Scenario.env_ok None "Hello"%string
              Scenario.w_empty
              (fst (Chat.post_chat Scenario.env_ok None "Hello"%string
                      Scenario.w_empty))
              (Chat.chat_response Scenario.hello_exchange)
              eq_refl)
    as (conv' & G & _).
  exists conv'. exact G.
Defined.

(** ** The timeouts of the RAG client *)

Ltac run_client :=
  unfold LightRAG.query, LightRAG.upload_document, LightRAG.insert_text,
    LightRAG.scan_documents, LightRAG.get_pipeline_status,
    LightRAG.health_check, LightRAG.log_and_reraise, try_except, bind,
    LightRAG.send, LightRAG.str_field, lift, ret, raise;
  repeat match goal with
         | |- context [rag_server ?env ?c] =>
             destruct (rag_server env c); cbn [fst snd]
         | |- context [LightRAG.dict_get ?k ?v ?o] =>
             destruct (LightRAG.dict_get k v o); cbn [fst snd]
         end;
  unfold sent; cbn [fst outbox];
  rewrite skipn_length_app; reflexivity.

(** C9 does not hold as stated: the document scan, one of the two
    status operations, goes out with the client's 300 seconds and not
    with 30. *)
Lemma scan_documents_waits_300_seconds :
  exists c,
    outbox (fst (LightRAG.scan_documents Scenario.env_ok
                   (LightRAG.lightrag_service Scenario.env_ok)
                   Scenario.w_empty)) = [c] /\
    call_timeout c = 300%Z /\ call_timeout c <> 30%Z.
Proof.
  eexists. split; [reflexivity|]. split; [reflexivity | discriminate].
Qed.

(** C9, amended. Every operation of the RAG client makes exactly one
    call, with a fixed timeout: 300 seconds (the client's [timeout]) for
    query, document upload, text insertion and document scan, 30
    seconds for the pipeline status and 10 seconds for the health
    check. *)
Theorem client_timeouts (env : Env) (w : World) (q mode text : string)
    (history : option (list Crud.HistoryEntry))
    (kwargs : list (string * option JValue))
    (data : list Byte.byte) (name : string) (source : option string) :
  let self := LightRAG.lightrag_service env in
  let calls (w' : World) :=
    map call_timeout (skipn (List.length (outbox w)) (outbox w')) in
  LightRAG.timeout self = 300%Z /\
  calls (fst (LightRAG.query env self q mode history kwargs w)) = [300%Z] /\
  calls (fst (LightRAG.upload_document env self data name w)) = [300%Z] /\
  calls (fst (LightRAG.insert_text env self text source w)) = [300%Z] /\
  calls (fst (LightRAG.scan_documents env self w)) = [300%Z] /\
  calls (fst (LightRAG.get_pipeline_status env self w)) = [30%Z] /\
  calls (fst (LightRAG.health_check env self w)) = [10%Z].
Proof.
  intros self calls. unfold calls.
  split; [reflexivity|].
  split; [run_client|].
  split; [run_client|].
  split; [run_client|].
  split; [run_client|].
  split; run_client.
Qed.

(** ** Document upload *)

Lemma fs_exists_unlink (p : string) (files : FileSystem) :
  fs_exists p (fs_unlink p files) = false.
Proof.
  unfold fs_exists, fs_lookup, fs_unlink.
  induction files as [|[q data] files IH]; simpl; [reflexivity|].
  destruct (String.eqb q p) eqn:E; simpl; [exact IH|].
  rewrite E. exact IH.
Qed.

Lemma fs_lookup_write (p : string) (data : list Byte.byte)
    (files : FileSystem) :
  fs_lookup p (fs_write p data files) = Some data.
Proof.
  unfold fs_lookup, fs_write. simpl. rewrite String.eqb_refl. reflexivity.
Qed.

Lemma fs_unlink_write (p : string) (data : list Byte.byte)
    (files : FileSystem) :
  fs_unlink p (fs_write p data files) = fs_unlink p files.
Proof.
  unfold fs_write, fs_unlink. simpl. rewrite String.eqb_refl. simpl.
  induction files as [|[q d] files IH]; simpl; [reflexivity|].
  destruct (String.eqb q p) eqn:E; simpl; [exact IH|].
  rewrite E. simpl. rewrite IH. reflexivity.
Qed.

Lemma append_empty_r (s : string) : (s ++ "")%string = s.
Proof. induction s as [|c s IH]; simpl; [|rewrite IH]; reflexivity. Qed.

(** The handler once the file has passed validation and has been read
    and saved: the forward decides. *)
Lemma upload_after_save (env : Env) (f : Documents.UploadFile) (w : World) :
  Documents.validate_file (settings env) f = Ok tt ->
  read_fault env = false ->
  save_fault env = false ->
  let p := Documents.local_save_path env f in
  let c := LightRAG.upload_call (LightRAG.lightrag_service env)
             (Documents.file f) (Documents.unique_filename env f) in
  Documents.upload_document env f w =
    if LightRAG.upload_rejects (rag_server env c)
    then ({| db := db w; fs := fs_unlink p (fs w);
             outbox := outbox w ++ [c] |},
          Raise (HTTPException HTTP_503_SERVICE_UNAVAILABLE))
    else ({| db := db w; fs := fs_write p (Documents.file f) (fs w);
             outbox := outbox w ++ [c] |},
          Ok {| upload_status := "success";
                upload_message :=
                  ("File '" ++ Documents.unique_filename env f
                   ++ "' uploaded successfully and sent to RAG system")%string;
                upload_filename := Some (Documents.unique_filename env f);
                file_size := Some (List.length (Documents.file f)) |}).
Proof.
  intros Hv Hr Hs p c.
  unfold Documents.upload_document, try_except, bind, lift,
    Documents.read, Documents.save_uploaded_file, ret.
  rewrite Hv, Hr, Hs. fold p.
  set (w1 := {| db := db w; fs := fs_write p (Documents.file f) (fs w);
                outbox := outbox w |}).
  destruct (upload_run env (LightRAG.lightrag_service env)
              (Documents.file f) (Documents.unique_filename env f) w1)
    as (r & -> & Hrun).
  fold c in Hrun |- *.
  destruct (LightRAG.upload_rejects (rag_server env c)).
  - destruct Hrun as [e ->].
    unfold Documents.unlink_if_exists, raise, sent, w1, fs_exists.
    cbn [fs db outbox]. rewrite fs_lookup_write, fs_unlink_write.
    reflexivity.
  - destruct Hrun as [u ->]. reflexivity.
Qed.

(** C7. When an upload passes validation, is read and saved locally,
    and the forward to the RAG server fails, the handler raises 503
    Service Unavailable and the saved file is gone: nothing exists at
    the path it was saved to. The one call made is the forward. *)
Theorem upload_forward_failure (env : Env) (f : Documents.UploadFile)
    (w : World) :
  Documents.validate_file (settings env) f = Ok tt ->
  read_fault env = false ->
  save_fault env = false ->
  LightRAG.upload_rejects
    (rag_server env
       (LightRAG.upload_call (LightRAG.lightrag_service env)
          (Documents.file f) (Documents.unique_filename env f))) = true ->
  snd (Documents.upload_document env f w)
  = Raise (HTTPException HTTP_503_SERVICE_UNAVAILABLE) /\
  fs_exists (Documents.local_save_path env f)
            (fs (fst (Documents.upload_document env f w))) = false /\
  fs (fst (Documents.upload_document env f w))
  = fs_unlink (Documents.local_save_path env f) (fs w) /\
  outbox (fst (Documents.upload_document env f w))
  = outbox w ++ [LightRAG.upload_call (LightRAG.lightrag_service env)
                   (Documents.file f) (Documents.unique_filename env f)].
Proof.
  intros Hv Hr Hs Hrej.
  rewrite (upload_after_save env f w Hv Hr Hs). cbv zeta.
  rewrite Hrej. cbn [fst snd fs outbox].
  repeat split. apply fs_exists_unlink.
Qed.

Lemma upload_forward_failure_witness :
  snd (Documents.upload_document Scenario.env_rag_down Scenario.report_pdf
         Scenario.w_empty)
  = Raise (HTTPException HTTP_503_SERVICE_UNAVAILABLE) /\
  fs_exists "./static/documents/Rapor (1)_3816aba6.pdf"
    (fs (fst (Documents.upload_document Scenario.env_rag_down
                Scenario.report_pdf Scenario.w_empty))) = false.
Proof.
  refine ((fun H => conj (proj1 H) (proj1 (proj2 H)))
    (upload_forward_failure Scenario.env_rag_down Scenario.report_pdf
       Scenario.w_empty _ _ _ _)); reflexivity.
Defined.



(** C10. For an upload without a filename and without a declared
    content type, [validate_file] looks at the size only; when the size
    passes, the handler stores the file and forwards it under
    "unknown_file_" followed by the random suffix, without looking at the
    extension allow-list. *)
Theorem nameless_upload_accepted (env : Env) (f : Documents.UploadFile)
    (w : World) :
  Py.truthy_opt (Documents.filename f) = false ->
  Py.truthy_opt (Documents.content_type f) = false ->
  Documents.validate_file (settings env) f
  = (if Documents.size_too_large (settings env) f
     then Raise bad_request_exception else Ok tt) /\
  Documents.unique_filename env f
  = ("unknown_file_" ++ upload_uuid8 env)%string /\
  (Documents.size_too_large (settings env) f = false ->
   read_fault env = false ->
   save_fault env = false ->
   LightRAG.upload_rejects
     (rag_server env
        (LightRAG.upload_call (LightRAG.lightrag_service env)
           (Documents.file f)
           ("unknown_file_" ++ upload_uuid8 env)%string)) = false ->
   exists w' r,
     Documents.upload_document env f w = (w', Ok r) /\
     upload_filename r = Some ("unknown_file_" ++ upload_uuid8 env)%string /\
     fs_lookup
       (Py.path_join (documents_dir (settings env))
          ("unknown_file_" ++ upload_uuid8 env)%string) (fs w')
     = Some (Documents.file f) /\
     outbox w'
     = outbox w
       ++ [LightRAG.upload_call (LightRAG.lightrag_service env)
             (Documents.file f)
             ("unknown_file_" ++ upload_uuid8 env)%string]).
Proof.
  intros Hname Htype.
  assert (Hv : Documents.validate_file (settings env) f
               = if Documents.size_too_large (settings env) f
                 then Raise bad_request_exception else Ok tt).
  { unfold Documents.validate_file, Documents.extension_rejected,
      Documents.mime_rejected.
    destruct (Documents.size_too_large (settings env) f); [reflexivity|].
    destruct (Documents.filename f) as [n|]; simpl in Hname;
      [rewrite Hname|]; simpl;
      (destruct (Documents.content_type f) as [t|]; simpl in Htype;
       [rewrite Htype|]; reflexivity). }
  assert (Hn : Documents.unique_filename env f
               = ("unknown_file_" ++ upload_uuid8 env)%string).
  { unfold Documents.unique_filename, Documents.original_filename.
    destruct (Documents.filename f) as [n|]; simpl in Hname;
      [rewrite Hname|];
      change (Py.path_stem "unknown_file") with "unknown_file"%string;
      change (Py.path_suffix "unknown_file") with ""%string;
      simpl; rewrite append_empty_r; reflexivity. }
  split; [exact Hv|]. split; [exact Hn|].
  intros Hsize Hr Hs Hrej. rewrite Hsize in Hv.
  pose proof (upload_after_save env f w Hv Hr Hs) as Hrun. cbv zeta in Hrun.
  unfold Documents.local_save_path in Hrun. rewrite Hn in Hrun.
  rewrite Hrej in Hrun.
  eexists _, _. split; [exact Hrun|]. cbn [upload_filename fs outbox].
  repeat split. apply fs_lookup_write.
Qed.

Lemma nameless_upload_accepted_witness :
  Documents.unique_filename Scenario.env_ok Scenario.nameless
  = "unknown_file_3816aba6"%string.
Proof.
  refine (proj1 (proj2
    (nameless_upload_accepted Scenario.env_ok Scenario.nameless
       Scenario.w_empty _ _))); reflexivity.
Defined.

(* ================================================================== *)
(** * Further properties *)

(** ** Listings and pages *)

Lemma firstn_add {A : Type} (a b : nat) (l : list A) :
  firstn (a + b) l = firstn a l ++ firstn b (skipn a l).
Proof.
  revert l. induction a as [|a IH]; intros l; simpl; [reflexivity|].
  destruct l as [|x l]; simpl.
  - rewrite firstn_nil. reflexivity.
  - rewrite IH. reflexivity.
Qed.

Lemma StronglySorted_page {A : Type} (R : A -> A -> Prop)
    (skip limit : nat) (l : list A) :
  StronglySorted R l -> StronglySorted R (Rows.page skip limit l).
Proof.
  intros S. unfold Rows.page.
  rewrite <- (firstn_skipn skip l) in S.
  apply StronglySorted_app_inv in S. destruct S as (_ & S & _).
  rewrite <- (firstn_skipn limit (skipn skip l)) in S.
  apply StronglySorted_app_inv in S. apply S.
Qed.

Lemma in_page {A : Type} (skip limit : nat) (l : list A) (x : A) :
  In x (Rows.page skip limit l) -> In x l.
Proof.
  unfold Rows.page. intros H.
  rewrite <- (firstn_skipn skip l). apply in_or_app. right.
  rewrite <- (firstn_skipn limit (skipn skip l)). apply in_or_app.
  left. exact H.
Qed.

Lemma page_pages {A : Type} (skip a b : nat) (l : list A) :
  Rows.page skip a l ++ Rows.page (skip + a) b l = Rows.page skip (a + b) l.
Proof.
  unfold Rows.page. rewrite firstn_add, skipn_skipn.
  rewrite (Nat.add_comm a skip). reflexivity.
Qed.

(** X1. A page of a conversation's messages holds
    min(limit, k - skip) rows, k being the number of its messages; they
    are messages of that conversation only, oldest first. *)
Theorem messages_page (d : Database) (cid : UUID) (skip limit : nat) :
  List.length (Rows.get_messages_by_conversation d cid skip limit)
  = Nat.min limit (Crud.get_conversation_message_count d cid - skip) /\
  (forall m, In m (Rows.get_messages_by_conversation d cid skip limit) ->
             In m (messages d) /\ conversation_id m = cid) /\
  StronglySorted (fun a b => (timestamp a <= timestamp b)%Z)
    (Rows.get_messages_by_conversation d cid skip limit).
Proof.
  unfold Rows.get_messages_by_conversation. repeat split.
  - unfold Rows.page. rewrite length_firstn, length_skipn.
    unfold order_by_timestamp, Crud.get_conversation_message_count.
    rewrite (Permutation_length (order_rows_perm timestamp_asc _)).
    reflexivity.
  - apply in_page in H.
    apply (Permutation_in _ (order_rows_perm timestamp_asc _)) in H.
    apply filter_In in H. apply H.
  - apply in_page in H.
    apply (Permutation_in _ (order_rows_perm timestamp_asc _)) in H.
    apply filter_In in H. apply N.eqb_eq. apply H.
  - apply StronglySorted_page. apply order_by_timestamp_sorted.
Qed.

Lemma NoDup_map_eq {A B : Type} (f : A -> B) (l : list A) (a b : A) :
  NoDup (map f l) -> In a l -> In b l -> f a = f b -> a = b.
Proof.
  induction l as [|x l IH]; simpl; intros N Ha Hb E; [destruct Ha|].
  inversion N as [|? ? Hx N']; subst.
  destruct Ha as [<-|Ha], Hb as [<-|Hb]; auto.
  - destruct Hx. rewrite E. apply in_map. exact Hb.
  - destruct Hx. rewrite <- E. apply in_map. exact Ha.
Qed.

(** Two orderings of the same rows agree once no two rows tie. *)
Lemma sorted_perm_unique {A : Type} (R : A -> A -> Prop) (l1 l2 : list A) :
  (forall a b, In a l1 -> In b l1 -> R a b -> R b a -> a = b) ->
  StronglySorted R l1 -> StronglySorted R l2 -> Permutation l1 l2 ->
  l1 = l2.
Proof.
  revert l2. induction l1 as [|a l1 IH]; intros l2 Hanti S1 S2 P.
  - apply Permutation_nil in P. congruence.
  - destruct l2 as [|b l2].
    { apply Permutation_sym, Permutation_nil in P. discriminate. }
    inversion S1 as [|? ? S1' F1]; subst.
    inversion S2 as [|? ? S2' F2]; subst.
    rewrite Forall_forall in F1, F2.
    assert (Hab : a = b).
    { assert (Ha : In a (b :: l2))
        by (apply (Permutation_in _ P); left; reflexivity).
      assert (Hb : In b (a :: l1))
        by (apply (Permutation_in _ (Permutation_sym P)); left; reflexivity).
      destruct Ha as [->|Ha]; [reflexivity|].
      destruct Hb as [->|Hb]; [reflexivity|].
      apply Hanti; [left; reflexivity | right; exact Hb | auto | auto]. }
    subst b. f_equal. apply IH; auto.
    + intros x y Hx Hy. apply Hanti; right; assumption.
    + apply (Permutation_cons_inv P).
Qed.

(** X2. When no two messages of a conversation share a timestamp, the
    pages of its listing join without gap or overlap, whichever
    arrangement by ascending timestamp each query follows: the page of
    [a] rows at [skip] of one such arrangement followed by the page of
    [b] rows at [skip + a] of another is the page of [a + b] rows at
    [skip] that the listing returns. *)
Theorem pages_concatenate (d : Database) (cid : UUID) (skip a b : nat)
    (first second : list Message) :
  NoDup (map timestamp (filter (in_conversation cid) (messages d))) ->
  Permutation first (filter (in_conversation cid) (messages d)) ->
  StronglySorted (fun x y => (timestamp x <= timestamp y)%Z) first ->
  Permutation second (filter (in_conversation cid) (messages d)) ->
  StronglySorted (fun x y => (timestamp x <= timestamp y)%Z) second ->
  Rows.page skip a first ++ Rows.page (skip + a) b second
  = Rows.get_messages_by_conversation d cid skip (a + b).
Proof.
  intros Hdistinct P1 S1 P2 S2.
  set (rows := filter (in_conversation cid) (messages d)) in *.
  assert (Hone : forall o,
            Permutation o rows ->
            StronglySorted (fun x y => (timestamp x <= timestamp y)%Z) o ->
            o = order_by_timestamp rows).
  { intros o P S.
    apply (sorted_perm_unique
             (fun x y => (timestamp x <= timestamp y)%Z)).
    - intros x y Hx Hy H1 H2.
      apply (NoDup_map_eq timestamp rows); trivial.
      + apply (Permutation_in _ P). exact Hx.
      + apply (Permutation_in _ P). exact Hy.
      + lia.
    - exact S.
    - apply order_by_timestamp_sorted.
    - rewrite P. symmetry. apply order_rows_perm. }
  rewrite (Hone first P1 S1), (Hone second P2 S2).
  unfold Rows.get_messages_by_conversation. fold rows. apply page_pages.
Qed.

Lemma pages_concatenate_witness :
  Rows.page 0 1 [Scenario.first_question; Scenario.first_answer]
    ++ Rows.page 1 1 [Scenario.first_question; Scenario.first_answer]
  = Rows.get_messages_by_conversation (db Scenario.w_one_turn) 1%N 0 2.
Proof.
  apply (pages_concatenate (db Scenario.w_one_turn) 1%N 0 1 1
           [Scenario.first_question; Scenario.first_answer]
           [Scenario.first_question; Scenario.first_answer]).
  - simpl. constructor; [intros [H|[]]; discriminate|].
    constructor; [intros []|constructor].
  - apply Permutation_refl.
  - repeat constructor. simpl. lia.
  - apply Permutation_refl.
  - repeat constructor. simpl. lia.
Defined.

(** ** The history window and the listing *)

Lemma order_desc_is_reversed_asc (l : list Message) :
  NoDup (map timestamp l) ->
  order_by_desc_timestamp l = rev (order_by_timestamp l).
Proof.
  intros N.
  apply (sorted_perm_unique
           (fun a b => (timestamp b <= timestamp a)%Z)).
  - intros a b Ha Hb H1 H2.
    apply (NoDup_map_eq timestamp l); trivial.
    + apply (Permutation_in _ (order_rows_perm timestamp_desc l)). exact Ha.
    + apply (Permutation_in _ (order_rows_perm timestamp_desc l)). exact Hb.
    + lia.
  - apply order_by_desc_timestamp_sorted.
  - apply (StronglySorted_rev _ _ (order_by_timestamp_sorted l)).
  - unfold order_by_desc_timestamp, order_by_timestamp.
    rewrite <- Permutation_rev.
    rewrite (order_rows_perm timestamp_desc l).
    symmetry. apply order_rows_perm.
Qed.

(** X3. When no two messages of a conversation share a timestamp, the
    window handed to the RAG server is the last page of the listing:
    the N most recent messages are the page of N rows that starts
    k - N rows into the conversation's k messages. *)
Theorem history_is_last_page (d : Database) (cid : UUID) (N : nat) :
  NoDup (map timestamp (filter (in_conversation cid) (messages d))) ->
  Crud.recent_messages d cid N
  = Rows.get_messages_by_conversation d cid
      (Crud.get_conversation_message_count d cid - N) N.
Proof.
  intros Hdistinct.
  unfold Crud.recent_messages, Rows.get_messages_by_conversation,
    Rows.page, Crud.get_conversation_message_count.
  set (rows := filter (in_conversation cid) (messages d)) in *.
  rewrite (order_desc_is_reversed_asc rows Hdistinct).
  rewrite firstn_rev, rev_involutive.
  assert (Hlen : List.length (order_by_timestamp rows) = List.length rows).
  { apply Permutation_length. apply order_rows_perm. }
  rewrite Hlen. symmetry. apply firstn_all2.
  rewrite length_skipn, Hlen. lia.
Qed.

Lemma history_is_last_page_witness :
  Crud.recent_messages (db Scenario.w_one_turn) 1%N 1
  = [Scenario.first_answer].
Proof.
  refine (eq_trans
    (history_is_last_page (db Scenario.w_one_turn) 1%N 1 _) _).
  - simpl. constructor; [intros [H|[]]; discriminate|].
    constructor; [intros []|constructor].
  - reflexivity.
Defined.

(** ** Deleting and renaming *)

Lemma scalar_one_or_none_none {A : Type} (rows : list A) :
  Crud.scalar_one_or_none rows = Ok None -> rows = [].
Proof. destruct rows as [|a [|b rows]]; simpl; intros [=]; reflexivity. Qed.

Lemma filter_filter_neg {A : Type} (p : A -> bool) (l : list A) :
  filter p (filter (fun x => negb (p x)) l) = [].
Proof.
  induction l as [|x l IH]; simpl; [reflexivity|].
  destruct (p x) eqn:E; simpl; [exact IH|]. rewrite E. exact IH.
Qed.

Lemma filter_filter_other {A : Type} (p q : A -> bool) (l : list A) :
  (forall x, p x = true -> q x = true) ->
  filter p (filter q l) = filter p l.
Proof.
  intros H. induction l as [|x l IH]; simpl; [reflexivity|].
  destruct (q x) eqn:Q; simpl.
  - destruct (p x); rewrite IH; reflexivity.
  - destruct (p x) eqn:P; [rewrite (H x P) in Q; discriminate | exact IH].
Qed.

Lemma filter_split_length {A : Type} (p q : A -> bool) (l : list A) :
  List.length (filter p l)
  = List.length (filter p (filter q l))
    + List.length (filter p (filter (fun x => negb (q x)) l)).
Proof.
  induction l as [|x l IH]; simpl; [reflexivity|].
  destruct (q x); simpl; destruct (p x); simpl; lia.
Qed.

(** X4. Deleting a conversation that exists removes its row and every
    message that refers to it: afterwards the lookup finds nothing, its
    message count is 0, and the rows and message counts of every other
    conversation are as before. Deleting one that does not exist
    answers [False] and changes nothing. *)
Theorem delete_conversation_cascades (d d' : Database) (cid : UUID)
    (deleted : bool) :
  Rows.delete_conversation cid d = Ok (d', deleted) ->
  if deleted then
    Crud.get_conversation d' cid = Ok None /\
    Crud.conversation_exists d' cid = false /\
    Crud.get_conversation_message_count d' cid = 0 /\
    (forall m, In m (messages d') <->
               In m (messages d) /\ conversation_id m <> cid) /\
    (forall other, other <> cid ->
       Crud.get_conversation d' other = Crud.get_conversation d other /\
       Crud.get_conversation_message_count d' other
       = Crud.get_conversation_message_count d other)
  else d' = d /\ Crud.get_conversation d cid = Ok None.
Proof.
  unfold Rows.delete_conversation.
  destruct (Crud.get_conversation d cid) as [[c|]|e] eqn:G;
    intros [= <- <-]; [|auto].
  unfold Crud.get_conversation, Crud.select_conversation,
    Crud.conversation_exists, Crud.get_conversation_message_count. simpl.
  repeat split.
  - rewrite (filter_filter_neg (fun c0 => (conv_id c0 =? cid)%N)).
    reflexivity.
  - apply not_true_is_false. intros H. apply existsb_exists in H.
    destruct H as (x & Hx & Hid). apply filter_In in Hx.
    destruct Hx as [_ Hx]. rewrite Hid in Hx. discriminate.
  - rewrite (filter_filter_neg (in_conversation cid)). reflexivity.
  - apply filter_In in H. apply H.
  - apply filter_In in H. destruct H as [_ H].
    unfold in_conversation in H. intros E. rewrite E, N.eqb_refl in H.
    discriminate.
  - intros [Hin Hne]. apply filter_In. split; [exact Hin|].
    unfold in_conversation.
    destruct (N.eqb_spec (conversation_id m) cid); [contradiction|].
    reflexivity.
  - f_equal. apply filter_filter_other. intros x Hx.
    apply N.eqb_eq in Hx.
    destruct (N.eqb_spec (conv_id x) cid); [congruence | reflexivity].
  - f_equal. apply filter_filter_other. intros x Hx.
    unfold in_conversation in *. apply N.eqb_eq in Hx.
    destruct (N.eqb_spec (conversation_id x) cid);
      [congruence | reflexivity].
Qed.

Lemma delete_conversation_cascades_witness :
  Crud.get_conversation_message_count
    {| conversations := []; messages := [] |} 1%N = 0.
Proof.
  exact (proj1 (proj2 (proj2
    (delete_conversation_cascades (db Scenario.w_one_turn)
       {| conversations := []; messages := [] |} 1%N true eq_refl)))).
Defined.

(** X5. Deleting a message that exists removes exactly that row: the
    lookup finds nothing afterwards, its conversation has one message
    fewer, every other conversation has as many as before, and no
    conversation row changes. Deleting an unknown message answers
    [False] and changes nothing. *)
Theorem delete_message_removes_one (d d' : Database) (mid : UUID)
    (deleted : bool) :
  Rows.delete_message mid d = Ok (d', deleted) ->
  if deleted then
    exists m,
      Rows.get_message d mid = Ok (Some m) /\
      Rows.get_message d' mid = Ok None /\
      conversations d' = conversations d /\
      S (Crud.get_conversation_message_count d' (conversation_id m))
      = Crud.get_conversation_message_count d (conversation_id m) /\
      forall other, other <> conversation_id m ->
        Crud.get_conversation_message_count d' other
        = Crud.get_conversation_message_count d other
  else d' = d /\ Rows.get_message d mid = Ok None.
Proof.
  unfold Rows.delete_message.
  destruct (Rows.get_message d mid) as [[m|]|e] eqn:G;
    intros [= <- <-]; [|auto].
  exists m. split; [reflexivity|].
  unfold Rows.get_message in *. apply scalar_one_or_none_some in G.
  unfold Crud.get_conversation_message_count. simpl.
  split; [|split; [reflexivity|split]].
  - rewrite (filter_filter_neg (fun m0 => (msg_id m0 =? mid)%N)).
    reflexivity.
  - rewrite (filter_split_length (in_conversation (conversation_id m))
               (fun m0 => (msg_id m0 =? mid)%N) (messages d)).
    rewrite G. simpl.
    assert (E : in_conversation (conversation_id m) m = true)
      by apply N.eqb_refl.
    rewrite E. simpl. reflexivity.
  - intros other Hother.
    rewrite (filter_split_length (in_conversation other)
               (fun m0 => (msg_id m0 =? mid)%N) (messages d)).
    rewrite G. simpl.
    destruct (in_conversation other m) eqn:E; [|reflexivity].
    unfold in_conversation in E. apply N.eqb_eq in E. congruence.
Qed.

Lemma delete_message_removes_one_witness :
  S (Crud.get_conversation_message_count
       {| conversations := conversations (db Scenario.w_one_turn);
          messages := [Scenario.first_question] |} 1%N)
  = Crud.get_conversation_message_count (db Scenario.w_one_turn) 1%N.
Proof.
  destruct (delete_message_removes_one (db Scenario.w_one_turn)
              {| conversations := conversations (db Scenario.w_one_turn);
                 messages := [Scenario.first_question] |} 12%N true eq_refl)
    as (m & G & _ & _ & H & _).
  injection G as <-. exact H.
Defined.

(** The session call of the chat turn is the renaming statement run
    under the oracle's fault. *)
Lemma store_update_is_rows_update (env : Env) (cid : UUID) (t : string) :
  Store.update_conversation_title env cid t
  = Rows.execute (db_fault env UpdateTitle)
      (Rows.update_conversation_title cid t).
Proof. reflexivity. Qed.

Lemma rename_leaves_others (l : list Conversation) (cid other : UUID)
    (t : string) :
  other <> cid ->
  filter (fun c => (conv_id c =? other)%N)
    (map (fun c => if (conv_id c =? cid)%N then Store.set_title t c else c) l)
  = filter (fun c => (conv_id c =? other)%N) l.
Proof.
  intros Hne. induction l as [|x l IH]; simpl; [reflexivity|].
  rewrite IH.
  destruct (N.eqb_spec (conv_id x) cid) as [E|E]; [|reflexivity].
  simpl. rewrite E.
  destruct (N.eqb_spec cid other); [congruence | reflexivity].
Qed.

(** X6. Renaming a conversation that exists changes its title and
    nothing else: the lookup then yields the same row with the new
    title, the messages are untouched and every other conversation is
    found as before. Renaming one that does not exist yields [None] and
    changes nothing. *)
Theorem update_conversation_title_sets_title (d d' : Database)
    (cid : UUID) (t : string) (updated : option Conversation) :
  Rows.update_conversation_title cid t d = Ok (d', updated) ->
  match updated with
  | Some c' =>
      exists c,
        Crud.get_conversation d cid = Ok (Some c) /\
        Crud.get_conversation d' cid = Ok (Some c') /\
        title c' = Some t /\ conv_id c' = cid /\
        created_at c' = created_at c /\ user_id c' = user_id c /\
        messages d' = messages d /\
        forall other, other <> cid ->
          Crud.get_conversation d' other = Crud.get_conversation d other
  | None => d' = d /\ Crud.get_conversation d cid = Ok None
  end.
Proof.
  unfold Rows.update_conversation_title.
  destruct (Crud.get_conversation d cid) as [[c|]|e] eqn:G;
    intros [= <- <-]; [|auto].
  exists c. split; [reflexivity|].
  pose proof (get_conversation_some_id _ _ _ G) as Hid.
  unfold Crud.get_conversation, Crud.select_conversation in *. simpl.
  apply scalar_one_or_none_some in G.
  repeat split; try assumption.
  - rewrite filter_map_same.
    + rewrite G. simpl. rewrite Hid, N.eqb_refl. reflexivity.
    + intros a. destruct (conv_id a =? cid)%N eqn:X; simpl; rewrite X;
        reflexivity.
  - intros other Hother. f_equal. apply rename_leaves_others. exact Hother.
Qed.

Lemma update_conversation_title_sets_title_witness :
  Crud.get_conversation
    (db (Scenario.world_of (Some "Report"%string) [])) 1%N
  = Ok (Some (Scenario.conversation_titled (Some "Report"%string))).
Proof.
  destruct (update_conversation_title_sets_title
              (db Scenario.w_blank_title)
              (db (Scenario.world_of (Some "Report"%string) []))
              1%N "Report"%string
              (Some (Scenario.conversation_titled (Some "Report"%string)))
              eq_refl)
    as (c & _ & G & _).
  exact G.
Defined.

(** ** The keys of the tables *)

Lemma conversation_exists_in (d : Database) (cid : UUID) :
  Crud.conversation_exists d cid = true <-> In cid (map conv_id (conversations d)).
Proof.
  unfold Crud.conversation_exists. rewrite existsb_exists, in_map_iff.
  split; intros (c & H1 & H2).
  - apply N.eqb_eq in H2. eauto.
  - exists c. split; [exact H2 | apply N.eqb_eq; exact H1].
Qed.

Lemma unique_keys_of_kept_rows {Row : Type} (key : Row -> UUID)
    (kept : Row -> bool) (rows : list Row)
    (U : NoDup (map key rows)) :
  NoDup (map key (filter kept rows)).
Proof.
  induction rows as [|x rows IH]; simpl in *; [constructor|].
  inversion U as [|? ? Hx U']; subst.
  destruct (kept x); simpl; [|auto].
  constructor; [|auto]. intros Hin. apply Hx.
  apply in_map_iff in Hin. destruct Hin as (y & E & Hy).
  apply filter_In in Hy. rewrite <- E. apply in_map. apply Hy.
Qed.

Lemma keys_ok_rename (d : Database) (cid : UUID) (t : string) :
  Rows.keys_ok d ->
  Rows.keys_ok
    {| conversations :=
         map (fun c => if (conv_id c =? cid)%N
                       then Store.set_title t c else c) (conversations d);
       messages := messages d |}.
Proof.
  intros (K1 & K2 & K3).
  assert (Hids : map conv_id
                   (map (fun c => if (conv_id c =? cid)%N
                                  then Store.set_title t c else c)
                        (conversations d))
                 = map conv_id (conversations d)).
  { rewrite map_map. apply map_ext. intros c.
    destruct (conv_id c =? cid)%N; reflexivity. }
  repeat split; simpl.
  - rewrite Hids. exact K1.
  - exact K2.
  - intros m Hm. apply conversation_exists_in. simpl. rewrite Hids.
    apply conversation_exists_in. auto.
Qed.

Lemma delete_conversation_keeps_keys (d d' : Database) (k : UUID)
    (deleted : bool) :
  Rows.keys_ok d ->
  Rows.delete_conversation k d = Ok (d', deleted) -> Rows.keys_ok d'.
Proof.
  intros K H. unfold Rows.delete_conversation in H.
  destruct (Crud.get_conversation d k) as [[c|]|e]; try discriminate;
    injection H as <- _; [|exact K].
  destruct K as (K1 & K2 & K3). split; [|split]; simpl.
  - apply unique_keys_of_kept_rows. exact K1.
  - apply unique_keys_of_kept_rows. exact K2.
  - intros m Hm. apply filter_In in Hm. destruct Hm as [Hm Hk].
    specialize (K3 m Hm). unfold Crud.conversation_exists in *. simpl.
    apply existsb_exists in K3. destruct K3 as (c0 & Hc0 & E).
    apply existsb_exists. exists c0. split; [|exact E].
    apply filter_In. split; [exact Hc0|].
    apply N.eqb_eq in E. rewrite E. exact Hk.
Qed.

Lemma delete_message_keeps_keys (d d' : Database) (k : UUID)
    (deleted : bool) :
  Rows.keys_ok d ->
  Rows.delete_message k d = Ok (d', deleted) -> Rows.keys_ok d'.
Proof.
  intros K H. unfold Rows.delete_message in H.
  destruct (Rows.get_message d k) as [[c|]|e]; try discriminate;
    injection H as <- _; [|exact K].
  destruct K as (K1 & K2 & K3). split; [|split]; simpl.
  - exact K1.
  - apply unique_keys_of_kept_rows. exact K2.
  - intros m Hm. apply filter_In in Hm. apply (K3 m). apply Hm.
Qed.

Lemma update_title_keeps_keys (d d' : Database) (k : UUID) (t : string)
    (updated : option Conversation) :
  Rows.keys_ok d ->
  Rows.update_conversation_title k t d = Ok (d', updated) ->
  Rows.keys_ok d'.
Proof.
  intros K H. unfold Rows.update_conversation_title in H.
  destruct (Crud.get_conversation d k) as [[c|]|e]; try discriminate;
    injection H as <- _; [apply keys_ok_rename|]; exact K.
Qed.

(** X7. The statements that change rows outside a chat turn keep the
    keys of the tables: after deleting a conversation with its
    messages, deleting a message or renaming a conversation, the
    identifiers are still unique and every message still refers to an
    existing conversation. *)
Theorem mutators_keep_keys (d d' : Database) (k : UUID) (t : string)
    (deleted : bool) (updated : option Conversation) :
  Rows.keys_ok d ->
  (Rows.delete_conversation k d = Ok (d', deleted) -> Rows.keys_ok d') /\
  (Rows.delete_message k d = Ok (d', deleted) -> Rows.keys_ok d') /\
  (Rows.update_conversation_title k t d = Ok (d', updated) ->
   Rows.keys_ok d').
Proof.
  intros K. split; [|split].
  - apply delete_conversation_keeps_keys. exact K.
  - apply delete_message_keeps_keys. exact K.
  - apply update_title_keeps_keys. exact K.
Qed.

Lemma mutators_keep_keys_witness :
  Rows.keys_ok {| conversations := []; messages := [] |}.
Proof.
  refine (proj1 (mutators_keep_keys (db Scenario.w_one_turn)
                   {| conversations := []; messages := [] |}
                   1%N EmptyString true None _) eq_refl).
  split; [|split]; simpl.
  - constructor; [intros []|constructor].
  - constructor; [intros [H|[]]; discriminate|].
    constructor; [intros []|constructor].
  - intros m [<-|[<-|[]]]; reflexivity.
Defined.

(** ** What a handler keeps *)

Section Keeps.
Variable Q : Database -> Prop.

Lemma keeps_ret {A : Type} (a : A) : Rows.keeps Q (ret a).
Proof. intros w w' r [= <- _] H. exact H. Qed.

Lemma keeps_raise {A : Type} (e : Exception) : Rows.keeps Q (@raise A e).
Proof. intros w w' r [= <- _] H. exact H. Qed.

Lemma keeps_lift {A : Type} (o : Outcome A) : Rows.keeps Q (lift o).
Proof. intros w w' r [= <- _] H. exact H. Qed.

Lemma keeps_bind {A B : Type} (m : M A) (k : A -> M B) :
  Rows.keeps Q m -> (forall a, Rows.keeps Q (k a)) ->
  Rows.keeps Q (bind m k).
Proof.
  intros Hm Hk w w' r H HQ. apply bind_inv in H.
  destruct H as [(w1 & a & E1 & E2) | (e & E1 & _)].
  - apply (Hk a _ _ _ E2). apply (Hm _ _ _ E1 HQ).
  - apply (Hm _ _ _ E1 HQ).
Qed.

Lemma keeps_bind_lift {A B : Type} (o : Outcome A) (k : A -> M B) :
  (forall a, o = Ok a -> Rows.keeps Q (k a)) ->
  Rows.keeps Q (bind (lift o) k).
Proof.
  intros Hk w w' r H HQ. unfold bind, lift in H.
  destruct o as [a|e]; [|injection H as <- _; exact HQ].
  apply (Hk a eq_refl _ _ _ H HQ).
Qed.

Lemma keeps_try {A : Type} (m : M A) (h : Exception -> M A) :
  Rows.keeps Q m -> (forall e, Rows.keeps Q (h e)) ->
  Rows.keeps Q (try_except m h).
Proof.
  intros Hm Hh w w' r H HQ. unfold try_except in H.
  destruct (m w) as [w1 [a|e]] eqn:E.
  - injection H as <- _. apply (Hm _ _ _ E HQ).
  - apply (Hh e _ _ _ H). apply (Hm _ _ _ E HQ).
Qed.

Lemma keeps_execute {A : Type} (fault : bool)
    (stmt : Database -> Outcome (Database * A)) :
  (forall d d' a, stmt d = Ok (d', a) -> Q d -> Q d') ->
  Rows.keeps Q (Rows.execute fault stmt).
Proof.
  intros Hs w w' r H HQ. unfold Rows.execute in H.
  destruct fault; [injection H as <- _; exact HQ|].
  destruct (stmt (db w)) as [[d a]|e] eqn:E; injection H as <- _;
    [|exact HQ].
  simpl. apply (Hs _ _ _ E HQ).
Qed.

Lemma keeps_query (env : Env) (self : LightRAG.LightRAGService)
    (q mode : string) (h : option (list Crud.HistoryEntry))
    (kwargs : list (string * option JValue)) :
  Rows.keeps Q (LightRAG.query env self q mode h kwargs).
Proof.
  intros w w' r H HQ.
  destruct (query_run env self q mode h kwargs w) as (r0 & E & _).
  rewrite E in H. injection H as <- _. exact HQ.
Qed.

(** A chat turn keeps what its three writes keep: the insert of a
    conversation under a fresh identifier, the insert of a message
    under a fresh identifier into an existing conversation, and the
    write of a title. *)
Lemma chat_keeps (env : Env) (request : ChatRequest) :
  (forall d c, Q d -> Crud.conversation_exists d (conv_id c) = false ->
     Q {| conversations := conversations d ++ [c];
          messages := messages d |}) ->
  (forall d m, Q d ->
     existsb (fun m0 => (msg_id m0 =? msg_id m)%N) (messages d) = false ->
     Crud.conversation_exists d (conversation_id m) = true ->
     (sender m = USER -> content m = message request) ->
     Q {| conversations := conversations d; messages := messages d ++ [m] |}) ->
  (forall d cid t, Q d ->
     Q {| conversations :=
            map (fun c => if (conv_id c =? cid)%N
                          then Store.set_title t c else c) (conversations d);
          messages := messages d |}) ->
  Rows.keeps Q (Chat.chat env request).
Proof.
  intros H1 H2 H3.
  assert (Hmsg : forall cid s c src,
            (s = USER -> c = message request) ->
            Rows.keeps Q (bind (lift (new_MessageCreate cid s c src))
                            (Store.create_message env))).
  { intros cid s c src Hc. apply keeps_bind_lift. intros mc Hmc.
    unfold new_MessageCreate in Hmc.
    destruct (1 <=? Py.len c); [|discriminate]. injection Hmc as <-.
    unfold Store.create_message.
    apply (keeps_execute (db_fault env (CreateMessage s))).
    intros d d' a E HQ. simpl in E.
    match type of E with (if ?b || _ then _ else _) = _ =>
      destruct b eqn:X end; [discriminate|].
    destruct (Crud.conversation_exists d cid) eqn:Y; [|discriminate].
    injection E as <- _. apply H2; auto. }
  unfold Chat.chat. apply keeps_try.
  2:{ intros e. destruct e; simpl; apply keeps_raise. }
  apply keeps_bind.
  2:{ intros x. apply keeps_bind; [|intros; apply keeps_ret].
      unfold Chat.auto_title.
      destruct (negb (Py.truthy_opt (title (Chat.conversation_of x))));
        [|apply keeps_ret].
      apply keeps_bind.
      - apply (keeps_execute (db_fault env GenerateTitle)).
        intros d d' a [= <- _] H. exact H.
      - intros [t|]; [|apply keeps_ret].
        destruct (Py.truthy t); [|apply keeps_ret].
        apply keeps_bind; [|intros; apply keeps_ret].
        apply (keeps_execute (db_fault env UpdateTitle)).
        intros d d' a E HQ.
        destruct (Crud.get_conversation d (Chat.conversation_id_of x))
          as [[c|]|e0]; try discriminate; injection E as <- _; auto. }
  unfold Chat.exchange.
  apply keeps_bind.
  { unfold Chat.resolve_conversation.
    destruct (req_conversation_id request) as [cid|].
    - apply keeps_bind.
      + apply (keeps_execute (db_fault env GetConversation)).
        intros d d' a E HQ.
        destruct (Crud.get_conversation d cid); [|discriminate].
        injection E as <- _. exact HQ.
      + intros [c|]; [apply keeps_ret | apply keeps_raise].
    - apply keeps_bind_lift. intros cc _.
      apply keeps_bind; [|intros; apply keeps_ret].
      apply (keeps_execute (db_fault env CreateConversation)).
      intros d d' a E HQ. simpl in E.
      destruct (Crud.conversation_exists d (uuid4 env CreateConversation))
        eqn:X; [discriminate|].
      injection E as <- _. apply H1; auto. }
  intros resolved. apply keeps_bind.
  { apply Hmsg. reflexivity. }
  intros um. apply keeps_bind.
  { apply (keeps_execute (db_fault env GetHistory)).
    intros d d' a [= <- _] H. exact H. }
  intros h. apply keeps_bind.
  { unfold Chat.ask_lightrag. apply keeps_try; [|intros; apply keeps_raise].
    apply keeps_bind; [apply keeps_query|].
    intros; apply keeps_ret. }
  intros s. apply keeps_bind.
  { apply Hmsg. discriminate. }
  intros am. apply keeps_ret.
Qed.

End Keeps.

Lemma NoDup_snoc {A : Type} (l : list A) (x : A) :
  NoDup l -> ~ In x l -> NoDup (l ++ [x]).
Proof.
  induction l as [|a l IH]; simpl; intros N Hx.
  - constructor; [intros []|constructor].
  - inversion N as [|? ? Ha N']; subst. constructor.
    + intros Hin. apply in_app_or in Hin. destruct Hin as [Hin|[->|[]]].
      * contradiction.
      * apply Hx. left. reflexivity.
    + apply IH; [exact N'|]. intros Hin. apply Hx. right. exact Hin.
Qed.

Lemma existsb_false_not_in {A B : Type} (f : A -> B)
    (eqb : B -> B -> bool) (l : list A) (b : B) :
  (forall x y, eqb x y = true <-> x = y) ->
  existsb (fun a => eqb (f a) b) l = false -> ~ In b (map f l).
Proof.
  intros Heq H Hin. apply in_map_iff in Hin. destruct Hin as (a & E & Ha).
  assert (existsb (fun a0 => eqb (f a0) b) l = true).
  { apply existsb_exists. exists a. split; [exact Ha|]. apply Heq. exact E. }
  congruence.
Qed.

Lemma keys_ok_new_conversation (d : Database) (c : Conversation) :
  Rows.keys_ok d -> Crud.conversation_exists d (conv_id c) = false ->
  Rows.keys_ok {| conversations := conversations d ++ [c];
                  messages := messages d |}.
Proof.
  intros (K1 & K2 & K3) Hnew. split; [|split]; simpl.
  - rewrite map_app. simpl. apply NoDup_snoc; [exact K1|].
    apply (existsb_false_not_in conv_id N.eqb); [apply N.eqb_eq | exact Hnew].
  - exact K2.
  - intros m Hm. unfold Crud.conversation_exists. simpl.
    rewrite existsb_app. apply orb_true_iff. left. apply (K3 m Hm).
Qed.

Lemma keys_ok_new_message (d : Database) (m : Message) :
  Rows.keys_ok d ->
  existsb (fun m0 => (msg_id m0 =? msg_id m)%N) (messages d) = false ->
  Crud.conversation_exists d (conversation_id m) = true ->
  Rows.keys_ok {| conversations := conversations d;
                  messages := messages d ++ [m] |}.
Proof.
  intros (K1 & K2 & K3) Hnew Hfk. split; [|split]; simpl.
  - exact K1.
  - rewrite map_app. simpl. apply NoDup_snoc; [exact K2|].
    apply (existsb_false_not_in msg_id N.eqb); [apply N.eqb_eq | exact Hnew].
  - intros m0 Hm0. apply in_app_or in Hm0.
    destruct Hm0 as [Hm0|[<-|[]]]; [apply (K3 m0 Hm0) | exact Hfk].
Qed.

(** X8. A chat turn keeps the keys of the tables, however it ends:
    identifiers stay unique and every message refers to an existing
    conversation, because both inserts honour the primary and foreign
    keys. *)
Theorem chat_keeps_keys (env : Env) (request : ChatRequest) (w : World) :
  Rows.keys_ok (db w) ->
  Rows.keys_ok (db (fst (Chat.chat env request w))).
Proof.
  intros K.
  refine (chat_keeps Rows.keys_ok env request _ _ _ w
            (fst (Chat.chat env request w)) (snd (Chat.chat env request w))
            _ K).
  - intros d c. apply keys_ok_new_conversation.
  - intros d m HK Hnew Hfk _. apply keys_ok_new_message; assumption.
  - intros d cid t. apply keys_ok_rename.
  - apply surjective_pairing.
Qed.

Lemma chat_keeps_keys_witness :
  Rows.keys_ok
    (db (fst (Chat.chat Scenario.env_ok Scenario.request_new
                Scenario.w_empty))).
Proof.
  apply (chat_keeps_keys Scenario.env_ok Scenario.request_new
           Scenario.w_empty).
  split; [|split]; simpl.
  - constructor.
  - constructor.
  - intros m [].
Defined.

(** ** Trimmed contents *)

Lemma rstrip_idempotent (s : string) : Py.rstrip (Py.rstrip s) = Py.rstrip s.
Proof.
  induction s as [|c s IH]; simpl; [reflexivity|].
  destruct (Py.rstrip s) as [|a r] eqn:E.
  - destruct (Py.isspace c) eqn:Sp; simpl; [reflexivity|].
    rewrite Sp. reflexivity.
  - simpl. simpl in IH. rewrite IH. reflexivity.
Qed.

(** [strip] is idempotent: what the validator returns is trimmed. *)
Lemma strip_idempotent (s : string) : Py.strip (Py.strip s) = Py.strip s.
Proof.
  unfold Py.strip.
  destruct (Py.rstrip (Py.lstrip s)) as [|a r] eqn:E; [reflexivity|].
  pose proof (rstrip_head _ _ _ E) as [r' Hl].
  pose proof (lstrip_head _ _ _ Hl) as Hsp.
  simpl. rewrite Hsp. rewrite <- E. apply rstrip_idempotent.
Qed.

(** X9. The chat endpoint only stores trimmed user text: when every
    stored user message is trimmed and non-empty, so is every stored
    user message after a request to [POST /api/chat/], whatever the
    request and however it ends. *)
Theorem post_chat_keeps_user_contents_trimmed (env : Env)
    (cid : option UUID) (raw : string) (w : World) :
  Rows.user_contents_trimmed (db w) ->
  Rows.user_contents_trimmed (db (fst (Chat.post_chat env cid raw w))).
Proof.
  intros K. rewrite post_chat_steps.
  destruct (new_ChatRequest cid raw) as [request|e] eqn:V; [|exact K].
  apply new_ChatRequest_ok in V. destruct V as (_ & Vm & Vne).
  assert (Hrun : Rows.user_contents_trimmed
                   (db (fst (Chat.chat env request w)))).
  { refine (chat_keeps Rows.user_contents_trimmed env request _ _ _ w
              (fst (Chat.chat env request w))
              (snd (Chat.chat env request w)) _ K).
    - intros d c HQ _. exact HQ.
    - intros d m HQ _ _ Hc m0 Hm0 Hs. simpl in Hm0.
      apply in_app_or in Hm0. destruct Hm0 as [Hm0|[<-|[]]]; [auto|].
      rewrite (Hc Hs), Vm. split; [apply strip_idempotent | exact Vne].
    - intros d c t HQ. exact HQ.
    - apply surjective_pairing. }
  destruct (Chat.chat env request w) as [w' [a|e]]; exact Hrun.
Qed.

Lemma post_chat_keeps_user_contents_trimmed_witness :
  Rows.user_contents_trimmed
    (db (fst (Chat.post_chat Scenario.env_ok (Some 1%N) "  Hello  "%string
                Scenario.w_one_turn))).
Proof.
  apply (post_chat_keeps_user_contents_trimmed Scenario.env_ok (Some 1%N)
           "  Hello  "%string Scenario.w_one_turn).
  intros m [<-|[<-|[]]] Hs; simpl in *;
    [split; [reflexivity | discriminate] | discriminate].
Defined.

(** ** More on the chat turn *)

(** Steps 1 to 6, one after the other. *)
Lemma exchange_steps (env : Env) (request : ChatRequest) (w w' : World)
    (r : Outcome Chat.Exchange) :
  Chat.exchange env request w = (w', r) ->
  (exists e, Chat.resolve_conversation env request w = (w', Raise e) /\
             r = Raise e) \/
  exists w1 cid conv,
    Chat.resolve_conversation env request w = (w1, Ok (cid, conv)) /\
    ((exists e, Store.create_user_message env cid (message request) w1
                = (w', Raise e) /\ r = Raise e) \/
     exists w2 u,
       Store.create_user_message env cid (message request) w1
       = (w2, Ok u) /\
       ((exists e, Store.get_conversation_history_for_lightrag env cid 10 w2
                   = (w', Raise e) /\ r = Raise e) \/
        exists w3 h,
          Store.get_conversation_history_for_lightrag env cid 10 w2
          = (w3, Ok h) /\
          ((exists e, Chat.ask_lightrag env request h w3 = (w', Raise e) /\
                      r = Raise e) \/
           exists w4 s,
             Chat.ask_lightrag env request h w3 = (w4, Ok s) /\
             ((exists e, Store.create_ai_message env cid s None w4
                         = (w', Raise e) /\ r = Raise e) \/
              exists a,
                Store.create_ai_message env cid s None w4 = (w', Ok a) /\
                r = Ok {| Chat.conversation_id_of := cid;
                          Chat.conversation_of := conv;
                          Chat.user_message_of := u;
                          Chat.ai_response_text_of := s;
                          Chat.ai_message_of := a |})))).
Proof.
  intros H. unfold Chat.exchange in H.
  apply bind_inv in H.
  destruct H as [(w1 & [cid conv] & E1 & H) | (e & E1 & ->)]; [|eauto].
  right. exists w1, cid, conv. split; [exact E1|]. cbn [fst snd] in H.
  apply bind_inv in H.
  destruct H as [(w2 & u & E2 & H) | (e & E2 & ->)]; [|eauto].
  right. exists w2, u. split; [exact E2|].
  apply bind_inv in H.
  destruct H as [(w3 & h & E3 & H) | (e & E3 & ->)]; [|eauto].
  right. exists w3, h. split; [exact E3|].
  apply bind_inv in H.
  destruct H as [(w4 & s & E4 & H) | (e & E4 & ->)]; [|eauto].
  right. exists w4, s. split; [exact E4|].
  apply bind_inv in H.
  destruct H as [(w5 & a & E5 & H) | (e & E5 & ->)]; [|eauto].
  right. exists a. unfold ret in H. injection H as <- <-. auto.
Qed.

(** The text step 4 yields is the [response] of the server's reply. *)
Lemma ask_lightrag_text (env : Env) (request : ChatRequest)
    (h : list Crud.HistoryEntry) (w w' : World) (s : string) :
  Chat.ask_lightrag env request h w = (w', Ok s) ->
  exists obj,
    rag_server env (Chat.chat_call env request h) = Json obj /\
    LightRAG.dict_get "response" (JString "") obj = JString s.
Proof.
  unfold Chat.ask_lightrag, try_except, bind, LightRAG.query,
    LightRAG.log_and_reraise, try_except, bind, LightRAG.send, lift, ret,
    raise, LightRAG.str_field.
  fold (Chat.chat_call env request h).
  destruct (rag_server env (Chat.chat_call env request h))
    as [| | code | | obj]; try discriminate.
  destruct (LightRAG.dict_get "response" (JString "") obj) eqn:G;
    try discriminate.
  intros [= _ <-]. eauto.
Qed.

(** An insert that succeeds found its identifier unused and its
    conversation present, and stores a non-empty content. *)
Lemma create_message_fresh (env : Env) (cid : UUID) (s : MessageSender)
    (c : string) (src : option (list Source)) (w w' : World) (m : Message) :
  bind (lift (new_MessageCreate cid s c src)) (Store.create_message env) w
    = (w', Ok m) ->
  existsb (fun m0 => (msg_id m0 =? msg_id m)%N) (messages (db w)) = false /\
  Crud.conversation_exists (db w) cid = true /\
  c <> EmptyString.
Proof.
  unfold bind, lift, new_MessageCreate.
  destruct (1 <=? Py.len c) eqn:L; [|discriminate].
  unfold Store.create_message. intros H.
  apply db_call_inv in H. destruct H as (_ & _ & _ & H). simpl in H.
  match type of H with (if ?b || _ then _ else _) = _ =>
    destruct b eqn:X end; [discriminate|].
  destruct (Crud.conversation_exists (db w) cid) eqn:Y; [|discriminate].
  injection H as _ <-. simpl. repeat split.
  - exact X.
  - intros ->. discriminate.
Qed.

(** X10. A chat request that names a conversation the database does not
    have is answered with 404 and changes nothing: no message is stored
    and no call is made. *)
Theorem chat_unknown_conversation (env : Env) (request : ChatRequest)
    (cid : UUID) (w : World) :
  req_conversation_id request = Some cid ->
  db_fault env GetConversation = false ->
  Crud.get_conversation (db w) cid = Ok None ->
  Chat.chat env request w = (w, Raise (HTTPException HTTP_404_NOT_FOUND)).
Proof.
  intros Hreq Hfault Hnone.
  unfold Chat.chat, try_except, bind, Chat.exchange, bind,
    Chat.resolve_conversation.
  rewrite Hreq. unfold bind, Store.get_conversation, Store.db_call.
  rewrite Hfault, Hnone. simpl. rewrite world_eta. reflexivity.
Qed.

Lemma chat_unknown_conversation_witness :
  Chat.chat Scenario.env_ok Cases.request_unknown Scenario.w_one_turn
  = (Scenario.w_one_turn, Raise (HTTPException HTTP_404_NOT_FOUND)).
Proof.
  apply (chat_unknown_conversation Scenario.env_ok Cases.request_unknown
           7%N Scenario.w_one_turn); reflexivity.
Defined.

(** X11. A successful chat turn stores exactly two rows, the user's
    message and then the AI's, in the conversation of the response: its
    message count grows by 2, the two identifiers of the response find
    exactly those rows, and the AI text returned and stored is the
    non-empty [response] of the server's reply to the turn's one
    call. *)
Theorem chat_success_stores_both (env : Env) (request : ChatRequest)
    (w w' : World) (resp : ChatResponse) :
  Chat.chat env request w = (w', Ok resp) ->
  resp_conversation_id resp = Chat.conversation_id_for env request /\
  messages (db w')
  = messages (db w)
    ++ [Chat.user_row env request;
        Chat.ai_row env request (ai_message resp)] /\
  Crud.get_conversation_message_count (db w') (resp_conversation_id resp)
  = 2 + Crud.get_conversation_message_count (db w)
          (resp_conversation_id resp) /\
  Rows.get_message (db w') (user_message_id resp)
  = Ok (Some (Chat.user_row env request)) /\
  Rows.get_message (db w') (ai_message_id resp)
  = Ok (Some (Chat.ai_row env request (ai_message resp))) /\
  ai_message resp <> EmptyString /\
  exists c obj,
    outbox w' = outbox w ++ [c] /\
    rag_server env c = Json obj /\
    LightRAG.dict_get "response" (JString "") obj
    = JString (ai_message resp).
Proof.
  intros H. apply chat_cases in H. destruct H as (w5 & r5 & E & K).
  destruct r5 as [x|e]; [|destruct K; discriminate].
  destruct K as (rt & T & K). destruct rt as [[]|e]; [|discriminate].
  injection K as ->.
  pose proof (exchange_ok _ _ _ _ _ E) as (G & Hid & _ & _ & _ & _).
  pose proof (auto_title_inv _ _ _ _ _ _ G T) as (Hm & _ & Ho & _).
  apply exchange_steps in E.
  destruct E as [(e & _ & He) | (w1 & cid & conv & E1 & E)]; [discriminate|].
  destruct E as [(e & _ & He) | (w2 & u & E2 & E)]; [discriminate|].
  destruct E as [(e & _ & He) | (w3 & h & E3 & E)]; [discriminate|].
  destruct E as [(e & _ & He) | (w4 & s & E4 & E)]; [discriminate|].
  destruct E as [(e & _ & He) | (a & E5 & He)]; [discriminate|].
  injection He as ->. simpl in *.
  apply resolve_conversation_inv in E1.
  destruct E1 as (Hm1 & _ & Ho1 & Hcid & _).
  unfold Store.create_user_message, Store.create_ai_message in E2, E5.
  pose proof (create_message_fresh _ _ _ _ _ _ _ _ E2) as (Fu & _ & _).
  pose proof (create_message_fresh _ _ _ _ _ _ _ _ E5) as (Fa & _ & Hs).
  apply create_message_inv in E2. destruct E2 as (_ & _ & Ho2 & Hu & Hm2).
  apply create_message_inv in E5. destruct E5 as (_ & _ & Ho5 & Ha & Hm5).
  apply get_history_inv in E3. destruct E3 as (-> & ->).
  pose proof (ask_lightrag_text _ _ _ _ _ _ E4) as (obj & Hreply & Htext).
  apply ask_lightrag_inv in E4. destruct E4 as (-> & _).
  rewrite Hcid in Hu, Ha.
  change (u = Chat.user_row env request) in Hu.
  change (a = Chat.ai_row env request s) in Ha. subst u a.
  simpl in Hm5. rewrite Hm2, Hm1, <- app_assoc in Hm5. simpl in Hm5.
  simpl in Fa. rewrite Hm2, Hm1 in Fa. rewrite Hm1 in Fu.
  rewrite existsb_app in Fa. apply orb_false_iff in Fa.
  destruct Fa as [Fa Fua]. simpl in Fua. rewrite orb_false_r in Fua.
  unfold Crud.get_conversation_message_count, Rows.get_message.
  rewrite Hm, Hm5.
  split; [exact Hcid|]. split; [reflexivity|].
  split.
  { rewrite filter_app, length_app. simpl.
    unfold in_conversation at 2 3. simpl. rewrite Hcid, N.eqb_refl.
    simpl. lia. }
  split.
  { rewrite filter_app.
    rewrite (existsb_false_filter _ _ Fu). simpl.
    rewrite N.eqb_refl. rewrite N.eqb_sym in Fua. simpl in Fua.
    rewrite Fua. reflexivity. }
  split.
  { rewrite filter_app. simpl.
    rewrite (existsb_false_filter _ _ Fa). simpl.
    simpl in Fua. rewrite Fua, N.eqb_refl. reflexivity. }
  split; [exact Hs|].
  eexists _, obj. split; [|split; [exact Hreply | exact Htext]].
  rewrite Ho, Ho5. simpl. rewrite Ho2, Ho1. reflexivity.
Qed.

Lemma chat_success_stores_both_witness :
  Crud.get_conversation_message_count
    (db (fst (Chat.chat Scenario.env_ok Scenario.request_new
                Scenario.w_empty))) 100%N
  = 2.
Proof.
  exact (proj1 (proj2 (proj2
    (chat_success_stores_both Scenario.env_ok Scenario.request_new
       Scenario.w_empty
       (fst (Chat.chat Scenario.env_ok Scenario.request_new
               Scenario.w_empty))
       (Chat.chat_response Scenario.hello_exchange) eq_refl)))).
Defined.

(** X12. A reply that is a JSON object without response text (the key
    missing, or the text empty) does not count as a failure of the
    call: the client returns the empty text, the AI message is refused
    by its schema, and the turn ends with 500, not 503. The user's
    message stays stored and no AI message is added. *)
Theorem chat_reply_without_text (env : Env) (request : ChatRequest)
    (w w' : World) (r : Outcome ChatResponse) (c : HttpCall) (obj : Dict) :
  Chat.chat env request w = (w', r) ->
  outbox w' = outbox w ++ [c] ->
  rag_server env c = Json obj ->
  LightRAG.dict_get "response" (JString "") obj = JString "" ->
  r = Raise (HTTPException HTTP_500_INTERNAL_SERVER_ERROR) /\
  messages (db w') = messages (db w) ++ [Chat.user_row env request].
Proof.
  intros H Hout Hreply Htext.
  pose proof (chat_effects _ _ _ _ _ H) as (w5 & r5 & E & Hm & Ho & _).
  pose proof (chat_cases _ _ _ _ _ H) as (w5' & r5' & E' & K).
  rewrite E in E'. injection E' as <- <-.
  rewrite Ho in Hout. rewrite Hm. clear Hm Ho H.
  apply exchange_steps in E.
  destruct E as [(e & E1 & He) | (w1 & cid & conv & E1 & E)].
  { apply resolve_conversation_inv in E1. destruct E1 as (_ & _ & Ho1 & _).
    rewrite Ho1 in Hout. destruct (app_one_neq _ _ Hout). }
  apply resolve_conversation_inv in E1.
  destruct E1 as (Hm1 & _ & Ho1 & Hcid & _).
  unfold Store.create_user_message, Store.create_ai_message in E.
  destruct E as [(e & E2 & He) | (w2 & u & E2 & E)].
  { apply create_message_inv in E2. destruct E2 as (_ & _ & Ho2 & _).
    rewrite Ho2, Ho1 in Hout. destruct (app_one_neq _ _ Hout). }
  apply create_message_inv in E2. destruct E2 as (_ & _ & Ho2 & Hu & Hm2).
  rewrite Hcid in Hu. change (u = Chat.user_row env request) in Hu. subst u.
  destruct E as [(e & E3 & He) | (w3 & h & E3 & E)].
  { apply get_history_inv in E3. destruct E3 as (-> & _).
    rewrite Ho2, Ho1 in Hout. destruct (app_one_neq _ _ Hout). }
  apply get_history_inv in E3. destruct E3 as (-> & Hh).
  assert (Hcall : forall w4 r4,
            Chat.ask_lightrag env request h w2 = (w4, r4) ->
            outbox w4 = outbox w ++ [Chat.chat_call env request h]).
  { intros w4 r4 E4. apply ask_lightrag_inv in E4.
    destruct E4 as (-> & _). simpl. rewrite Ho2, Ho1. reflexivity. }
  destruct E as [(e & E4 & He) | (w4 & s & E4 & E)].
  { pose proof (Hcall _ _ E4) as Ho4. rewrite Ho4 in Hout.
    apply app_inv_head in Hout. injection Hout as Hc.
    apply ask_lightrag_inv in E4. destruct E4 as (_ & E4).
    rewrite Hc, Hreply in E4. simpl in E4. rewrite Htext in E4.
    destruct E4 as [s0 E4]. discriminate. }
  pose proof (Hcall _ _ E4) as Ho4.
  pose proof (ask_lightrag_text _ _ _ _ _ _ E4) as (obj' & Hreply' & Htext').
  assert (Hw4 : messages (db w4) = messages (db w2)).
  { apply ask_lightrag_inv in E4. destruct E4 as (-> & _). reflexivity. }
  destruct E as [(e & E5 & He) | (a & E5 & He)].
  - pose proof (create_message_raise_not_http _ _ _ _ _ _ _ _ E5) as Hn.
    apply create_message_inv in E5. destruct E5 as (_ & _ & _ & ->).
    subst r5. destruct K as [_ ->]. split.
    + destruct e; try reflexivity. destruct (Hn status_code). reflexivity.
    + rewrite Hw4, Hm2, Hm1. reflexivity.
  - pose proof (create_message_fresh _ _ _ _ _ _ _ _ E5) as (_ & _ & Hs).
    apply create_message_inv in E5. destruct E5 as (_ & _ & Ho5 & _).
    rewrite Ho5, Ho4 in Hout. apply app_inv_head in Hout.
    injection Hout as Hc. rewrite Hc, Hreply in Hreply'.
    injection Hreply' as <-. rewrite Htext in Htext'.
    injection Htext' as <-. congruence.
Qed.

Lemma chat_reply_without_text_witness :
  snd (Chat.chat Cases.env_no_text Scenario.request_new Scenario.w_empty)
  = Raise (HTTPException HTTP_500_INTERNAL_SERVER_ERROR).
Proof.
  refine (proj1
    (chat_reply_without_text Cases.env_no_text Scenario.request_new
       Scenario.w_empty
       (fst (Chat.chat Cases.env_no_text Scenario.request_new
               Scenario.w_empty))
       (snd (Chat.chat Cases.env_no_text Scenario.request_new
               Scenario.w_empty))
       (Chat.chat_call Cases.env_no_text Scenario.request_new [])
       [("status"%string, JString "success")] _ _ _ _)); reflexivity.
Defined.

(** What a turn sends, in terms of the store it starts from. *)
Lemma turn_history (env : Env) (request : ChatRequest) (w : World)
    (c : HttpCall) :
  In c (skipn (List.length (outbox w))
              (outbox (fst (Chat.chat env request w)))) ->
  (forall m, In m (messages (db w)) ->
             conversation_id m = Chat.conversation_id_for env request ->
             (timestamp m < now env (CreateMessage USER))%Z) ->
  LightRAG.history_of_call c
  = map Crud.history_entry
      (Crud.recent_messages (db w) (Chat.conversation_id_for env request) 9).
Proof.
  intros Hc Hclock.
  set (cid := Chat.conversation_id_for env request) in *.
  set (u := Chat.user_row env request) in *.
  destruct (Chat.chat env request w) as [w' r] eqn:E. simpl in *.
  apply chat_effects in E. destruct E as (w5 & r5 & E & _ & Ho & _).
  rewrite Ho in Hc.
  pose proof (exchange_cases _ _ _ _ _ E) as (_ & C). cbv zeta in C.
  fold cid u in C.
  destruct C as [(_ & Ho5 & _) | (w1 & conv & _ & _ & C)].
  { rewrite Ho5, skipn_all in Hc. destruct Hc. }
  destruct C as [(_ & Ho5 & _) | (Ho5 & _)].
  { rewrite Ho5, skipn_all in Hc. destruct Hc. }
  rewrite Ho5, skipn_length_app in Hc. destruct Hc as [<-|[]].
  rewrite history_of_chat_call.
  unfold Crud.get_conversation_history_for_lightrag.
  rewrite removelast_map.
  rewrite (recent_messages_snoc (db w)
             {| conversations := conversations (db w1);
                messages := messages (db w) ++ [u] |}
             cid u 9 eq_refl eq_refl Hclock).
  rewrite removelast_last. reflexivity.
Qed.

(** The rows after a turn whose query call failed. *)
Lemma failed_turn_rows (env : Env) (request : ChatRequest) (w w' : World)
    (r : Outcome ChatResponse) (c : HttpCall) :
  Chat.chat env request w = (w', r) ->
  outbox w' = outbox w ++ [c] ->
  LightRAG.query_rejects (rag_server env c) = true ->
  messages (db w') = messages (db w) ++ [Chat.user_row env request].
Proof.
  intros H Hout Hrej.
  pose proof (chat_effects _ _ _ _ _ H) as (w5 & r5 & E & Hm & Ho & _).
  pose proof (exchange_cases _ _ _ _ _ E) as (_ & C). cbv zeta in C.
  rewrite Ho in Hout. rewrite Hm.
  destruct C as [(_ & Ho5 & _) | (w1 & conv & _ & _ & C)].
  { rewrite Ho5 in Hout. destruct (app_one_neq _ _ Hout). }
  destruct C as [(_ & Ho5 & _) | (Ho5 & C)].
  { rewrite Ho5 in Hout. destruct (app_one_neq _ _ Hout). }
  rewrite Ho5 in Hout. apply app_inv_head in Hout.
  injection Hout as Hc. rewrite Hc in C.
  destruct C as [(_ & Hm5 & _) | (Q & _)]; [exact Hm5 | congruence].
Qed.

(** X13. The user's turn is durable: after a chat turn whose query call
    failed, a later turn on the same conversation sends that turn's
    message as the last entry of its history, with role "user", after
    the 8 most recent earlier messages (the server clock moving forward
    from turn to turn). *)
Theorem retry_sees_failed_turn (env1 env2 : Env) (req1 req2 : ChatRequest)
    (w w1 : World) (r1 : Outcome ChatResponse) (c1 c2 : HttpCall) :
  Chat.chat env1 req1 w = (w1, r1) ->
  outbox w1 = outbox w ++ [c1] ->
  LightRAG.query_rejects (rag_server env1 c1) = true ->
  req_conversation_id req2 = Some (Chat.conversation_id_for env1 req1) ->
  (forall m, In m (messages (db w)) ->
             conversation_id m = Chat.conversation_id_for env1 req1 ->
             (timestamp m < now env1 (CreateMessage USER))%Z) ->
  (now env1 (CreateMessage USER) < now env2 (CreateMessage USER))%Z ->
  In c2 (skipn (List.length (outbox w1))
               (outbox (fst (Chat.chat env2 req2 w1)))) ->
  LightRAG.history_of_call c2
  = map Crud.history_entry
      (Crud.recent_messages (db w) (Chat.conversation_id_for env1 req1) 8)
    ++ [{| Crud.role := "user"; Crud.entry_content := message req1 |}].
Proof.
  intros H1 Hout Hrej Hsame Hclock1 Hclock2 Hc2.
  pose proof (failed_turn_rows _ _ _ _ _ _ H1 Hout Hrej) as Hrows.
  assert (Hcid : Chat.conversation_id_for env2 req2
                 = Chat.conversation_id_for env1 req1).
  { unfold Chat.conversation_id_for at 1. rewrite Hsame. reflexivity. }
  rewrite (turn_history env2 req2 w1 c2 Hc2).
  - rewrite Hcid.
    rewrite (recent_messages_snoc (db w) (db w1)
               (Chat.conversation_id_for env1 req1)
               (Chat.user_row env1 req1) 8 Hrows eq_refl Hclock1).
    rewrite map_app. reflexivity.
  - intros m Hm Hconv. rewrite Hrows in Hm. rewrite Hcid in Hconv.
    apply in_app_or in Hm. destruct Hm as [Hm|[<-|[]]].
    + specialize (Hclock1 m Hm Hconv). lia.
    + simpl. exact Hclock2.
Qed.

Lemma retry_sees_failed_turn_witness :
  LightRAG.history_of_call
    (Chat.chat_call Cases.env_retry Cases.request_again
       (map Crud.history_entry
          [Scenario.first_question; Scenario.first_answer;
           Chat.user_row Scenario.env_rag_down Scenario.request_old;
           Chat.user_row Cases.env_retry Cases.request_again]))
  = map Crud.history_entry [Scenario.first_question; Scenario.first_answer]
    ++ [{| Crud.role := "user"; Crud.entry_content := "Hello" |}].
Proof.
  refine (retry_sees_failed_turn Scenario.env_rag_down Cases.env_retry
            Scenario.request_old Cases.request_again Scenario.w_one_turn
            (fst (Chat.chat Scenario.env_rag_down Scenario.request_old
                    Scenario.w_one_turn))
            (snd (Chat.chat Scenario.env_rag_down Scenario.request_old
                    Scenario.w_one_turn))
            (Chat.chat_call Scenario.env_rag_down Scenario.request_old
               (map Crud.history_entry
                  [Scenario.first_question; Scenario.first_answer;
                   Chat.user_row Scenario.env_rag_down Scenario.request_old]))
            _ _ _ _ _ _ _ _).
  - reflexivity.
  - reflexivity.
  - reflexivity.
  - reflexivity.
  - intros m [<-|[<-|[]]] _; simpl; lia.
  - simpl. lia.
  - left. reflexivity.
Defined.

(** ** Conversation listings *)

Lemma max_timestamp_spec (ms : list Message) :
  match Rows.max_timestamp ms with
  | None => ms = []
  | Some t =>
      (exists m, In m ms /\ timestamp m = t) /\
      forall m, In m ms -> (timestamp m <= t)%Z
  end.
Proof.
  induction ms as [|m r IH]; simpl; [reflexivity|].
  destruct (Rows.max_timestamp r) as [t|].
  - destruct IH as ((m0 & Hm0 & Ht) & Hmax). split.
    + destruct (Z.max_spec (timestamp m) t) as [[_ ->]|[_ ->]]; eauto.
    + intros x [<-|Hx]; [lia|]. specialize (Hmax x Hx). lia.
  - subst r. split; [eauto|]. intros x [<-|[]]. lia.
Qed.

Lemma sorted_last_is_max (l : list Message) (m : Message) :
  StronglySorted (fun a b => (timestamp a <= timestamp b)%Z) (l ++ [m]) ->
  forall x, In x (l ++ [m]) -> (timestamp x <= timestamp m)%Z.
Proof.
  intros S x Hx. apply StronglySorted_app_inv in S.
  destruct S as (_ & _ & H). apply in_app_or in Hx.
  destruct Hx as [Hx|[<-|[]]]; [|lia]. apply H; [exact Hx|]. left. reflexivity.
Qed.

(** X14. In the conversation listing, every summary agrees with the
    message listing of its conversation: [message_count] is the number
    of messages the listing returns, and [last_message_at] is absent
    when there is none and otherwise the timestamp of the last message
    of the listing. *)
Theorem summary_agrees_with_listing (d : Database) (u : option string)
    (skip limit : nat) (s : Rows.ConversationSummary) :
  In s (Rows.get_conversations_with_summary d u skip limit) ->
  Rows.message_count s
  = Crud.get_conversation_message_count d (Rows.summary_id s) /\
  List.length (Rows.get_messages_by_conversation d (Rows.summary_id s) 0
                 (Rows.message_count s))
  = Rows.message_count s /\
  Rows.last_message_at s
  = match rev (Rows.get_messages_by_conversation d (Rows.summary_id s) 0
                 (Rows.message_count s)) with
    | [] => None
    | m :: _ => Some (timestamp m)
    end.
Proof.
  unfold Rows.get_conversations_with_summary. intros H.
  apply in_map_iff in H. destruct H as (c & <- & _).
  unfold Rows.summary_of, Rows.get_messages_by_conversation, Rows.page,
    Crud.get_conversation_message_count. simpl.
  set (rows := filter (in_conversation (conv_id c)) (messages d)).
  pose proof (order_rows_perm timestamp_asc rows) as P.
  fold order_by_timestamp in P.
  pose proof (order_by_timestamp_sorted rows) as S.
  rewrite <- (Permutation_length P), firstn_all.
  split; [reflexivity|]. split; [reflexivity|].
  pose proof (max_timestamp_spec rows) as M.
  destruct (Rows.max_timestamp rows) as [t|].
  - destruct M as ((m0 & Hm0 & Ht) & Hmax).
    destruct (order_by_timestamp rows) as [|x l] eqn:E
      using rev_ind.
    + apply Permutation_nil in P. rewrite P in Hm0. destruct Hm0.
    + clear IHl. rewrite rev_app_distr. simpl. f_equal.
      assert (Hx : In x rows).
      { apply (Permutation_in _ P). apply in_or_app. right. left.
        reflexivity. }
      assert (H0 : In m0 (l ++ [x])).
      { apply (Permutation_in _ (Permutation_sym P)). exact Hm0. }
      pose proof (sorted_last_is_max l x S m0 H0).
      specialize (Hmax x Hx). lia.
  - rewrite M. reflexivity.
Qed.

Lemma summary_agrees_with_listing_witness :
  Rows.last_message_at
    (Rows.summary_of (db Scenario.w_one_turn)
       (Scenario.conversation_titled None))
  = Some 11%Z.
Proof.
  exact (proj2 (proj2
    (summary_agrees_with_listing (db Scenario.w_one_turn) None 0 10
       (Rows.summary_of (db Scenario.w_one_turn)
          (Scenario.conversation_titled None))
       (or_introl eq_refl)))).
Defined.

Lemma created_desc_sorted (l : list Conversation) :
  StronglySorted (fun a b => (created_at b <= created_at a)%Z)
    (order_rows Rows.created_desc l).
Proof.
  eapply StronglySorted_weaken; [| apply order_rows_sorted ].
  - intros a b H. apply Z.leb_le. exact H.
  - unfold Rows.created_desc; intros a b H.
    apply Z.leb_le. apply Z.leb_gt in H. lia.
  - unfold Rows.created_desc; intros a b c H1 H2.
    apply Z.leb_le in H1, H2. apply Z.leb_le. lia.
Qed.

(** X15. The conversation listing returns at most [limit] rows of the
    table, newest first by creation time; with a non-empty [user_id]
    every row returned belongs to that user, while an absent or empty
    [user_id] does not filter: the first [k] rows then are a
    rearrangement of the whole table, [k] being its size. *)
Theorem conversations_listing (d : Database) (u : option string)
    (skip limit : nat) :
  List.length (Rows.get_conversations d u skip limit) <= limit /\
  StronglySorted (fun a b => (created_at b <= created_at a)%Z)
    (Rows.get_conversations d u skip limit) /\
  (forall c, In c (Rows.get_conversations d u skip limit) ->
     In c (conversations d) /\
     forall v, u = Some v -> v <> EmptyString -> user_id c = Some v) /\
  (Py.truthy_opt u = false ->
   Permutation
     (Rows.get_conversations d u 0 (List.length (conversations d)))
     (conversations d)).
Proof.
  unfold Rows.get_conversations. repeat split.
  - unfold Rows.page. apply firstn_le_length.
  - apply StronglySorted_page. apply created_desc_sorted.
  - apply in_page in H.
    apply (Permutation_in _ (order_rows_perm Rows.created_desc _)) in H.
    apply filter_In in H. apply H.
  - intros v -> Hv. apply in_page in H.
    apply (Permutation_in _ (order_rows_perm Rows.created_desc _)) in H.
    apply filter_In in H. destruct H as [_ H].
    unfold Rows.user_filter, Rows.has_user in H.
    destruct v as [|a v]; [congruence|]. simpl in H.
    destruct (user_id c) as [x|]; [|discriminate].
    apply String.eqb_eq in H. congruence.
  - intros Hu.
    assert (Hall : filter (Rows.user_filter u) (conversations d)
                   = conversations d).
    { apply forallb_filter_id. apply forallb_forall. intros c _.
      unfold Rows.user_filter. destruct u as [v|]; [|reflexivity].
      simpl in Hu. rewrite Hu. reflexivity. }
    rewrite Hall. unfold Rows.page. simpl.
    rewrite <- (Permutation_length
                  (order_rows_perm Rows.created_desc (conversations d))).
    rewrite firstn_all. apply order_rows_perm.
Qed.

(** ** The calls of the RAG client *)

Ltac run_client_calls :=
  unfold Wire.calls_since, LightRAG.query, LightRAG.upload_document,
    LightRAG.insert_text, LightRAG.scan_documents,
    LightRAG.get_pipeline_status, LightRAG.health_check,
    LightRAG.log_and_reraise, try_except, bind,
    LightRAG.send, LightRAG.str_field, lift, ret, raise;
  repeat match goal with
         | |- context [rag_server ?env ?c] =>
             destruct (rag_server env c); cbn [fst snd]
         | |- context [LightRAG.dict_get ?k ?v ?o] =>
             destruct (LightRAG.dict_get k v o); cbn [fst snd]
         end;
  unfold sent; cbn [fst outbox];
  rewrite skipn_length_app.

Lemma carries_key_json (s : Settings) (m : Method) (u : string) (t : Z)
    (b : Body) :
  Wire.carries_key (lightrag_api_key s)
    {| method := m; url := u; call_timeout := t;
       headers := LightRAG._get_headers (LightRAG.init s);
       params := LightRAG.api_key_params (LightRAG.init s);
       body := b |}.
Proof.
  unfold Wire.carries_key, LightRAG._get_headers, LightRAG.authorization,
    LightRAG.api_key_params. simpl.
  destruct (lightrag_api_key s) as [k|]; simpl.
  - destruct (Py.truthy k); simpl.
    + exists k. auto 6.
    + split; [reflexivity|]. intros [H|[H|[]]]; discriminate.
  - split; [reflexivity|]. intros [H|[H|[]]]; discriminate.
Qed.

Lemma carries_key_upload (s : Settings) (m : Method) (u : string) (t : Z)
    (b : Body) :
  Wire.carries_key (lightrag_api_key s)
    {| method := m; url := u; call_timeout := t;
       headers := LightRAG._get_upload_headers (LightRAG.init s);
       params := LightRAG.api_key_params (LightRAG.init s);
       body := b |}.
Proof.
  unfold Wire.carries_key, LightRAG._get_upload_headers,
    LightRAG.authorization, LightRAG.api_key_params. simpl.
  destruct (lightrag_api_key s) as [k|]; simpl.
  - destruct (Py.truthy k); simpl.
    + exists k. auto 6.
    + split; [reflexivity|]. intros [H|[]]; discriminate.
  - split; [reflexivity|]. intros [H|[]]; discriminate.
Qed.

(** X16. Every operation of the RAG client sends the configured API key
    twice, as the header [Authorization: Bearer key] and as the query
    parameter [api_key_header_value], and sends neither when no key, or
    the empty key, is configured. *)
Theorem api_key_on_every_call (env : Env) (w : World) (q mode text : string)
    (history : option (list Crud.HistoryEntry))
    (kwargs : list (string * option JValue))
    (data : list Byte.byte) (name : string) (source : option string) :
  let self := LightRAG.lightrag_service env in
  let keyed := Wire.carries_key (lightrag_api_key (settings env)) in
  Forall keyed
    (Wire.calls_since w
       (fst (LightRAG.query env self q mode history kwargs w))) /\
  Forall keyed
    (Wire.calls_since w
       (fst (LightRAG.upload_document env self data name w))) /\
  Forall keyed
    (Wire.calls_since w (fst (LightRAG.insert_text env self text source w))) /\
  Forall keyed (Wire.calls_since w (fst (LightRAG.scan_documents env self w))) /\
  Forall keyed
    (Wire.calls_since w (fst (LightRAG.get_pipeline_status env self w))) /\
  Forall keyed (Wire.calls_since w (fst (LightRAG.health_check env self w))).
Proof.
  intros self keyed. unfold keyed, self, LightRAG.lightrag_service.
  split; [run_client_calls; repeat constructor; apply carries_key_json|].
  split; [run_client_calls; repeat constructor; apply carries_key_upload|].
  split; [run_client_calls; repeat constructor; apply carries_key_json|].
  split; [run_client_calls; repeat constructor; apply carries_key_json|].
  split; run_client_calls; repeat constructor; apply carries_key_json.
Qed.

Lemma rstrip_char_spec (c : ascii) (s : string) :
  Rows.ends_with c (Py.rstrip_char c s) = false /\
  exists k, s = (Py.rstrip_char c s ++ Rows.repeat_char c k)%string.
Proof.
  induction s as [|a s (IHe & k & IHk)]; simpl.
  - split; [reflexivity|]. exists 0. reflexivity.
  - destruct (Py.rstrip_char c s) as [|b r] eqn:E.
    + destruct (Ascii.eqb a c) eqn:Eq; simpl.
      * split; [reflexivity|]. exists (S k). simpl.
        apply Ascii.eqb_eq in Eq. subst a. simpl in IHk. rewrite <- IHk.
        reflexivity.
      * rewrite Eq. split; [reflexivity|]. exists k. simpl.
        simpl in IHk. rewrite <- IHk. reflexivity.
    + split; [exact IHe|]. exists k. simpl. simpl in IHk.
      rewrite <- IHk. reflexivity.
Qed.

(** X17. The client's base URL is the configured server URL without
    its trailing slashes: it does not end in a slash, and the
    configured URL is the base URL followed by slashes only. So the URL
    of a call joins base and path with exactly one slash. *)
Theorem base_url_has_no_trailing_slash (s : Settings) (q mode : string)
    (history : option (list Crud.HistoryEntry))
    (kwargs : list (string * option JValue)) :
  Rows.ends_with "/" (LightRAG.base_url (LightRAG.init s)) = false /\
  (exists k,
     lightrag_server_url s
     = (LightRAG.base_url (LightRAG.init s) ++ Rows.repeat_char "/" k)%string) /\
  url (LightRAG.query_call (LightRAG.init s) q mode history kwargs)
  = (LightRAG.base_url (LightRAG.init s) ++ "/query")%string.
Proof.
  destruct (rstrip_char_spec "/" (lightrag_server_url s)) as [H1 H2].
  split; [exact H1|]. split; [exact H2 | reflexivity].
Qed.

(** ** The payload of a query *)

Lemma dict_get_set_other (k k' : string) (v def : JValue) (d : Dict) :
  k <> k' ->
  LightRAG.dict_get k def (LightRAG.dict_set k' v d)
  = LightRAG.dict_get k def d.
Proof.
  intros Hne. unfold LightRAG.dict_get.
  induction d as [|[k0 v0] d IH]; simpl.
  - destruct (String.eqb_spec k' k); [congruence | reflexivity].
  - destruct (String.eqb_spec k0 k') as [E|E]; simpl.
    + subst k0. destruct (String.eqb_spec k' k); [congruence | reflexivity].
    + destruct (String.eqb k0 k); [reflexivity | exact IH].
Qed.

Lemma dict_get_set_same (k : string) (v def : JValue) (d : Dict) :
  LightRAG.dict_get k def (LightRAG.dict_set k v d) = v.
Proof.
  unfold LightRAG.dict_get.
  induction d as [|[k0 v0] d IH]; simpl.
  - rewrite String.eqb_refl. reflexivity.
  - destruct (String.eqb_spec k0 k) as [E|E]; simpl.
    + rewrite String.eqb_refl. reflexivity.
    + destruct (String.eqb_spec k0 k); [congruence | exact IH].
Qed.

Lemma keywords_leave_key (k : string) (def : JValue)
    (kwargs : list (string * option JValue)) (p : Dict) :
  (forall v, ~ In (k, Some v) kwargs) ->
  LightRAG.dict_get k def (fold_left Wire.add_keyword kwargs p)
  = LightRAG.dict_get k def p.
Proof.
  revert p. induction kwargs as [|[k0 o0] kwargs IH]; intros p H; simpl;
    [reflexivity|].
  rewrite IH.
  - unfold Wire.add_keyword. simpl. destruct o0 as [v0|]; [|reflexivity].
    apply dict_get_set_other. intros <-. apply (H v0). left. reflexivity.
  - intros v Hin. apply (H v). right. exact Hin.
Qed.

Lemma keywords_set_key (k : string) (v def : JValue)
    (kwargs : list (string * option JValue)) (p : Dict) :
  NoDup (map fst kwargs) -> In (k, Some v) kwargs ->
  LightRAG.dict_get k def (fold_left Wire.add_keyword kwargs p) = v.
Proof.
  revert p. induction kwargs as [|[k0 o0] kwargs IH]; intros p N Hin;
    [destruct Hin|].
  simpl in N. inversion N as [|? ? Hk0 N']; subst. simpl.
  destruct Hin as [[= -> ->]|Hin].
  - rewrite keywords_leave_key.
    + unfold Wire.add_keyword. simpl. apply dict_get_set_same.
    + intros v0 H0. apply Hk0. apply (in_map fst) in H0. exact H0.
  - apply IH; assumption.
Qed.

Lemma base_payload_other (k : string) (d : Dict) :
  ~ In k Wire.base_keys ->
  (forall k0 v0, In (k0, v0) d -> In k0 Wire.base_keys) ->
  LightRAG.dict_get k JNull d = JNull.
Proof.
  intros Hk Hd. unfold LightRAG.dict_get.
  induction d as [|[k0 v0] d IH]; simpl; [reflexivity|].
  destruct (String.eqb_spec k0 k) as [E|E].
  - subst k0. destruct Hk. apply (Hd k v0). left. reflexivity.
  - apply IH. intros k1 v1 H1. apply (Hd k1 v1). right. exact H1.
Qed.

(** X18. The payload of a query, for keyword arguments with distinct
    names other than the four keys the client sets itself: the query,
    the mode and the fixed prompt are always present; the history is
    present exactly when it is given and non-empty; every keyword
    argument with a value is present with that value, and every one
    given as [None] is left out. *)
Theorem query_payload_fields (q mode : string)
    (history : option (list Crud.HistoryEntry))
    (kwargs : list (string * option JValue)) :
  (forall k o, In (k, o) kwargs -> ~ In k Wire.base_keys) ->
  NoDup (map fst kwargs) ->
  let p := LightRAG.query_payload q mode history kwargs in
  LightRAG.dict_get "query" JNull p = JString q /\
  LightRAG.dict_get "mode" JNull p = JString mode /\
  LightRAG.dict_get "user_prompt" JNull p = JString LightRAG.USER_PROMPT /\
  LightRAG.dict_get "conversation_history" JNull p
  = match history with
    | Some (e :: h) => JHistory (e :: h)
    | _ => JNull
    end /\
  (forall k v, In (k, Some v) kwargs -> LightRAG.dict_get k JNull p = v) /\
  (forall k, In (k, None) kwargs -> LightRAG.dict_get k JNull p = JNull).
Proof.
  intros Hbase Hdup p. unfold p, LightRAG.query_payload.
  change (fun (p0 : Dict) (kv : string * option JValue) =>
            match snd kv with
            | Some v => LightRAG.dict_set (fst kv) v p0
            | None => p0
            end) with Wire.add_keyword.
  assert (Hkeep : forall k, In k Wire.base_keys ->
            forall v, ~ In (k, Some v) kwargs).
  { intros k Hk v Hin. apply (Hbase k (Some v) Hin Hk). }
  split; [|split; [|split; [|split; [|split]]]].
  - rewrite keywords_leave_key by (apply Hkeep; simpl; auto).
    destruct history as [[|e h]|]; reflexivity.
  - rewrite keywords_leave_key by (apply Hkeep; simpl; auto).
    destruct history as [[|e h]|]; reflexivity.
  - rewrite keywords_leave_key by (apply Hkeep; simpl; auto).
    destruct history as [[|e h]|]; reflexivity.
  - rewrite keywords_leave_key by (apply Hkeep; simpl; auto 6).
    destruct history as [[|e h]|]; reflexivity.
  - intros k v Hin. apply keywords_set_key; assumption.
  - intros k Hin. rewrite keywords_leave_key.
    + apply base_payload_other; [apply (Hbase k None Hin)|].
      intros k0 v0 H0.
      destruct history as [[|e h]|]; simpl in H0;
        repeat (destruct H0 as [[= <- _]|H0]; [simpl; auto 6|]);
        destruct H0.
    + intros v Hv.
      assert (Hsame : (k, Some v) = (k, None)).
      { apply (NoDup_map_eq fst kwargs); trivial. }
      discriminate.
Qed.

Lemma query_payload_fields_witness :
  LightRAG.dict_get "top_k" JNull
    (LightRAG.query_payload "Hello" "hybrid" None Chat.query_kwargs)
  = JInt 20.
Proof.
  refine (proj1 (proj2 (proj2 (proj2 (proj2
    (query_payload_fields "Hello" "hybrid" None Chat.query_kwargs _ _)))))
    "top_k"%string (JInt 20) _).
  - intros k o H.
    repeat (destruct H as [[= <- _]|H];
            [intros [E|[E|[E|[E|[]]]]]; discriminate|]).
    destruct H.
  - simpl. repeat (constructor; [simpl; intros H;
      repeat (destruct H as [H|H]; [discriminate|]); destruct H|]).
    constructor.
  - simpl. auto.
Defined.

(** ** More on documents *)

Lemma fs_lookup_unlink_other (p q : string) (files : FileSystem) :
  q <> p -> fs_lookup q (fs_unlink p files) = fs_lookup q files.
Proof.
  intros Hne. unfold fs_lookup, fs_unlink.
  induction files as [|[k data] files IH]; simpl; [reflexivity|].
  destruct (String.eqb_spec k p) as [E|E]; simpl.
  - subst k. destruct (String.eqb_spec p q); [congruence | exact IH].
  - destruct (String.eqb k q); [reflexivity | exact IH].
Qed.

Lemma fs_lookup_write_other (p q : string) (data : list Byte.byte)
    (files : FileSystem) :
  q <> p -> fs_lookup q (fs_write p data files) = fs_lookup q files.
Proof.
  intros Hne. unfold fs_write.
  change (fs_lookup q ((p, data) :: fs_unlink p files))
    with (match (if String.eqb p q then Some (p, data)
                 else find (fun e => String.eqb (fst e) q)
                        (fs_unlink p files)) with
          | Some e => Some (snd e)
          | None => None
          end).
  destruct (String.eqb_spec p q); [congruence|].
  apply (fs_lookup_unlink_other p q files Hne).
Qed.

(** X19. When the uploaded file passes validation but cannot be read or
    saved locally, the handler answers 500 before any call to the RAG
    server: the outbox and the database are as before, and so is every
    file but the one being saved. That one is untouched when the read
    fails or the save fails before the file is opened; when the copy
    fails, the bytes copied so far stay under the save path, for
    nothing removes them. *)
Theorem upload_local_failure (env : Env) (f : Documents.UploadFile)
    (w : World) :
  Documents.validate_file (settings env) f = Ok tt ->
  read_fault env = true \/ save_fault env = true ->
  exists w',
    Documents.upload_document env f w
    = (w', Raise (HTTPException HTTP_500_INTERNAL_SERVER_ERROR)) /\
    db w' = db w /\
    outbox w' = outbox w /\
    (forall q, q <> Documents.local_save_path env f ->
               fs_lookup q (fs w') = fs_lookup q (fs w)) /\
    fs_lookup (Documents.local_save_path env f) (fs w')
    = match read_fault env, copied_before_fault env with
      | false, Some n => Some (firstn n (Documents.file f))
      | _, _ => fs_lookup (Documents.local_save_path env f) (fs w)
      end.
Proof.
  intros Hv Hfault.
  unfold Documents.upload_document, try_except, bind, lift,
    Documents.read, Documents.save_uploaded_file, ret, raise.
  rewrite Hv.
  destruct (read_fault env).
  { exists w. repeat split. }
  destruct Hfault as [H|H]; [discriminate|]. rewrite H.
  destruct (copied_before_fault env) as [n|].
  - eexists. split; [reflexivity|]. simpl. repeat split.
    + intros q Hq. apply fs_lookup_write_other. exact Hq.
    + apply fs_lookup_write.
  - exists w. repeat split.
Qed.

Lemma upload_local_failure_witness :
  fs_lookup "./static/documents/Rapor (1)_3816aba6.pdf"
    (fs (fst (Documents.upload_document Cases.env_disk_full
                Scenario.report_pdf Scenario.w_empty)))
  = Some [Byte.x25; Byte.x50].
Proof.
  destruct (upload_local_failure Cases.env_disk_full Scenario.report_pdf
              Scenario.w_empty eq_refl (or_intror eq_refl))
    as (w' & E & _ & _ & _ & L).
  rewrite E. exact L.
Defined.

(** X20. An upload that is validated, saved and accepted by the RAG
    server can be served back: the response names the stored file and
    its size in bytes, the bytes forwarded are the bytes stored, every
    other file is as before, and [GET /api/documents/] with the
    returned name answers with exactly the uploaded bytes. *)
Theorem upload_then_serve (env : Env) (guess_type : string -> option string)
    (f : Documents.UploadFile) (w : World) :
  Documents.validate_file (settings env) f = Ok tt ->
  read_fault env = false ->
  save_fault env = false ->
  LightRAG.upload_rejects
    (rag_server env
       (LightRAG.upload_call (LightRAG.lightrag_service env)
          (Documents.file f) (Documents.unique_filename env f))) = false ->
  exists w' r served,
    Documents.upload_document env f w = (w', Ok r) /\
    upload_filename r = Some (Documents.unique_filename env f) /\
    file_size r = Some (List.length (Documents.file f)) /\
    db w' = db w /\
    map body (Wire.calls_since w w')
    = [FilesBody (Documents.unique_filename env f) (Documents.file f)
         "application/octet-stream"] /\
    (forall q, q <> Documents.local_save_path env f ->
               fs_lookup q (fs w') = fs_lookup q (fs w)) /\
    Serving.serve_document env guess_type (Documents.unique_filename env f) w'
    = (w', Ok served) /\
    Serving.content_bytes served = Documents.file f /\
    Serving.download_name served = Documents.unique_filename env f.
Proof.
  intros Hv Hr Hs Hacc.
  pose proof (upload_after_save env f w Hv Hr Hs) as Hrun. cbv zeta in Hrun.
  rewrite Hacc in Hrun.
  eexists _, _, _. split; [exact Hrun|].
  cbn [upload_filename file_size db fs outbox].
  split; [reflexivity|]. split; [reflexivity|]. split; [reflexivity|].
  split.
  { unfold Wire.calls_since. cbn [outbox].
    rewrite skipn_length_app. reflexivity. }
  split.
  { intros q Hq. apply fs_lookup_write_other. exact Hq. }
  split.
  { unfold Serving.serve_document, try_except. cbn [fs].
    fold (Documents.local_save_path env f).
    rewrite fs_lookup_write. reflexivity. }
  split; reflexivity.
Qed.

Lemma upload_then_serve_witness :
  exists served,
    Serving.serve_document Scenario.env_ok Cases.guess_by_extension
      "Rapor (1)_3816aba6.pdf"
      (fst (Documents.upload_document Scenario.env_ok Scenario.report_pdf
              Scenario.w_empty))
    = (fst (Documents.upload_document Scenario.env_ok Scenario.report_pdf
              Scenario.w_empty), Ok served) /\
    Serving.content_bytes served = Documents.file Scenario.report_pdf.
Proof.
  destruct (upload_then_serve Scenario.env_ok Cases.guess_by_extension
              Scenario.report_pdf Scenario.w_empty
              eq_refl eq_refl eq_refl eq_refl)
    as (w' & r & served & Hup & _ & _ & _ & _ & _ & Hserve & Hbytes & _).
  exists served. injection Hup as <- _. split; [exact Hserve | exact Hbytes].
Defined.

(** X21. A file whose forward to the RAG server failed is not served:
    after such an upload [GET /api/documents/] with the name it was
    saved under answers 404, as it does for any name nothing is stored
    under, and serving changes nothing. *)
Theorem failed_upload_is_not_served (env : Env)
    (guess_type : string -> option string) (f : Documents.UploadFile)
    (w : World) :
  Documents.validate_file (settings env) f = Ok tt ->
  read_fault env = false ->
  save_fault env = false ->
  LightRAG.upload_rejects
    (rag_server env
       (LightRAG.upload_call (LightRAG.lightrag_service env)
          (Documents.file f) (Documents.unique_filename env f))) = true ->
  Serving.serve_document env guess_type (Documents.unique_filename env f)
    (fst (Documents.upload_document env f w))
  = (fst (Documents.upload_document env f w),
     Raise (HTTPException HTTP_404_NOT_FOUND)) /\
  forall name w0,
    fs_lookup (Py.path_join (documents_dir (settings env)) name) (fs w0)
    = None ->
    Serving.serve_document env guess_type name w0
    = (w0, Raise (HTTPException HTTP_404_NOT_FOUND)).
Proof.
  intros Hv Hr Hs Hrej.
  assert (Hmissing : forall name w0,
            fs_lookup (Py.path_join (documents_dir (settings env)) name)
              (fs w0) = None ->
            Serving.serve_document env guess_type name w0
            = (w0, Raise (HTTPException HTTP_404_NOT_FOUND))).
  { intros name w0 H. unfold Serving.serve_document, try_except.
    rewrite H. reflexivity. }
  split; [|exact Hmissing].
  apply Hmissing.
  rewrite (upload_after_save env f w Hv Hr Hs). cbv zeta.
  rewrite Hrej. cbn [fst fs].
  fold (Documents.local_save_path env f).
  pose proof (fs_exists_unlink (Documents.local_save_path env f) (fs w)) as E.
  unfold fs_exists in E.
  destruct (fs_lookup (Documents.local_save_path env f)
              (fs_unlink (Documents.local_save_path env f) (fs w)));
    [discriminate | reflexivity].
Qed.

Lemma failed_upload_is_not_served_witness :
  Serving.serve_document Scenario.env_rag_down Cases.guess_by_extension
    "Rapor (1)_3816aba6.pdf"
    (fst (Documents.upload_document Scenario.env_rag_down
            Scenario.report_pdf Scenario.w_empty))
  = (fst (Documents.upload_document Scenario.env_rag_down
            Scenario.report_pdf Scenario.w_empty),
     Raise (HTTPException HTTP_404_NOT_FOUND)).
Proof.
  exact (proj1
    (failed_upload_is_not_served Scenario.env_rag_down
       Cases.guess_by_extension Scenario.report_pdf Scenario.w_empty
       eq_refl eq_refl eq_refl eq_refl)).
Defined.

(** ** Status and health *)

Lemma client_calls (env : Env) (self : LightRAG.LightRAGService) :
  LightRAG.scan_documents env self
  = LightRAG.log_and_reraise (LightRAG.send env (Wire.scan_call self)) /\
  LightRAG.get_pipeline_status env self
  = LightRAG.log_and_reraise
      (LightRAG.send env (Wire.pipeline_status_call self)) /\
  LightRAG.health_check env self
  = LightRAG.log_and_reraise (LightRAG.send env (Wire.health_call self)).
Proof. repeat split. Qed.

(** X22. The two status handlers pass the server's answer through and
    turn every failure of their one call into 503, never into 500:
    [POST /api/documents/scan] posts to [/documents/scan],
    [GET /api/documents/pipeline/status] gets
    [/documents/pipeline_status], and either returns the JSON object of
    the reply when there is one and raises 503 otherwise. *)
Theorem status_handlers (env : Env) (w : World) :
  Serving.trigger_document_scan env w
  = (sent w (Wire.scan_call (LightRAG.lightrag_service env)),
     match rag_server env (Wire.scan_call (LightRAG.lightrag_service env))
     with
     | Json obj => Ok obj
     | _ => Raise (HTTPException HTTP_503_SERVICE_UNAVAILABLE)
     end) /\
  Serving.get_pipeline_status env w
  = (sent w (Wire.pipeline_status_call (LightRAG.lightrag_service env)),
     match rag_server env
             (Wire.pipeline_status_call (LightRAG.lightrag_service env))
     with
     | Json obj => Ok obj
     | _ => Raise (HTTPException HTTP_503_SERVICE_UNAVAILABLE)
     end).
Proof.
  split.
  - unfold Serving.trigger_document_scan, LightRAG.scan_documents,
      LightRAG.log_and_reraise, try_except, LightRAG.send,
      Serving.any_to_503, raise.
    fold (Wire.scan_call (LightRAG.lightrag_service env)).
    destruct (rag_server env (Wire.scan_call (LightRAG.lightrag_service env)));
      reflexivity.
  - unfold Serving.get_pipeline_status, LightRAG.get_pipeline_status,
      LightRAG.log_and_reraise, try_except, LightRAG.send,
      Serving.any_to_503, raise.
    fold (Wire.pipeline_status_call (LightRAG.lightrag_service env)).
    destruct (rag_server env
                (Wire.pipeline_status_call (LightRAG.lightrag_service env)));
      reflexivity.
Qed.

(** X23. [GET /health] always answers, after exactly one call to the
    RAG server: a GET of [/health] with a timeout of 10 seconds. The
    status is "healthy" exactly when [SELECT 1] succeeds and the server
    answers with JSON, and "degraded" in every other case; the two
    services are reported one by one. *)
Theorem health_check_reports (env : Env) (select_1_fault : bool)
    (w : World) :
  exists r,
    Serving.health_check env select_1_fault w
    = (sent w (Wire.health_call (LightRAG.lightrag_service env)), Ok r) /\
    Serving.services r
    = [("database"%string,
        if select_1_fault then "unhealthy"%string else "healthy"%string);
       ("lightrag"%string,
        match rag_server env
                (Wire.health_call (LightRAG.lightrag_service env)) with
        | Json _ => "healthy"%string
        | _ => "unhealthy"%string
        end)] /\
    Serving.health_status r
    = match select_1_fault,
            rag_server env
              (Wire.health_call (LightRAG.lightrag_service env)) with
      | false, Json _ => "healthy"%string
      | _, _ => "degraded"%string
      end.
Proof.
  unfold Serving.health_check, try_except, bind, ret, raise,
    LightRAG.health_check, LightRAG.log_and_reraise, try_except,
    LightRAG.send.
  fold (Wire.health_call (LightRAG.lightrag_service env)).
  destruct (rag_server env (Wire.health_call (LightRAG.lightrag_service env)));
    destruct select_1_fault; eexists; (split; [reflexivity|]);
    split; reflexivity.
Qed.

(** ** The conversation handlers *)

Lemma execute_inv {A : Type} (fault : bool)
    (stmt : Database -> Outcome (Database * A)) (w w' : World)
    (r : Outcome A) :
  Rows.execute fault stmt w = (w', r) ->
  fs w' = fs w /\ outbox w' = outbox w /\
  match r with
  | Ok a => fault = false /\ stmt (db w) = Ok (db w', a)
  | Raise _ => w' = w
  end.
Proof.
  unfold Rows.execute. destruct fault.
  - intros [= <- <-]. auto.
  - destruct (stmt (db w)) as [[d a]|e]; intros [= <- <-]; simpl; auto.
Qed.

Lemma execute_reading {A : Type} (q : Database -> A) (w : World) :
  Rows.execute false (Rows.reading q) w = (w, Ok (q (db w))).
Proof. unfold Rows.execute, Rows.reading. rewrite world_eta. reflexivity. Qed.

Lemma deleted_rows_gone (d d' : Database) (cid : UUID) :
  Rows.delete_conversation cid d = Ok (d', true) ->
  Crud.get_conversation d' cid = Ok None /\
  Crud.conversation_exists d' cid = false /\
  Crud.get_conversation_message_count d' cid = 0.
Proof.
  unfold Rows.delete_conversation.
  destruct (Crud.get_conversation d cid) as [[c|]|e]; intros [= <-].
  unfold Crud.get_conversation, Crud.select_conversation,
    Crud.conversation_exists, Crud.get_conversation_message_count. simpl.
  repeat split.
  - rewrite (filter_filter_neg (fun c0 => (conv_id c0 =? cid)%N)).
    reflexivity.
  - apply not_true_is_false. intros H. apply existsb_exists in H.
    destruct H as (x & Hx & Hid). apply filter_In in Hx.
    destruct Hx as [_ Hx]. rewrite Hid in Hx. discriminate.
  - rewrite (filter_filter_neg (in_conversation cid)). reflexivity.
Qed.

(** X24. Once [DELETE /api/conversations/{id}] has answered with
    success, the conversation is gone for every handler: it has no
    messages left, and reading it, listing its messages or deleting it
    again each answer 404 and change nothing. The deletion itself
    touches neither the files nor the outbox. *)
Theorem deleted_conversation_is_gone (fault : nat -> bool)
    (str_of_uuid : UUID -> string) (cid : UUID) (w w1 : World)
    (r : Conversations.SuccessResponse) :
  Conversations.delete_conversation fault str_of_uuid cid w = (w1, Ok r) ->
  Conversations.success r = true /\
  fs w1 = fs w /\ outbox w1 = outbox w /\
  Crud.get_conversation_message_count (db w1) cid = 0 /\
  forall (later : nat -> bool) (skip limit : nat),
    later 0 = false ->
    Conversations.get_conversation later cid w1
    = (w1, Raise (HTTPException HTTP_404_NOT_FOUND)) /\
    Conversations.get_conversation_messages later cid skip limit w1
    = (w1, Raise (HTTPException HTTP_404_NOT_FOUND)) /\
    Conversations.delete_conversation later str_of_uuid cid w1
    = (w1, Raise (HTTPException HTTP_404_NOT_FOUND)).
Proof.
  unfold Conversations.delete_conversation at 1. unfold try_except, bind.
  destruct (Rows.execute (fault 0) (Rows.delete_conversation cid) w)
    as [w2 [deleted|e]] eqn:E.
  2:{ destruct e; discriminate. }
  destruct deleted; simpl; [|discriminate].
  unfold ret. intros [= <- <-].
  apply execute_inv in E. destruct E as (Hf & Ho & _ & E).
  apply deleted_rows_gone in E. destruct E as (G & X & C).
  split; [reflexivity|]. repeat split; try assumption.
  - unfold Conversations.get_conversation, try_except, bind,
      Rows.execute, Rows.reading_or_raise.
    rewrite H, G, world_eta. reflexivity.
  - unfold Conversations.get_conversation_messages, try_except, bind.
    rewrite H, execute_reading, X. reflexivity.
  - unfold Conversations.delete_conversation, try_except, bind,
      Rows.execute, Rows.delete_conversation.
    rewrite H, G, world_eta. reflexivity.
Qed.

Lemma deleted_conversation_is_gone_witness :
  Conversations.get_conversation Cases.never 1%N
    (fst (Conversations.delete_conversation Cases.never (fun _ => "1"%string)
            1%N Scenario.w_one_turn))
  = (fst (Conversations.delete_conversation Cases.never (fun _ => "1"%string)
            1%N Scenario.w_one_turn),
     Raise (HTTPException HTTP_404_NOT_FOUND)).
Proof.
  refine (proj1 (proj2 (proj2 (proj2 (proj2
    (deleted_conversation_is_gone Cases.never (fun _ => "1"%string) 1%N
       Scenario.w_one_turn
       (fst (Conversations.delete_conversation Cases.never
               (fun _ => "1"%string) 1%N Scenario.w_one_turn))
       {| Conversations.success := true;
          Conversations.success_message :=
            "Conversation 1 deleted successfully" |}
       eq_refl)))) Cases.never 0 10 eq_refl)).
Defined.

Lemma no_messages_of_unknown_conversation (d : Database) (cid : UUID) :
  Rows.keys_ok d -> Crud.conversation_exists d cid = false ->
  Crud.get_conversation_message_count d cid = 0.
Proof.
  intros (_ & _ & K3) Hnew. unfold Crud.get_conversation_message_count.
  replace (filter (in_conversation cid) (messages d)) with (@nil Message);
    [reflexivity|].
  symmetry. apply existsb_false_filter.
  apply not_true_is_false. intros H. apply existsb_exists in H.
  destruct H as (m & Hm & Hc). apply N.eqb_eq in Hc.
  specialize (K3 m Hm). rewrite Hc in K3. congruence.
Qed.

(** X25. A conversation created through [POST /api/conversations/new]
    starts empty, as the handler expects: in a database whose keys are
    in order the response reports 0 messages, carries the given title
    and user and the fresh identifier, the lookup of that identifier
    finds the new row, and no message row changes. *)
Theorem new_conversation_is_empty (env : Env) (fault : nat -> bool)
    (conversation : ConversationCreate) (w w1 : World)
    (r : Conversations.ConversationResponse) :
  Rows.keys_ok (db w) ->
  Conversations.create_new_conversation env fault conversation w
  = (w1, Ok r) ->
  Conversations.response_message_count r = Some 0 /\
  Conversations.id r = uuid4 env CreateConversation /\
  Conversations.response_title r = cc_title conversation /\
  Conversations.response_user_id r = cc_user_id conversation /\
  Crud.get_conversation (db w) (Conversations.id r) = Ok None /\
  (exists c, Crud.get_conversation (db w1) (Conversations.id r)
             = Ok (Some c) /\ title c = cc_title conversation) /\
  messages (db w1) = messages (db w).
Proof.
  intros K. unfold Conversations.create_new_conversation, try_except.
  destruct (bind _ _ w) as [w2 [a|e]] eqn:E; [|intros [=]].
  intros [= <- <-].
  apply bind_inv in E.
  destruct E as [(w3 & c & E1 & E) | (e & _ & He)]; [|discriminate].
  apply bind_inv in E.
  destruct E as [(w4 & n & E2 & E) | (e & _ & He)]; [|discriminate].
  unfold ret in E. injection E as <- <-.
  unfold Store.create_conversation in E1.
  apply db_call_inv in E1. destruct E1 as (_ & _ & _ & E1). simpl in E1.
  destruct (Crud.conversation_exists (db w) (uuid4 env CreateConversation))
    eqn:X; [discriminate|].
  injection E1 as Hd <-.
  apply execute_inv in E2. destruct E2 as (_ & _ & _ & E2).
  unfold Rows.reading in E2. injection E2 as Hd4 <-. simpl in *.
  assert (Hmsgs : messages (db w3) = messages (db w))
    by (rewrite <- Hd; reflexivity).
  assert (Hcount : Crud.get_conversation_message_count (db w3)
                     (uuid4 env CreateConversation) = 0).
  { unfold Crud.get_conversation_message_count. rewrite Hmsgs.
    apply (no_messages_of_unknown_conversation (db w) _ K X). }
  rewrite Hcount. rewrite <- Hd4.
  repeat split.
  - unfold Crud.get_conversation, Crud.select_conversation.
    unfold Crud.conversation_exists in X.
    rewrite (existsb_false_filter _ _ X). reflexivity.
  - eexists. split.
    + unfold Crud.get_conversation, Crud.select_conversation.
      rewrite <- Hd. simpl. rewrite filter_app.
      unfold Crud.conversation_exists in X.
      rewrite (existsb_false_filter _ _ X). simpl.
      rewrite N.eqb_refl. reflexivity.
    + reflexivity.
  - exact Hmsgs.
Qed.

Lemma new_conversation_is_empty_witness :
  Conversations.response_message_count
    (Conversations.conversation_response
       {| conv_id := 100%N; title := Some "Report"%string;
          created_at := 1000%Z; user_id := None |} 0)
  = Some 0.
Proof.
  refine (proj1
    (new_conversation_is_empty Scenario.env_ok Cases.never
       {| cc_title := Some "Report"%string; cc_user_id := None |}
       Scenario.w_one_turn
       (fst (Conversations.create_new_conversation Scenario.env_ok
               Cases.never
               {| cc_title := Some "Report"%string; cc_user_id := None |}
               Scenario.w_one_turn))
       _ _ eq_refl)).
  split; [|split]; simpl.
  - constructor; [intros []|constructor].
  - constructor; [intros [H|[]]; discriminate|].
    constructor; [intros []|constructor].
  - intros m [<-|[<-|[]]]; reflexivity.
Defined.

Lemma renamed_row_found (d d' : Database) (cid : UUID) (t : string)
    (c' : Conversation) :
  Rows.update_conversation_title cid t d = Ok (d', Some c') ->
  Crud.get_conversation d' cid = Ok (Some c') /\
  title c' = Some t /\ conv_id c' = cid /\ messages d' = messages d.
Proof.
  unfold Rows.update_conversation_title.
  destruct (Crud.get_conversation d cid) as [[c|]|e] eqn:G;
    intros [= <- <-].
  pose proof (get_conversation_some_id _ _ _ G) as Hid.
  unfold Crud.get_conversation, Crud.select_conversation in *. simpl.
  apply scalar_one_or_none_some in G.
  repeat split; try assumption.
  rewrite filter_map_same.
  - rewrite G. simpl. rewrite Hid, N.eqb_refl. reflexivity.
  - intros a. destruct (conv_id a =? cid)%N eqn:X; simpl; rewrite X;
      reflexivity.
Qed.

(** X26. When the handler behind [PATCH /api/conversations/{id}/title]
    succeeds, its response carries the new title and the identifier
    asked for, the message rows, the files and the outbox are as
    before, and a following [GET /api/conversations/{id}] whose two
    database calls succeed returns that very response and changes
    nothing. *)
Theorem renamed_conversation_is_read_back (fault : nat -> bool)
    (cid : UUID) (t : string) (w w1 : World)
    (r : Conversations.ConversationResponse) :
  Conversations.update_conversation_title fault cid t w = (w1, Ok r) ->
  Conversations.response_title r = Some t /\
  Conversations.id r = cid /\
  messages (db w1) = messages (db w) /\
  fs w1 = fs w /\ outbox w1 = outbox w /\
  forall later : nat -> bool,
    later 0 = false -> later 1 = false ->
    Conversations.get_conversation later cid w1 = (w1, Ok r).
Proof.
  unfold Conversations.update_conversation_title, try_except.
  destruct (bind _ _ w) as [w2 [a|e]] eqn:E; [|destruct e; intros [=]].
  intros [= <- <-].
  apply bind_inv in E.
  destruct E as [(w3 & u & E1 & E) | (e & _ & He)]; [|discriminate].
  destruct u as [c'|]; [|discriminate].
  apply bind_inv in E.
  destruct E as [(w4 & n & E2 & E) | (e & _ & He)]; [|discriminate].
  unfold ret in E. injection E as <- <-.
  apply execute_inv in E1. destruct E1 as (Hf1 & Ho1 & _ & E1).
  apply renamed_row_found in E1. destruct E1 as (G & Ht & Hid & Hm).
  apply execute_inv in E2. destruct E2 as (Hf2 & Ho2 & _ & E2).
  unfold Rows.reading in E2. injection E2 as Hd <-.
  assert (Hw : w4 = w3).
  { destruct w3, w4; simpl in *; congruence. }
  subst w4. simpl.
  repeat split; try assumption.
  intros later L0 L1.
  unfold Conversations.get_conversation, try_except, bind.
  rewrite L0, L1.
  unfold Rows.execute at 1. unfold Rows.reading_or_raise.
  rewrite G, world_eta. rewrite execute_reading. reflexivity.
Qed.

Lemma renamed_conversation_is_read_back_witness :
  Conversations.get_conversation Cases.never 1%N
    (Scenario.world_of (Some "Report"%string) [])
  = (Scenario.world_of (Some "Report"%string) [],
     Ok (Conversations.conversation_response
           (Scenario.conversation_titled (Some "Report"%string)) 0)).
Proof.
  refine (proj2 (proj2 (proj2 (proj2 (proj2
    (renamed_conversation_is_read_back Cases.never 1%N "Report"%string
       Scenario.w_blank_title
       (Scenario.world_of (Some "Report"%string) [])
       (Conversations.conversation_response
          (Scenario.conversation_titled (Some "Report"%string)) 0)
       eq_refl))))) Cases.never eq_refl eq_refl).
Defined.

(** ** The session dependency *)

(** X27. Through [Depends(get_db)] an exception of the handler reaches
    the client as 503, whatever the handler raised: an upload request,
    and a chat request whose body passes its schema, is answered with
    200 exactly when the handler returns and with 503 otherwise, and
    leaves the world as the handler left it. So the 400, 404 and 500 of
    these two handlers are never the status of the response. *)
Theorem get_db_answers_503 (env : Env) (f : Documents.UploadFile)
    (cid : option UUID) (raw : string) (request : ChatRequest)
    (w : World) :
  new_ChatRequest cid raw = Ok request ->
  fst (Documents.post_upload env f w)
  = fst (Documents.upload_document env f w) /\
  status (snd (Documents.post_upload env f w))
  = match snd (Documents.upload_document env f w) with
    | Ok _ => 200
    | Raise _ => HTTP_503_SERVICE_UNAVAILABLE
    end /\
  fst (Chat.post_chat env cid raw w) = fst (Chat.chat env request w) /\
  status (snd (Chat.post_chat env cid raw w))
  = match snd (Chat.chat env request w) with
    | Ok _ => 200
    | Raise _ => HTTP_503_SERVICE_UNAVAILABLE
    end.
Proof.
  intros V. rewrite post_chat_steps, V.
  unfold Documents.post_upload, respond, Dependencies.get_db, try_except,
    raise.
  destruct (Documents.upload_document env f w) as [w1 [a1|e1]];
    destruct (Chat.chat env request w) as [w2 [a2|e2]]; simpl;
    repeat split.
Qed.

Lemma get_db_answers_503_witness :
  status (snd (Documents.post_upload Scenario.env_ok Scenario.script_exe
                 Scenario.w_empty))
  = HTTP_503_SERVICE_UNAVAILABLE.
Proof.
  exact (proj1 (proj2
    (get_db_answers_503 Scenario.env_ok Scenario.script_exe None
       "Hello"%string Scenario.request_new Scenario.w_empty eq_refl))).
Defined.
